(** * mlx5 provider, verbs layer: queue sizing, BF registers, object lifecycle

    A shallow embedding of [providers/mlx5/verbs.c].  C integers are
    mathematical integers with the wrap-around of every conversion written
    out; structs are records; pointers into the provider's heap are
    identifiers into finite maps; calls that leave the file (kernel commands,
    the allocator, the environment) are answered by an explicit record of
    outcomes and logged in a trace. *)

From Stdlib Require Import ZArith List Bool Lia.
From stdpp Require Import base option list gmap.

Local Open Scope Z_scope.

(** ** C integer model *)

Module C.

(** Conversion to [unsigned int] / [uint32_t]. *)
Definition to_uint (x : Z) : Z := x mod 2 ^ 32.

(** Conversion to [int]: two's complement wrap.  Signed overflow of an
    [int] expression is rendered by the same wrap, which is what the
    generated code does on the targets the provider is built for. *)
Definition to_int (x : Z) : Z := (x + 2 ^ 31) mod 2 ^ 32 - 2 ^ 31.

(** Conversion to [size_t] / [unsigned long] (LP64). *)
Definition to_ulong (x : Z) : Z := x mod 2 ^ 64.

Definition INT_MAX : Z := 2 ^ 31 - 1.

(** Integer division.  Division by zero has no result: the process traps. *)
Definition div (a b : Z) : option Z :=
  if b =? 0 then None else Some (Z.quot a b).

(** errno values (Linux). *)
Definition ENOENT : Z := 2.
Definition ENOMEM : Z := 12.
Definition EBUSY : Z := 16.
Definition EINVAL : Z := 22.
Definition ENOSYS : Z := 38.
Definition ENOTSUP : Z := 95.

(** [a & b] is non-zero. *)
Definition bits (a b : Z) : bool := negb (Z.land a b =? 0).

End C.

Arguments C.to_uint : simpl never.
Arguments C.to_int : simpl never.
Arguments C.to_ulong : simpl never.
Arguments C.div : simpl never.
Arguments C.bits : simpl never.

(** ** Declarations the file takes from the provider's headers

    [verbs.c] includes [mlx5.h], [mlx5dv.h], [wqe.h] and [verbs.h]; the
    sizes of the wire segments, the flag bits and [mlx5_ilog2] are declared
    there.  They are parameters of the development. *)

Record wqe_layout := {
  sizeof_ctrl_seg : Z;
  sizeof_data_seg : Z;
  sizeof_inl_data_seg : Z;
  sizeof_raddr_seg : Z;
  sizeof_atomic_seg : Z;
  sizeof_datagram_seg : Z;
  sizeof_xrc_seg : Z;
  sizeof_eth_seg : Z;
  sizeof_eth_pad : Z;
  sizeof_umr_ctrl_seg : Z;
  sizeof_mkey_context_seg : Z;
  sizeof_umr_klm_seg : Z;
  sizeof_rwqe_sig : Z
}.

Record flag_bits := {
  IBV_QP_INIT_ATTR_PD : Z;
  IBV_QP_INIT_ATTR_XRCD : Z;
  IBV_QP_INIT_ATTR_CREATE_FLAGS : Z;
  IBV_QP_INIT_ATTR_MAX_TSO_HEADER : Z;
  IBV_QP_INIT_ATTR_IND_TABLE : Z;
  IBV_QP_INIT_ATTR_RX_HASH : Z;
  IBV_QP_CREATE_SOURCE_QPN : Z;
  MLX5_QP_FLAGS_USE_UNDERLAY : Z;
  MLX5DV_QP_INIT_ATTR_MASK_QP_CREATE_FLAGS : Z;
  MLX5DV_QP_INIT_ATTR_MASK_DC : Z;
  MLX5DV_QP_CREATE_TUNNEL_OFFLOADS : Z;
  MLX5_QP_FLAG_SIGNATURE : Z;
  MLX5_QP_FLAG_SCATTER_CQE : Z;
  MLX5_QP_FLAG_TUNNEL_OFFLOADS : Z;
  MLX5_QP_FLAG_BFREG_INDEX : Z;
  MLX5_QP_FLAG_TYPE_DCT : Z;
  MLX5_QP_FLAG_TYPE_DCI : Z;
  MLX5_WQE_CTRL_CQ_UPDATE : Z;
  IBV_QP_STATE : Z;
  IBV_QP_CUR_STATE : Z;
  IBV_QP_PORT : Z;
  IBV_QP_RATE_LIMIT : Z;
  IBV_DEVICE_UD_IP_CSUM : Z;
  IBV_DEVICE_RAW_IP_CSUM : Z;
  MLX5_CSUM_SUPPORT_UNDERLAY_UD : Z;
  MLX5_CSUM_SUPPORT_RAW_OVER_ETH : Z;
  MLX5_RX_CSUM_VALID : Z;
  IBV_CQ_INIT_ATTR_MASK_FLAGS : Z;
  IBV_CREATE_CQ_ATTR_SINGLE_THREADED : Z;
  CREATE_CQ_SUPPORTED_WC_FLAGS : Z;
  MLX5_CQ_FLAGS_EXTENDED : Z;
  MLX5_CQ_FLAGS_SINGLE_THREADED : Z;
  MLX5DV_CQ_INIT_ATTR_MASK_COMPRESSED_CQE : Z;
  MLX5DV_CQ_INIT_ATTR_MASK_FLAGS : Z;
  MLX5DV_CQ_INIT_ATTR_MASK_RESERVED : Z;
  MLX5DV_CQ_INIT_ATTR_FLAGS_CQE_PAD : Z;
  MLX5DV_CQ_INIT_ATTR_FLAGS_RESERVED : Z;
  MLX5_VENDOR_CAP_FLAGS_CQE_128B_PAD : Z;
  MLX5_CREATE_CQ_FLAGS_CQE_128B_PAD : Z;
  IBV_WC_STANDARD_FLAGS : Z;
  IBV_LINK_LAYER_ETHERNET : Z;
  IBV_QPT_RAW_PACKET_BIT : Z
}.

Record bf_layout := {
  MLX5_NUM_NON_FP_BFREGS_PER_UAR : Z;
  MLX5_ADAPTER_PAGE_SIZE : Z;
  MLX5_BF_OFFSET : Z
}.

(** The values the provider's headers give (used to run the model on
    concrete requests). *)
Definition mlx5_wqe_layout : wqe_layout :=
  {| sizeof_ctrl_seg := 16; sizeof_data_seg := 16; sizeof_inl_data_seg := 4;
     sizeof_raddr_seg := 16; sizeof_atomic_seg := 16;
     sizeof_datagram_seg := 48; sizeof_xrc_seg := 16; sizeof_eth_seg := 32;
     sizeof_eth_pad := 16; sizeof_umr_ctrl_seg := 48;
     sizeof_mkey_context_seg := 64; sizeof_umr_klm_seg := 16;
     sizeof_rwqe_sig := 16 |}.

Definition mlx5_bf_layout : bf_layout :=
  {| MLX5_NUM_NON_FP_BFREGS_PER_UAR := 2;
     MLX5_ADAPTER_PAGE_SIZE := 4096;
     MLX5_BF_OFFSET := 2048 |}.

(** Modelled from the spec: [MLX5_SEND_WQE_BB] (mlx5dv.h) is the hardware
    basic-block size, 64 bytes. *)
Definition MLX5_SEND_WQE_BB : Z := 64.

(** Modelled from the spec: [align] (mlx5.h) rounds its first argument up to
    a boundary that is a power of two; its arguments and result are
    [unsigned long]. *)
Definition align (val a : Z) : Z := C.to_ulong ((val + a - 1) / a * a).

Arguments align : simpl never.

(** [max_int], [max] and [max_t]: the larger of two values. *)
Definition max_int (a b : Z) : Z := if a >? b then a else b.

(** ** Enumerations *)

Inductive ibv_qp_type :=
| IBV_QPT_RC | IBV_QPT_UC | IBV_QPT_UD | IBV_QPT_RAW_PACKET
| IBV_QPT_XRC_SEND | IBV_QPT_XRC_RECV | IBV_QPT_DRIVER
| IBV_QPT_OTHER (v : Z).

Inductive mlx5dv_dc_type :=
| DC_NONE | MLX5DV_DCTYPE_DCT | MLX5DV_DCTYPE_DCI | DC_OTHER (v : Z).

Inductive ibv_qp_state :=
| IBV_QPS_RESET | IBV_QPS_INIT | IBV_QPS_RTR | IBV_QPS_RTS
| IBV_QPS_SQD | IBV_QPS_SQE | IBV_QPS_ERR | IBV_QPS_UNKNOWN.

Inductive mlx5_rsc_type :=
| RSC_NONE | MLX5_RSC_TYPE_QP | MLX5_RSC_TYPE_XSRQ | MLX5_RSC_TYPE_SRQ
| MLX5_RSC_TYPE_RWQ.

#[global] Instance ibv_qp_type_eq_dec : EqDecision ibv_qp_type.
Proof. solve_decision. Defined.
#[global] Instance mlx5dv_dc_type_eq_dec : EqDecision mlx5dv_dc_type.
Proof. solve_decision. Defined.
#[global] Instance ibv_qp_state_eq_dec : EqDecision ibv_qp_state.
Proof. solve_decision. Defined.
#[global] Instance mlx5_rsc_type_eq_dec : EqDecision mlx5_rsc_type.
Proof. solve_decision. Defined.

Definition is_xrc_tgt (type : ibv_qp_type) : bool :=
  bool_decide (type = IBV_QPT_XRC_RECV).


(** ** Data model *)

(** [struct mlx5_bf]: a BF register.  [reg] and [uar] are addresses,
    [None] is [NULL]. *)
Record mlx5_bf := {
  bf_reg : option Z;
  bf_uar : option Z;
  bf_uuarn : Z;
  bf_buf_size : Z;
  bf_bfreg_dyn_index : Z;
  bf_uar_mmap_offset : Z;
  bf_need_lock : Z
}.

(** [struct mlx5_context]: the adapter limits, the dynamic BF registers and
    the resource index tables. *)
Record mlx5_context := {
  max_sq_desc_sz : Z;
  max_rq_desc_sz : Z;
  max_send_wqebb : Z;
  ctx_max_recv_wr : Z;
  cqe_version : Z;
  atomic_cap_hca : bool;
  cached_device_cap_flags : Z;
  cached_link_layer : list Z;
  cached_tso_max_tso : Z;
  cached_tso_supported_qpts : Z;
  cqe_comp_max_num : Z;
  cqe_comp_supported_format : Z;
  vendor_cap_flags : Z;
  page_size : Z;
  num_uars_per_page : Z;
  bf_reg_size : Z;
  num_dyn_bfregs : Z;
  count_dyn_bfregs : list Z;
  start_dyn_bfregs_index : Z;
  bfs : list mlx5_bf;
  qp_table : gmap Z nat;
  srq_table : gmap Z nat;
  uidx_table : gmap Z nat
}.

(** [struct ibv_qp_cap]: all fields are [uint32_t]. *)
Record ibv_qp_cap := {
  max_send_wr : Z;
  max_recv_wr : Z;
  max_send_sge : Z;
  max_recv_sge : Z;
  max_inline_data : Z
}.

(** [struct ibv_qp_init_attr_ex]. *)
Record ibv_qp_init_attr_ex := {
  attr_send_cq : option nat;
  attr_recv_cq : option nat;
  attr_srq : option nat;
  cap : ibv_qp_cap;
  qp_type : ibv_qp_type;
  sq_sig_all : Z;
  comp_mask : Z;
  attr_pd : option nat;
  create_flags : Z;
  max_tso_header : Z;
  rx_hash_key_len : Z
}.

(** [struct mlx5dv_qp_init_attr]. *)
Record mlx5dv_qp_init_attr := {
  dv_comp_mask : Z;
  dv_create_flags : Z;
  dv_dc_type : mlx5dv_dc_type;
  dct_access_key : Z
}.

(** [struct ibv_qp_attr], the fields the provider reads. *)
Record ibv_qp_attr := {
  qp_state : ibv_qp_state;
  port_num : Z
}.

(** [struct mlx5_wq].  The per-slot arrays are represented by their element
    count ([None] is [NULL]); [qend] is a buffer and an offset in it. *)
Record mlx5_wq := {
  wrid : option Z;
  wqe_head : option Z;
  wr_data : option Z;
  wqe_cnt : Z;
  max_post : Z;
  head : Z;
  tail : Z;
  cur_post : Z;
  max_gs : Z;
  wqe_shift : Z;
  offset : Z;
  qend : option (nat * Z)
}.

(** [struct mlx5_qp] with the [struct ibv_qp] it embeds. *)
Record mlx5_qp := {
  rsc_type : mlx5_rsc_type;
  rsn : Z;
  ibqp_qp_num : Z;
  ibqp_state : ibv_qp_state;
  ibqp_qp_type : ibv_qp_type;
  ibqp_send_cq : option nat;
  ibqp_recv_cq : option nat;
  ibqp_srq : option nat;
  ibqp_pd : option nat;
  buf : option nat;
  sq_buf : option nat;
  buf_size : Z;
  sq_buf_size : Z;
  max_inline_data_qp : Z;
  sq : mlx5_wq;
  rq : mlx5_wq;
  db : option nat;
  bf : option Z;
  sq_start : option (nat * Z);
  sq_signal_bits : Z;
  wq_sig : bool;
  atomics_enabled : bool;
  rss_qp : bool;
  flags : Z;
  dc_type : mlx5dv_dc_type;
  max_tso : Z;
  max_tso_header_qp : Z;
  qp_cap_cache : Z
}.

(** Field updates. *)

Definition set_bf_uar v (x : mlx5_bf) : mlx5_bf :=
  {| bf_reg := bf_reg x; bf_uar := v; bf_uuarn := bf_uuarn x;
     bf_buf_size := bf_buf_size x;
     bf_bfreg_dyn_index := bf_bfreg_dyn_index x;
     bf_uar_mmap_offset := bf_uar_mmap_offset x;
     bf_need_lock := bf_need_lock x |}.

Definition set_count_dyn_bfregs v (x : mlx5_context) : mlx5_context :=
  {| max_sq_desc_sz := max_sq_desc_sz x; max_rq_desc_sz := max_rq_desc_sz x;
     max_send_wqebb := max_send_wqebb x;
     ctx_max_recv_wr := ctx_max_recv_wr x; cqe_version := cqe_version x;
     atomic_cap_hca := atomic_cap_hca x;
     cached_device_cap_flags := cached_device_cap_flags x;
     cached_link_layer := cached_link_layer x;
     cached_tso_max_tso := cached_tso_max_tso x;
     cached_tso_supported_qpts := cached_tso_supported_qpts x;
     cqe_comp_max_num := cqe_comp_max_num x;
     cqe_comp_supported_format := cqe_comp_supported_format x;
     vendor_cap_flags := vendor_cap_flags x; page_size := page_size x;
     num_uars_per_page := num_uars_per_page x; bf_reg_size := bf_reg_size x;
     num_dyn_bfregs := num_dyn_bfregs x; count_dyn_bfregs := v;
     start_dyn_bfregs_index := start_dyn_bfregs_index x; bfs := bfs x;
     qp_table := qp_table x; srq_table := srq_table x;
     uidx_table := uidx_table x |}.

Definition set_bfs v (x : mlx5_context) : mlx5_context :=
  {| max_sq_desc_sz := max_sq_desc_sz x; max_rq_desc_sz := max_rq_desc_sz x;
     max_send_wqebb := max_send_wqebb x;
     ctx_max_recv_wr := ctx_max_recv_wr x; cqe_version := cqe_version x;
     atomic_cap_hca := atomic_cap_hca x;
     cached_device_cap_flags := cached_device_cap_flags x;
     cached_link_layer := cached_link_layer x;
     cached_tso_max_tso := cached_tso_max_tso x;
     cached_tso_supported_qpts := cached_tso_supported_qpts x;
     cqe_comp_max_num := cqe_comp_max_num x;
     cqe_comp_supported_format := cqe_comp_supported_format x;
     vendor_cap_flags := vendor_cap_flags x; page_size := page_size x;
     num_uars_per_page := num_uars_per_page x; bf_reg_size := bf_reg_size x;
     num_dyn_bfregs := num_dyn_bfregs x;
     count_dyn_bfregs := count_dyn_bfregs x;
     start_dyn_bfregs_index := start_dyn_bfregs_index x; bfs := v;
     qp_table := qp_table x; srq_table := srq_table x;
     uidx_table := uidx_table x |}.

Definition set_qp_table v (x : mlx5_context) : mlx5_context :=
  {| max_sq_desc_sz := max_sq_desc_sz x; max_rq_desc_sz := max_rq_desc_sz x;
     max_send_wqebb := max_send_wqebb x;
     ctx_max_recv_wr := ctx_max_recv_wr x; cqe_version := cqe_version x;
     atomic_cap_hca := atomic_cap_hca x;
     cached_device_cap_flags := cached_device_cap_flags x;
     cached_link_layer := cached_link_layer x;
     cached_tso_max_tso := cached_tso_max_tso x;
     cached_tso_supported_qpts := cached_tso_supported_qpts x;
     cqe_comp_max_num := cqe_comp_max_num x;
     cqe_comp_supported_format := cqe_comp_supported_format x;
     vendor_cap_flags := vendor_cap_flags x; page_size := page_size x;
     num_uars_per_page := num_uars_per_page x; bf_reg_size := bf_reg_size x;
     num_dyn_bfregs := num_dyn_bfregs x;
     count_dyn_bfregs := count_dyn_bfregs x;
     start_dyn_bfregs_index := start_dyn_bfregs_index x; bfs := bfs x;
     qp_table := v; srq_table := srq_table x; uidx_table := uidx_table x |}.

Definition set_srq_table v (x : mlx5_context) : mlx5_context :=
  {| max_sq_desc_sz := max_sq_desc_sz x; max_rq_desc_sz := max_rq_desc_sz x;
     max_send_wqebb := max_send_wqebb x;
     ctx_max_recv_wr := ctx_max_recv_wr x; cqe_version := cqe_version x;
     atomic_cap_hca := atomic_cap_hca x;
     cached_device_cap_flags := cached_device_cap_flags x;
     cached_link_layer := cached_link_layer x;
     cached_tso_max_tso := cached_tso_max_tso x;
     cached_tso_supported_qpts := cached_tso_supported_qpts x;
     cqe_comp_max_num := cqe_comp_max_num x;
     cqe_comp_supported_format := cqe_comp_supported_format x;
     vendor_cap_flags := vendor_cap_flags x; page_size := page_size x;
     num_uars_per_page := num_uars_per_page x; bf_reg_size := bf_reg_size x;
     num_dyn_bfregs := num_dyn_bfregs x;
     count_dyn_bfregs := count_dyn_bfregs x;
     start_dyn_bfregs_index := start_dyn_bfregs_index x; bfs := bfs x;
     qp_table := qp_table x; srq_table := v; uidx_table := uidx_table x |}.

Definition set_uidx_table v (x : mlx5_context) : mlx5_context :=
  {| max_sq_desc_sz := max_sq_desc_sz x; max_rq_desc_sz := max_rq_desc_sz x;
     max_send_wqebb := max_send_wqebb x;
     ctx_max_recv_wr := ctx_max_recv_wr x; cqe_version := cqe_version x;
     atomic_cap_hca := atomic_cap_hca x;
     cached_device_cap_flags := cached_device_cap_flags x;
     cached_link_layer := cached_link_layer x;
     cached_tso_max_tso := cached_tso_max_tso x;
     cached_tso_supported_qpts := cached_tso_supported_qpts x;
     cqe_comp_max_num := cqe_comp_max_num x;
     cqe_comp_supported_format := cqe_comp_supported_format x;
     vendor_cap_flags := vendor_cap_flags x; page_size := page_size x;
     num_uars_per_page := num_uars_per_page x; bf_reg_size := bf_reg_size x;
     num_dyn_bfregs := num_dyn_bfregs x;
     count_dyn_bfregs := count_dyn_bfregs x;
     start_dyn_bfregs_index := start_dyn_bfregs_index x; bfs := bfs x;
     qp_table := qp_table x; srq_table := srq_table x; uidx_table := v |}.

Definition set_rsc_type v (x : mlx5_qp) : mlx5_qp :=
  {| rsc_type := v; rsn := rsn x; ibqp_qp_num := ibqp_qp_num x;
     ibqp_state := ibqp_state x; ibqp_qp_type := ibqp_qp_type x;
     ibqp_send_cq := ibqp_send_cq x; ibqp_recv_cq := ibqp_recv_cq x;
     ibqp_srq := ibqp_srq x; ibqp_pd := ibqp_pd x; buf := buf x;
     sq_buf := sq_buf x; buf_size := buf_size x;
     sq_buf_size := sq_buf_size x;
     max_inline_data_qp := max_inline_data_qp x; sq := sq x; rq := rq x;
     db := db x; bf := bf x; sq_start := sq_start x;
     sq_signal_bits := sq_signal_bits x; wq_sig := wq_sig x;
     atomics_enabled := atomics_enabled x; rss_qp := rss_qp x;
     flags := flags x; dc_type := dc_type x; max_tso := max_tso x;
     max_tso_header_qp := max_tso_header_qp x;
     qp_cap_cache := qp_cap_cache x |}.

Definition set_rsn v (x : mlx5_qp) : mlx5_qp :=
  {| rsc_type := rsc_type x; rsn := v; ibqp_qp_num := ibqp_qp_num x;
     ibqp_state := ibqp_state x; ibqp_qp_type := ibqp_qp_type x;
     ibqp_send_cq := ibqp_send_cq x; ibqp_recv_cq := ibqp_recv_cq x;
     ibqp_srq := ibqp_srq x; ibqp_pd := ibqp_pd x; buf := buf x;
     sq_buf := sq_buf x; buf_size := buf_size x;
     sq_buf_size := sq_buf_size x;
     max_inline_data_qp := max_inline_data_qp x; sq := sq x; rq := rq x;
     db := db x; bf := bf x; sq_start := sq_start x;
     sq_signal_bits := sq_signal_bits x; wq_sig := wq_sig x;
     atomics_enabled := atomics_enabled x; rss_qp := rss_qp x;
     flags := flags x; dc_type := dc_type x; max_tso := max_tso x;
     max_tso_header_qp := max_tso_header_qp x;
     qp_cap_cache := qp_cap_cache x |}.

Definition set_ibqp_qp_num v (x : mlx5_qp) : mlx5_qp :=
  {| rsc_type := rsc_type x; rsn := rsn x; ibqp_qp_num := v;
     ibqp_state := ibqp_state x; ibqp_qp_type := ibqp_qp_type x;
     ibqp_send_cq := ibqp_send_cq x; ibqp_recv_cq := ibqp_recv_cq x;
     ibqp_srq := ibqp_srq x; ibqp_pd := ibqp_pd x; buf := buf x;
     sq_buf := sq_buf x; buf_size := buf_size x;
     sq_buf_size := sq_buf_size x;
     max_inline_data_qp := max_inline_data_qp x; sq := sq x; rq := rq x;
     db := db x; bf := bf x; sq_start := sq_start x;
     sq_signal_bits := sq_signal_bits x; wq_sig := wq_sig x;
     atomics_enabled := atomics_enabled x; rss_qp := rss_qp x;
     flags := flags x; dc_type := dc_type x; max_tso := max_tso x;
     max_tso_header_qp := max_tso_header_qp x;
     qp_cap_cache := qp_cap_cache x |}.

Definition set_ibqp_state v (x : mlx5_qp) : mlx5_qp :=
  {| rsc_type := rsc_type x; rsn := rsn x; ibqp_qp_num := ibqp_qp_num x;
     ibqp_state := v; ibqp_qp_type := ibqp_qp_type x;
     ibqp_send_cq := ibqp_send_cq x; ibqp_recv_cq := ibqp_recv_cq x;
     ibqp_srq := ibqp_srq x; ibqp_pd := ibqp_pd x; buf := buf x;
     sq_buf := sq_buf x; buf_size := buf_size x;
     sq_buf_size := sq_buf_size x;
     max_inline_data_qp := max_inline_data_qp x; sq := sq x; rq := rq x;
     db := db x; bf := bf x; sq_start := sq_start x;
     sq_signal_bits := sq_signal_bits x; wq_sig := wq_sig x;
     atomics_enabled := atomics_enabled x; rss_qp := rss_qp x;
     flags := flags x; dc_type := dc_type x; max_tso := max_tso x;
     max_tso_header_qp := max_tso_header_qp x;
     qp_cap_cache := qp_cap_cache x |}.

Definition set_ibqp_qp_type v (x : mlx5_qp) : mlx5_qp :=
  {| rsc_type := rsc_type x; rsn := rsn x; ibqp_qp_num := ibqp_qp_num x;
     ibqp_state := ibqp_state x; ibqp_qp_type := v;
     ibqp_send_cq := ibqp_send_cq x; ibqp_recv_cq := ibqp_recv_cq x;
     ibqp_srq := ibqp_srq x; ibqp_pd := ibqp_pd x; buf := buf x;
     sq_buf := sq_buf x; buf_size := buf_size x;
     sq_buf_size := sq_buf_size x;
     max_inline_data_qp := max_inline_data_qp x; sq := sq x; rq := rq x;
     db := db x; bf := bf x; sq_start := sq_start x;
     sq_signal_bits := sq_signal_bits x; wq_sig := wq_sig x;
     atomics_enabled := atomics_enabled x; rss_qp := rss_qp x;
     flags := flags x; dc_type := dc_type x; max_tso := max_tso x;
     max_tso_header_qp := max_tso_header_qp x;
     qp_cap_cache := qp_cap_cache x |}.

Definition set_ibqp_send_cq v (x : mlx5_qp) : mlx5_qp :=
  {| rsc_type := rsc_type x; rsn := rsn x; ibqp_qp_num := ibqp_qp_num x;
     ibqp_state := ibqp_state x; ibqp_qp_type := ibqp_qp_type x;
     ibqp_send_cq := v; ibqp_recv_cq := ibqp_recv_cq x;
     ibqp_srq := ibqp_srq x; ibqp_pd := ibqp_pd x; buf := buf x;
     sq_buf := sq_buf x; buf_size := buf_size x;
     sq_buf_size := sq_buf_size x;
     max_inline_data_qp := max_inline_data_qp x; sq := sq x; rq := rq x;
     db := db x; bf := bf x; sq_start := sq_start x;
     sq_signal_bits := sq_signal_bits x; wq_sig := wq_sig x;
     atomics_enabled := atomics_enabled x; rss_qp := rss_qp x;
     flags := flags x; dc_type := dc_type x; max_tso := max_tso x;
     max_tso_header_qp := max_tso_header_qp x;
     qp_cap_cache := qp_cap_cache x |}.

Definition set_ibqp_recv_cq v (x : mlx5_qp) : mlx5_qp :=
  {| rsc_type := rsc_type x; rsn := rsn x; ibqp_qp_num := ibqp_qp_num x;
     ibqp_state := ibqp_state x; ibqp_qp_type := ibqp_qp_type x;
     ibqp_send_cq := ibqp_send_cq x; ibqp_recv_cq := v;
     ibqp_srq := ibqp_srq x; ibqp_pd := ibqp_pd x; buf := buf x;
     sq_buf := sq_buf x; buf_size := buf_size x;
     sq_buf_size := sq_buf_size x;
     max_inline_data_qp := max_inline_data_qp x; sq := sq x; rq := rq x;
     db := db x; bf := bf x; sq_start := sq_start x;
     sq_signal_bits := sq_signal_bits x; wq_sig := wq_sig x;
     atomics_enabled := atomics_enabled x; rss_qp := rss_qp x;
     flags := flags x; dc_type := dc_type x; max_tso := max_tso x;
     max_tso_header_qp := max_tso_header_qp x;
     qp_cap_cache := qp_cap_cache x |}.

Definition set_ibqp_srq v (x : mlx5_qp) : mlx5_qp :=
  {| rsc_type := rsc_type x; rsn := rsn x; ibqp_qp_num := ibqp_qp_num x;
     ibqp_state := ibqp_state x; ibqp_qp_type := ibqp_qp_type x;
     ibqp_send_cq := ibqp_send_cq x; ibqp_recv_cq := ibqp_recv_cq x;
     ibqp_srq := v; ibqp_pd := ibqp_pd x; buf := buf x; sq_buf := sq_buf x;
     buf_size := buf_size x; sq_buf_size := sq_buf_size x;
     max_inline_data_qp := max_inline_data_qp x; sq := sq x; rq := rq x;
     db := db x; bf := bf x; sq_start := sq_start x;
     sq_signal_bits := sq_signal_bits x; wq_sig := wq_sig x;
     atomics_enabled := atomics_enabled x; rss_qp := rss_qp x;
     flags := flags x; dc_type := dc_type x; max_tso := max_tso x;
     max_tso_header_qp := max_tso_header_qp x;
     qp_cap_cache := qp_cap_cache x |}.

Definition set_ibqp_pd v (x : mlx5_qp) : mlx5_qp :=
  {| rsc_type := rsc_type x; rsn := rsn x; ibqp_qp_num := ibqp_qp_num x;
     ibqp_state := ibqp_state x; ibqp_qp_type := ibqp_qp_type x;
     ibqp_send_cq := ibqp_send_cq x; ibqp_recv_cq := ibqp_recv_cq x;
     ibqp_srq := ibqp_srq x; ibqp_pd := v; buf := buf x; sq_buf := sq_buf x;
     buf_size := buf_size x; sq_buf_size := sq_buf_size x;
     max_inline_data_qp := max_inline_data_qp x; sq := sq x; rq := rq x;
     db := db x; bf := bf x; sq_start := sq_start x;
     sq_signal_bits := sq_signal_bits x; wq_sig := wq_sig x;
     atomics_enabled := atomics_enabled x; rss_qp := rss_qp x;
     flags := flags x; dc_type := dc_type x; max_tso := max_tso x;
     max_tso_header_qp := max_tso_header_qp x;
     qp_cap_cache := qp_cap_cache x |}.

Definition set_buf v (x : mlx5_qp) : mlx5_qp :=
  {| rsc_type := rsc_type x; rsn := rsn x; ibqp_qp_num := ibqp_qp_num x;
     ibqp_state := ibqp_state x; ibqp_qp_type := ibqp_qp_type x;
     ibqp_send_cq := ibqp_send_cq x; ibqp_recv_cq := ibqp_recv_cq x;
     ibqp_srq := ibqp_srq x; ibqp_pd := ibqp_pd x; buf := v;
     sq_buf := sq_buf x; buf_size := buf_size x;
     sq_buf_size := sq_buf_size x;
     max_inline_data_qp := max_inline_data_qp x; sq := sq x; rq := rq x;
     db := db x; bf := bf x; sq_start := sq_start x;
     sq_signal_bits := sq_signal_bits x; wq_sig := wq_sig x;
     atomics_enabled := atomics_enabled x; rss_qp := rss_qp x;
     flags := flags x; dc_type := dc_type x; max_tso := max_tso x;
     max_tso_header_qp := max_tso_header_qp x;
     qp_cap_cache := qp_cap_cache x |}.

Definition set_sq_buf v (x : mlx5_qp) : mlx5_qp :=
  {| rsc_type := rsc_type x; rsn := rsn x; ibqp_qp_num := ibqp_qp_num x;
     ibqp_state := ibqp_state x; ibqp_qp_type := ibqp_qp_type x;
     ibqp_send_cq := ibqp_send_cq x; ibqp_recv_cq := ibqp_recv_cq x;
     ibqp_srq := ibqp_srq x; ibqp_pd := ibqp_pd x; buf := buf x; sq_buf := v;
     buf_size := buf_size x; sq_buf_size := sq_buf_size x;
     max_inline_data_qp := max_inline_data_qp x; sq := sq x; rq := rq x;
     db := db x; bf := bf x; sq_start := sq_start x;
     sq_signal_bits := sq_signal_bits x; wq_sig := wq_sig x;
     atomics_enabled := atomics_enabled x; rss_qp := rss_qp x;
     flags := flags x; dc_type := dc_type x; max_tso := max_tso x;
     max_tso_header_qp := max_tso_header_qp x;
     qp_cap_cache := qp_cap_cache x |}.

Definition set_buf_size v (x : mlx5_qp) : mlx5_qp :=
  {| rsc_type := rsc_type x; rsn := rsn x; ibqp_qp_num := ibqp_qp_num x;
     ibqp_state := ibqp_state x; ibqp_qp_type := ibqp_qp_type x;
     ibqp_send_cq := ibqp_send_cq x; ibqp_recv_cq := ibqp_recv_cq x;
     ibqp_srq := ibqp_srq x; ibqp_pd := ibqp_pd x; buf := buf x;
     sq_buf := sq_buf x; buf_size := v; sq_buf_size := sq_buf_size x;
     max_inline_data_qp := max_inline_data_qp x; sq := sq x; rq := rq x;
     db := db x; bf := bf x; sq_start := sq_start x;
     sq_signal_bits := sq_signal_bits x; wq_sig := wq_sig x;
     atomics_enabled := atomics_enabled x; rss_qp := rss_qp x;
     flags := flags x; dc_type := dc_type x; max_tso := max_tso x;
     max_tso_header_qp := max_tso_header_qp x;
     qp_cap_cache := qp_cap_cache x |}.

Definition set_sq_buf_size v (x : mlx5_qp) : mlx5_qp :=
  {| rsc_type := rsc_type x; rsn := rsn x; ibqp_qp_num := ibqp_qp_num x;
     ibqp_state := ibqp_state x; ibqp_qp_type := ibqp_qp_type x;
     ibqp_send_cq := ibqp_send_cq x; ibqp_recv_cq := ibqp_recv_cq x;
     ibqp_srq := ibqp_srq x; ibqp_pd := ibqp_pd x; buf := buf x;
     sq_buf := sq_buf x; buf_size := buf_size x; sq_buf_size := v;
     max_inline_data_qp := max_inline_data_qp x; sq := sq x; rq := rq x;
     db := db x; bf := bf x; sq_start := sq_start x;
     sq_signal_bits := sq_signal_bits x; wq_sig := wq_sig x;
     atomics_enabled := atomics_enabled x; rss_qp := rss_qp x;
     flags := flags x; dc_type := dc_type x; max_tso := max_tso x;
     max_tso_header_qp := max_tso_header_qp x;
     qp_cap_cache := qp_cap_cache x |}.

Definition set_max_inline_data_qp v (x : mlx5_qp) : mlx5_qp :=
  {| rsc_type := rsc_type x; rsn := rsn x; ibqp_qp_num := ibqp_qp_num x;
     ibqp_state := ibqp_state x; ibqp_qp_type := ibqp_qp_type x;
     ibqp_send_cq := ibqp_send_cq x; ibqp_recv_cq := ibqp_recv_cq x;
     ibqp_srq := ibqp_srq x; ibqp_pd := ibqp_pd x; buf := buf x;
     sq_buf := sq_buf x; buf_size := buf_size x;
     sq_buf_size := sq_buf_size x; max_inline_data_qp := v; sq := sq x;
     rq := rq x; db := db x; bf := bf x; sq_start := sq_start x;
     sq_signal_bits := sq_signal_bits x; wq_sig := wq_sig x;
     atomics_enabled := atomics_enabled x; rss_qp := rss_qp x;
     flags := flags x; dc_type := dc_type x; max_tso := max_tso x;
     max_tso_header_qp := max_tso_header_qp x;
     qp_cap_cache := qp_cap_cache x |}.

Definition set_sq v (x : mlx5_qp) : mlx5_qp :=
  {| rsc_type := rsc_type x; rsn := rsn x; ibqp_qp_num := ibqp_qp_num x;
     ibqp_state := ibqp_state x; ibqp_qp_type := ibqp_qp_type x;
     ibqp_send_cq := ibqp_send_cq x; ibqp_recv_cq := ibqp_recv_cq x;
     ibqp_srq := ibqp_srq x; ibqp_pd := ibqp_pd x; buf := buf x;
     sq_buf := sq_buf x; buf_size := buf_size x;
     sq_buf_size := sq_buf_size x;
     max_inline_data_qp := max_inline_data_qp x; sq := v; rq := rq x;
     db := db x; bf := bf x; sq_start := sq_start x;
     sq_signal_bits := sq_signal_bits x; wq_sig := wq_sig x;
     atomics_enabled := atomics_enabled x; rss_qp := rss_qp x;
     flags := flags x; dc_type := dc_type x; max_tso := max_tso x;
     max_tso_header_qp := max_tso_header_qp x;
     qp_cap_cache := qp_cap_cache x |}.

Definition set_rq v (x : mlx5_qp) : mlx5_qp :=
  {| rsc_type := rsc_type x; rsn := rsn x; ibqp_qp_num := ibqp_qp_num x;
     ibqp_state := ibqp_state x; ibqp_qp_type := ibqp_qp_type x;
     ibqp_send_cq := ibqp_send_cq x; ibqp_recv_cq := ibqp_recv_cq x;
     ibqp_srq := ibqp_srq x; ibqp_pd := ibqp_pd x; buf := buf x;
     sq_buf := sq_buf x; buf_size := buf_size x;
     sq_buf_size := sq_buf_size x;
     max_inline_data_qp := max_inline_data_qp x; sq := sq x; rq := v;
     db := db x; bf := bf x; sq_start := sq_start x;
     sq_signal_bits := sq_signal_bits x; wq_sig := wq_sig x;
     atomics_enabled := atomics_enabled x; rss_qp := rss_qp x;
     flags := flags x; dc_type := dc_type x; max_tso := max_tso x;
     max_tso_header_qp := max_tso_header_qp x;
     qp_cap_cache := qp_cap_cache x |}.

Definition set_db v (x : mlx5_qp) : mlx5_qp :=
  {| rsc_type := rsc_type x; rsn := rsn x; ibqp_qp_num := ibqp_qp_num x;
     ibqp_state := ibqp_state x; ibqp_qp_type := ibqp_qp_type x;
     ibqp_send_cq := ibqp_send_cq x; ibqp_recv_cq := ibqp_recv_cq x;
     ibqp_srq := ibqp_srq x; ibqp_pd := ibqp_pd x; buf := buf x;
     sq_buf := sq_buf x; buf_size := buf_size x;
     sq_buf_size := sq_buf_size x;
     max_inline_data_qp := max_inline_data_qp x; sq := sq x; rq := rq x;
     db := v; bf := bf x; sq_start := sq_start x;
     sq_signal_bits := sq_signal_bits x; wq_sig := wq_sig x;
     atomics_enabled := atomics_enabled x; rss_qp := rss_qp x;
     flags := flags x; dc_type := dc_type x; max_tso := max_tso x;
     max_tso_header_qp := max_tso_header_qp x;
     qp_cap_cache := qp_cap_cache x |}.

Definition set_bf v (x : mlx5_qp) : mlx5_qp :=
  {| rsc_type := rsc_type x; rsn := rsn x; ibqp_qp_num := ibqp_qp_num x;
     ibqp_state := ibqp_state x; ibqp_qp_type := ibqp_qp_type x;
     ibqp_send_cq := ibqp_send_cq x; ibqp_recv_cq := ibqp_recv_cq x;
     ibqp_srq := ibqp_srq x; ibqp_pd := ibqp_pd x; buf := buf x;
     sq_buf := sq_buf x; buf_size := buf_size x;
     sq_buf_size := sq_buf_size x;
     max_inline_data_qp := max_inline_data_qp x; sq := sq x; rq := rq x;
     db := db x; bf := v; sq_start := sq_start x;
     sq_signal_bits := sq_signal_bits x; wq_sig := wq_sig x;
     atomics_enabled := atomics_enabled x; rss_qp := rss_qp x;
     flags := flags x; dc_type := dc_type x; max_tso := max_tso x;
     max_tso_header_qp := max_tso_header_qp x;
     qp_cap_cache := qp_cap_cache x |}.

Definition set_sq_start v (x : mlx5_qp) : mlx5_qp :=
  {| rsc_type := rsc_type x; rsn := rsn x; ibqp_qp_num := ibqp_qp_num x;
     ibqp_state := ibqp_state x; ibqp_qp_type := ibqp_qp_type x;
     ibqp_send_cq := ibqp_send_cq x; ibqp_recv_cq := ibqp_recv_cq x;
     ibqp_srq := ibqp_srq x; ibqp_pd := ibqp_pd x; buf := buf x;
     sq_buf := sq_buf x; buf_size := buf_size x;
     sq_buf_size := sq_buf_size x;
     max_inline_data_qp := max_inline_data_qp x; sq := sq x; rq := rq x;
     db := db x; bf := bf x; sq_start := v;
     sq_signal_bits := sq_signal_bits x; wq_sig := wq_sig x;
     atomics_enabled := atomics_enabled x; rss_qp := rss_qp x;
     flags := flags x; dc_type := dc_type x; max_tso := max_tso x;
     max_tso_header_qp := max_tso_header_qp x;
     qp_cap_cache := qp_cap_cache x |}.

Definition set_sq_signal_bits v (x : mlx5_qp) : mlx5_qp :=
  {| rsc_type := rsc_type x; rsn := rsn x; ibqp_qp_num := ibqp_qp_num x;
     ibqp_state := ibqp_state x; ibqp_qp_type := ibqp_qp_type x;
     ibqp_send_cq := ibqp_send_cq x; ibqp_recv_cq := ibqp_recv_cq x;
     ibqp_srq := ibqp_srq x; ibqp_pd := ibqp_pd x; buf := buf x;
     sq_buf := sq_buf x; buf_size := buf_size x;
     sq_buf_size := sq_buf_size x;
     max_inline_data_qp := max_inline_data_qp x; sq := sq x; rq := rq x;
     db := db x; bf := bf x; sq_start := sq_start x; sq_signal_bits := v;
     wq_sig := wq_sig x; atomics_enabled := atomics_enabled x;
     rss_qp := rss_qp x; flags := flags x; dc_type := dc_type x;
     max_tso := max_tso x; max_tso_header_qp := max_tso_header_qp x;
     qp_cap_cache := qp_cap_cache x |}.

Definition set_wq_sig v (x : mlx5_qp) : mlx5_qp :=
  {| rsc_type := rsc_type x; rsn := rsn x; ibqp_qp_num := ibqp_qp_num x;
     ibqp_state := ibqp_state x; ibqp_qp_type := ibqp_qp_type x;
     ibqp_send_cq := ibqp_send_cq x; ibqp_recv_cq := ibqp_recv_cq x;
     ibqp_srq := ibqp_srq x; ibqp_pd := ibqp_pd x; buf := buf x;
     sq_buf := sq_buf x; buf_size := buf_size x;
     sq_buf_size := sq_buf_size x;
     max_inline_data_qp := max_inline_data_qp x; sq := sq x; rq := rq x;
     db := db x; bf := bf x; sq_start := sq_start x;
     sq_signal_bits := sq_signal_bits x; wq_sig := v;
     atomics_enabled := atomics_enabled x; rss_qp := rss_qp x;
     flags := flags x; dc_type := dc_type x; max_tso := max_tso x;
     max_tso_header_qp := max_tso_header_qp x;
     qp_cap_cache := qp_cap_cache x |}.

Definition set_atomics_enabled v (x : mlx5_qp) : mlx5_qp :=
  {| rsc_type := rsc_type x; rsn := rsn x; ibqp_qp_num := ibqp_qp_num x;
     ibqp_state := ibqp_state x; ibqp_qp_type := ibqp_qp_type x;
     ibqp_send_cq := ibqp_send_cq x; ibqp_recv_cq := ibqp_recv_cq x;
     ibqp_srq := ibqp_srq x; ibqp_pd := ibqp_pd x; buf := buf x;
     sq_buf := sq_buf x; buf_size := buf_size x;
     sq_buf_size := sq_buf_size x;
     max_inline_data_qp := max_inline_data_qp x; sq := sq x; rq := rq x;
     db := db x; bf := bf x; sq_start := sq_start x;
     sq_signal_bits := sq_signal_bits x; wq_sig := wq_sig x;
     atomics_enabled := v; rss_qp := rss_qp x; flags := flags x;
     dc_type := dc_type x; max_tso := max_tso x;
     max_tso_header_qp := max_tso_header_qp x;
     qp_cap_cache := qp_cap_cache x |}.

Definition set_rss_qp v (x : mlx5_qp) : mlx5_qp :=
  {| rsc_type := rsc_type x; rsn := rsn x; ibqp_qp_num := ibqp_qp_num x;
     ibqp_state := ibqp_state x; ibqp_qp_type := ibqp_qp_type x;
     ibqp_send_cq := ibqp_send_cq x; ibqp_recv_cq := ibqp_recv_cq x;
     ibqp_srq := ibqp_srq x; ibqp_pd := ibqp_pd x; buf := buf x;
     sq_buf := sq_buf x; buf_size := buf_size x;
     sq_buf_size := sq_buf_size x;
     max_inline_data_qp := max_inline_data_qp x; sq := sq x; rq := rq x;
     db := db x; bf := bf x; sq_start := sq_start x;
     sq_signal_bits := sq_signal_bits x; wq_sig := wq_sig x;
     atomics_enabled := atomics_enabled x; rss_qp := v; flags := flags x;
     dc_type := dc_type x; max_tso := max_tso x;
     max_tso_header_qp := max_tso_header_qp x;
     qp_cap_cache := qp_cap_cache x |}.

Definition set_flags v (x : mlx5_qp) : mlx5_qp :=
  {| rsc_type := rsc_type x; rsn := rsn x; ibqp_qp_num := ibqp_qp_num x;
     ibqp_state := ibqp_state x; ibqp_qp_type := ibqp_qp_type x;
     ibqp_send_cq := ibqp_send_cq x; ibqp_recv_cq := ibqp_recv_cq x;
     ibqp_srq := ibqp_srq x; ibqp_pd := ibqp_pd x; buf := buf x;
     sq_buf := sq_buf x; buf_size := buf_size x;
     sq_buf_size := sq_buf_size x;
     max_inline_data_qp := max_inline_data_qp x; sq := sq x; rq := rq x;
     db := db x; bf := bf x; sq_start := sq_start x;
     sq_signal_bits := sq_signal_bits x; wq_sig := wq_sig x;
     atomics_enabled := atomics_enabled x; rss_qp := rss_qp x; flags := v;
     dc_type := dc_type x; max_tso := max_tso x;
     max_tso_header_qp := max_tso_header_qp x;
     qp_cap_cache := qp_cap_cache x |}.

Definition set_dc_type v (x : mlx5_qp) : mlx5_qp :=
  {| rsc_type := rsc_type x; rsn := rsn x; ibqp_qp_num := ibqp_qp_num x;
     ibqp_state := ibqp_state x; ibqp_qp_type := ibqp_qp_type x;
     ibqp_send_cq := ibqp_send_cq x; ibqp_recv_cq := ibqp_recv_cq x;
     ibqp_srq := ibqp_srq x; ibqp_pd := ibqp_pd x; buf := buf x;
     sq_buf := sq_buf x; buf_size := buf_size x;
     sq_buf_size := sq_buf_size x;
     max_inline_data_qp := max_inline_data_qp x; sq := sq x; rq := rq x;
     db := db x; bf := bf x; sq_start := sq_start x;
     sq_signal_bits := sq_signal_bits x; wq_sig := wq_sig x;
     atomics_enabled := atomics_enabled x; rss_qp := rss_qp x;
     flags := flags x; dc_type := v; max_tso := max_tso x;
     max_tso_header_qp := max_tso_header_qp x;
     qp_cap_cache := qp_cap_cache x |}.

Definition set_max_tso v (x : mlx5_qp) : mlx5_qp :=
  {| rsc_type := rsc_type x; rsn := rsn x; ibqp_qp_num := ibqp_qp_num x;
     ibqp_state := ibqp_state x; ibqp_qp_type := ibqp_qp_type x;
     ibqp_send_cq := ibqp_send_cq x; ibqp_recv_cq := ibqp_recv_cq x;
     ibqp_srq := ibqp_srq x; ibqp_pd := ibqp_pd x; buf := buf x;
     sq_buf := sq_buf x; buf_size := buf_size x;
     sq_buf_size := sq_buf_size x;
     max_inline_data_qp := max_inline_data_qp x; sq := sq x; rq := rq x;
     db := db x; bf := bf x; sq_start := sq_start x;
     sq_signal_bits := sq_signal_bits x; wq_sig := wq_sig x;
     atomics_enabled := atomics_enabled x; rss_qp := rss_qp x;
     flags := flags x; dc_type := dc_type x; max_tso := v;
     max_tso_header_qp := max_tso_header_qp x;
     qp_cap_cache := qp_cap_cache x |}.

Definition set_max_tso_header_qp v (x : mlx5_qp) : mlx5_qp :=
  {| rsc_type := rsc_type x; rsn := rsn x; ibqp_qp_num := ibqp_qp_num x;
     ibqp_state := ibqp_state x; ibqp_qp_type := ibqp_qp_type x;
     ibqp_send_cq := ibqp_send_cq x; ibqp_recv_cq := ibqp_recv_cq x;
     ibqp_srq := ibqp_srq x; ibqp_pd := ibqp_pd x; buf := buf x;
     sq_buf := sq_buf x; buf_size := buf_size x;
     sq_buf_size := sq_buf_size x;
     max_inline_data_qp := max_inline_data_qp x; sq := sq x; rq := rq x;
     db := db x; bf := bf x; sq_start := sq_start x;
     sq_signal_bits := sq_signal_bits x; wq_sig := wq_sig x;
     atomics_enabled := atomics_enabled x; rss_qp := rss_qp x;
     flags := flags x; dc_type := dc_type x; max_tso := max_tso x;
     max_tso_header_qp := v; qp_cap_cache := qp_cap_cache x |}.

Definition set_qp_cap_cache v (x : mlx5_qp) : mlx5_qp :=
  {| rsc_type := rsc_type x; rsn := rsn x; ibqp_qp_num := ibqp_qp_num x;
     ibqp_state := ibqp_state x; ibqp_qp_type := ibqp_qp_type x;
     ibqp_send_cq := ibqp_send_cq x; ibqp_recv_cq := ibqp_recv_cq x;
     ibqp_srq := ibqp_srq x; ibqp_pd := ibqp_pd x; buf := buf x;
     sq_buf := sq_buf x; buf_size := buf_size x;
     sq_buf_size := sq_buf_size x;
     max_inline_data_qp := max_inline_data_qp x; sq := sq x; rq := rq x;
     db := db x; bf := bf x; sq_start := sq_start x;
     sq_signal_bits := sq_signal_bits x; wq_sig := wq_sig x;
     atomics_enabled := atomics_enabled x; rss_qp := rss_qp x;
     flags := flags x; dc_type := dc_type x; max_tso := max_tso x;
     max_tso_header_qp := max_tso_header_qp x; qp_cap_cache := v |}.
(** What [calloc] returns. *)
Definition wq_zero : mlx5_wq :=
  {| wrid := None; wqe_head := None; wr_data := None; wqe_cnt := 0;
     max_post := 0; head := 0; tail := 0; cur_post := 0; max_gs := 0;
     wqe_shift := 0; offset := 0; qend := None |}.

Definition qp_zero : mlx5_qp :=
  {| rsc_type := RSC_NONE; rsn := 0; ibqp_qp_num := 0;
     ibqp_state := IBV_QPS_RESET; ibqp_qp_type := IBV_QPT_OTHER 0;
     ibqp_send_cq := None; ibqp_recv_cq := None; ibqp_srq := None;
     ibqp_pd := None; buf := None; sq_buf := None; buf_size := 0;
     sq_buf_size := 0; max_inline_data_qp := 0; sq := wq_zero; rq := wq_zero;
     db := None; bf := None; sq_start := None; sq_signal_bits := 0;
     wq_sig := false; atomics_enabled := false; rss_qp := false; flags := 0;
     dc_type := DC_NONE; max_tso := 0; max_tso_header_qp := 0;
     qp_cap_cache := 0 |}.

(** Field updates. *)
Definition set_wq_sizes (w : mlx5_wq) (cnt shift post gs : Z) : mlx5_wq :=
  {| wrid := wrid w; wqe_head := wqe_head w; wr_data := wr_data w;
     wqe_cnt := cnt; max_post := post; head := head w; tail := tail w;
     cur_post := cur_post w; max_gs := gs; wqe_shift := shift;
     offset := offset w; qend := qend w |}.

Definition set_wqe_cnt (w : mlx5_wq) (cnt : Z) : mlx5_wq :=
  set_wq_sizes w cnt (wqe_shift w) (max_post w) (max_gs w).

Definition set_max_post (w : mlx5_wq) (post : Z) : mlx5_wq :=
  set_wq_sizes w (wqe_cnt w) (wqe_shift w) post (max_gs w).

Definition set_offset (w : mlx5_wq) (o : Z) : mlx5_wq :=
  {| wrid := wrid w; wqe_head := wqe_head w; wr_data := wr_data w;
     wqe_cnt := wqe_cnt w; max_post := max_post w; head := head w;
     tail := tail w; cur_post := cur_post w; max_gs := max_gs w;
     wqe_shift := wqe_shift w; offset := o; qend := qend w |}.

Definition set_qend (w : mlx5_wq) (e : option (nat * Z)) : mlx5_wq :=
  {| wrid := wrid w; wqe_head := wqe_head w; wr_data := wr_data w;
     wqe_cnt := wqe_cnt w; max_post := max_post w; head := head w;
     tail := tail w; cur_post := cur_post w; max_gs := max_gs w;
     wqe_shift := wqe_shift w; offset := offset w; qend := e |}.

Definition set_arrays (w : mlx5_wq) (id hd dt : option Z) : mlx5_wq :=
  {| wrid := id; wqe_head := hd; wr_data := dt;
     wqe_cnt := wqe_cnt w; max_post := max_post w; head := head w;
     tail := tail w; cur_post := cur_post w; max_gs := max_gs w;
     wqe_shift := wqe_shift w; offset := offset w; qend := qend w |}.

Definition set_cursors (w : mlx5_wq) (h t c : Z) : mlx5_wq :=
  {| wrid := wrid w; wqe_head := wqe_head w; wr_data := wr_data w;
     wqe_cnt := wqe_cnt w; max_post := max_post w; head := h;
     tail := t; cur_post := c; max_gs := max_gs w;
     wqe_shift := wqe_shift w; offset := offset w; qend := qend w |}.

Definition set_cap_inline (a : ibv_qp_init_attr_ex) (v : Z)
  : ibv_qp_init_attr_ex :=
  {| attr_send_cq := attr_send_cq a; attr_recv_cq := attr_recv_cq a;
     attr_srq := attr_srq a;
     cap := {| max_send_wr := max_send_wr (cap a);
               max_recv_wr := max_recv_wr (cap a);
               max_send_sge := max_send_sge (cap a);
               max_recv_sge := max_recv_sge (cap a);
               max_inline_data := v |};
     qp_type := qp_type a; sq_sig_all := sq_sig_all a;
     comp_mask := comp_mask a; attr_pd := attr_pd a;
     create_flags := create_flags a; max_tso_header := max_tso_header a;
     rx_hash_key_len := rx_hash_key_len a |}.

Definition set_cap_depths (a : ibv_qp_init_attr_ex) (swr rwr rsge : Z)
  : ibv_qp_init_attr_ex :=
  {| attr_send_cq := attr_send_cq a; attr_recv_cq := attr_recv_cq a;
     attr_srq := attr_srq a;
     cap := {| max_send_wr := swr;
               max_recv_wr := rwr;
               max_send_sge := max_send_sge (cap a);
               max_recv_sge := rsge;
               max_inline_data := max_inline_data (cap a) |};
     qp_type := qp_type a; sq_sig_all := sq_sig_all a;
     comp_mask := comp_mask a; attr_pd := attr_pd a;
     create_flags := create_flags a; max_tso_header := max_tso_header a;
     rx_hash_key_len := rx_hash_key_len a |}.

(** ** Queue sizing engine *)

(** [mlx5_round_up_power_of_two]: [for (ret = 1; ret < sz; ret <<= 1)].
    [ret] is a [long long]; the loop leaves by its test within 62 rounds
    for every [sz] up to [2^62], and every caller passes less than [2^33]. *)
Fixpoint round_up_loop (fuel : nat) (ret sz : Z) : Z :=
  match fuel with
  | O => ret
  | S fuel' =>
      if ret <? sz then round_up_loop fuel' (Z.shiftl ret 1) sz else ret
  end.

Definition mlx5_round_up_power_of_two (sz : Z) : Z :=
  let ret := round_up_loop 62 1 sz in
  if ret >? C.INT_MAX then - C.ENOMEM else C.to_int ret.

Definition align_queue_size (req : Z) : Z := mlx5_round_up_power_of_two req.

Arguments mlx5_round_up_power_of_two : simpl never.

Section Sizing.

Context (L : wqe_layout) (F : flag_bits) (mlx5_ilog2 : Z → Z).

(** [sq_overhead]: the fixed part of a send descriptor, computed in
    [size_t] and returned as [int]. *)
Definition sq_overhead (qp : mlx5_qp) (type : ibv_qp_type) : Z :=
  let mw_bind_size :=
    C.to_ulong (sizeof_umr_ctrl_seg L + sizeof_mkey_context_seg L +
                Z.max (C.to_ulong (sizeof_umr_klm_seg L)) 64) in
  let rc_size (size : Z) :=
    C.to_ulong (size + (sizeof_ctrl_seg L +
      Z.max (C.to_ulong (sizeof_atomic_seg L + sizeof_raddr_seg L))
            mw_bind_size)) in
  let xrc_size (size : Z) :=
    Z.max size (C.to_ulong (sizeof_ctrl_seg L + sizeof_xrc_seg L +
                            sizeof_raddr_seg L)) in
  match type with
  | IBV_QPT_DRIVER =>
      if bool_decide (dc_type qp ≠ MLX5DV_DCTYPE_DCI) then - C.EINVAL
      else C.to_int (rc_size (C.to_ulong (sizeof_datagram_seg L)))
  | IBV_QPT_RC => C.to_int (rc_size 0)
  | IBV_QPT_UC =>
      C.to_int (C.to_ulong (sizeof_ctrl_seg L +
        Z.max (C.to_ulong (sizeof_raddr_seg L)) mw_bind_size))
  | IBV_QPT_UD =>
      let size := C.to_ulong (sizeof_ctrl_seg L + sizeof_datagram_seg L) in
      C.to_int
        (if C.bits (flags qp) (MLX5_QP_FLAGS_USE_UNDERLAY F)
         then C.to_ulong (size + (sizeof_eth_seg L + sizeof_eth_pad L))
         else size)
  | IBV_QPT_XRC_SEND =>
      C.to_int (xrc_size (C.to_ulong (sizeof_ctrl_seg L + mw_bind_size)))
  | IBV_QPT_XRC_RECV => C.to_int (xrc_size 0)
  | IBV_QPT_RAW_PACKET =>
      C.to_int (C.to_ulong (sizeof_ctrl_seg L + sizeof_eth_seg L))
  | IBV_QPT_OTHER _ => - C.EINVAL
  end.

(** [mlx5_calc_send_wqe]: the descriptor size of a send queue, or a
    negative errno.  It records the TSO header size in the QP. *)
Definition mlx5_calc_send_wqe (ctx : mlx5_context)
    (attr : ibv_qp_init_attr_ex) (qp : mlx5_qp) : option (Z * mlx5_qp) :=
  let size := sq_overhead qp (qp_type attr) in
  if size <? 0 then Some (size, qp) else
  let inl_size :=
    if negb (max_inline_data (cap attr) =? 0)
    then C.to_int (C.to_ulong size +
           align (C.to_ulong (sizeof_inl_data_seg L +
                              max_inline_data (cap attr))) 16)
    else 0 in
  let tso := C.bits (comp_mask attr) (IBV_QP_INIT_ATTR_MAX_TSO_HEADER F) in
  let size :=
    if tso then C.to_int (C.to_ulong size + align (max_tso_header attr) 16)
    else size in
  let qp := if tso then set_max_tso_header_qp (max_tso_header attr) qp
            else qp in
  match C.div (C.to_ulong (C.to_int (max_sq_desc_sz ctx - size)))
              (C.to_ulong (sizeof_data_seg L)) with
  | None => None
  | Some q =>
      let max_gather := C.to_int q in
      if max_send_sge (cap attr) >? C.to_uint max_gather
      then Some (- C.EINVAL, qp) else
      let size :=
        C.to_int (C.to_ulong size +
                  C.to_ulong (max_send_sge (cap attr) * sizeof_data_seg L)) in
      let tot_size := max_int size inl_size in
      if tot_size >? max_sq_desc_sz ctx then Some (- C.EINVAL, qp) else
      Some (C.to_int (align (C.to_ulong tot_size) MLX5_SEND_WQE_BB), qp)
  end.

(** [mlx5_calc_rcv_wqe]: the descriptor size of a receive queue. *)
Definition mlx5_calc_rcv_wqe (ctx : mlx5_context)
    (attr : ibv_qp_init_attr_ex) (qp : mlx5_qp) : Z :=
  if bool_decide (attr_srq attr ≠ None) then 0 else
  let num_scatter := C.to_int (Z.max (max_recv_sge (cap attr)) 1) in
  let size := C.to_uint (sizeof_data_seg L * C.to_ulong num_scatter) in
  let size :=
    if wq_sig qp then C.to_uint (size + sizeof_rwqe_sig L) else size in
  if size >? C.to_uint (max_rq_desc_sz ctx) then - C.EINVAL else
  C.to_int (C.to_uint (mlx5_round_up_power_of_two size)).

(** [mlx5_calc_sq_size]: the byte size of the send queue, or a negative
    errno; fills [qp->sq] and writes [max_inline_data] back to the
    request. *)
Definition mlx5_calc_sq_size (ctx : mlx5_context)
    (attr : ibv_qp_init_attr_ex) (qp : mlx5_qp)
  : option (Z * ibv_qp_init_attr_ex * mlx5_qp) :=
  if max_send_wr (cap attr) =? 0 then Some (0, attr, qp) else
  '(wqe_size, qp) ← mlx5_calc_send_wqe ctx attr qp;
  if wqe_size <? 0 then Some (wqe_size, attr, qp) else
  if wqe_size >? max_sq_desc_sz ctx then Some (- C.EINVAL, attr, qp) else
  let inl :=
    C.to_int (C.to_ulong (C.to_int (wqe_size - sq_overhead qp (qp_type attr))
                          - sizeof_inl_data_seg L)) in
  let qp := set_max_inline_data_qp inl qp in
  let attr := set_cap_inline attr (C.to_uint inl) in
  lim ← C.div 2147483647 (max_sq_desc_sz ctx);
  if max_send_wr (cap attr) >? C.to_uint lim
  then Some (- C.EINVAL, attr, qp) else
  let wq_size :=
    mlx5_round_up_power_of_two
      (C.to_uint (max_send_wr (cap attr) * C.to_uint wqe_size)) in
  let qp :=
    set_sq (set_wqe_cnt (sq qp)
              (C.to_uint (Z.quot wq_size MLX5_SEND_WQE_BB))) qp in
  if wqe_cnt (sq qp) >? C.to_uint (max_send_wqebb ctx)
  then Some (- C.EINVAL, attr, qp) else
  post ← C.div wq_size wqe_size;
  let qp :=
    set_sq (set_wq_sizes (sq qp) (wqe_cnt (sq qp))
              (mlx5_ilog2 MLX5_SEND_WQE_BB) (C.to_uint post)
              (C.to_int (max_send_sge (cap attr)))) qp in
  Some (wq_size, attr, qp).

(** [mlx5_calc_rq_size]: the byte size of the receive queue, or a negative
    errno; fills [qp->rq]. *)
Definition mlx5_calc_rq_size (ctx : mlx5_context)
    (attr : ibv_qp_init_attr_ex) (qp : mlx5_qp) : option (Z * mlx5_qp) :=
  if max_recv_wr (cap attr) =? 0 then Some (0, qp) else
  if max_recv_wr (cap attr) >? C.to_uint (ctx_max_recv_wr ctx)
  then Some (- C.EINVAL, qp) else
  let wqe_size := mlx5_calc_rcv_wqe ctx attr qp in
  if (wqe_size <? 0) || (wqe_size >? max_rq_desc_sz ctx)
  then Some (- C.EINVAL, qp) else
  let wq_size :=
    C.to_int (mlx5_round_up_power_of_two (max_recv_wr (cap attr))
              * wqe_size) in
  if negb (wqe_size =? 0) then
    let wq_size := max_int wq_size MLX5_SEND_WQE_BB in
    cnt ← C.div wq_size wqe_size;
    let scat_spc :=
      C.to_int (C.to_ulong wqe_size
                - (if wq_sig qp then C.to_ulong (sizeof_rwqe_sig L) else 0)) in
    gs ← C.div (C.to_ulong scat_spc) (C.to_ulong (sizeof_data_seg L));
    Some (wq_size,
          set_rq (set_wq_sizes (rq qp) (C.to_uint cnt) (mlx5_ilog2 wqe_size)
                    (C.to_uint (C.to_int (Z.shiftl 1 (mlx5_ilog2 cnt))))
                    (C.to_int gs)) qp)
  else
    Some (wq_size, set_rq (set_wq_sizes (rq qp) 0 0 0 0) qp).

(** [mlx5_calc_wq_size]: both queues; the receive queue lies at offset 0
    and the send queue behind it. *)
Definition mlx5_calc_wq_size (ctx : mlx5_context)
    (attr : ibv_qp_init_attr_ex) (qp : mlx5_qp)
  : option (Z * ibv_qp_init_attr_ex * mlx5_qp) :=
  '(ret, attr, qp) ← mlx5_calc_sq_size ctx attr qp;
  if ret <? 0 then Some (ret, attr, qp) else
  let result := ret in
  '(ret, qp) ← mlx5_calc_rq_size ctx attr qp;
  if ret <? 0 then Some (ret, attr, qp) else
  let result := C.to_int (result + ret) in
  let qp := set_sq (set_offset (sq qp) ret) qp in
  let qp := set_rq (set_offset (rq qp) 0) qp in
  Some (result, attr, qp).

End Sizing.

(** ** Heap objects *)

(** A completion entry, as far as scavenging looks at it: the resource it
    belongs to, and whether it reports a receive taken from a shared receive
    queue rather than from the QP's own receive queue. *)
Record cqe := {
  cqe_rsn : Z;
  cqe_from_srq : bool
}.

(** [struct mlx5_cq].  [cq_lock] is the state of [cq->lock]; [cqes] are the
    entries between the consumer index and the producer. *)
Record mlx5_cq := {
  cqn : Z;
  cq_lock : bool;
  cqes : list cqe;
  cons_index : Z;
  cq_dbrec : option nat;
  active_buf : option nat;
  resize_buf : option nat;
  arm_sn : Z;
  cqe_sz : Z;
  cq_flags : Z;
  ibv_cq_cqe : Z
}.

(** [struct mlx5_srq]. *)
Record mlx5_srq := {
  srqn : Z;
  srq_rsc_type : mlx5_rsc_type;
  srq_rsn : Z;
  cmd_qp : option nat;
  srq_db : option nat;
  srq_buf : option nat;
  srq_tm_list : bool;
  srq_wrid : bool;
  srq_op : bool
}.

(** [struct mlx5_td]: [td_bf] points into [ctx->bfs]. *)
Record mlx5_td := {
  td_bf : Z;
  td_refcount : Z
}.

(** [struct mlx5_pd], and [struct mlx5_parent_domain] when
    [mprotection_domain] is set. *)
Record mlx5_pd := {
  pd_refcount : Z;
  mprotection_domain : option nat;
  mtd : option nat
}.

Inductive mutex := qp_table_mutex | srq_table_mutex | dyn_bfregs_mutex.

(** [struct mlx5_create_qp], the driver part of the create command. *)
Record mlx5_create_qp := {
  cmd_buf_addr : option nat;
  cmd_sq_buf_addr : option nat;
  cmd_db_addr : option nat;
  cmd_flags : Z;
  cmd_uidx : Z;
  cmd_sq_wqe_count : Z;
  cmd_rq_wqe_count : Z;
  cmd_rq_wqe_shift : Z;
  cmd_bfreg_index : Z;
  cmd_access_key : Z
}.

Inductive kcmd :=
| cmd_create_qp_ex (c : mlx5_create_qp)
| cmd_create_qp_ex2 (c : mlx5_create_qp)
| cmd_create_rss_qp (create_flags : Z)
| cmd_destroy_qp (qp : nat)
| cmd_destroy_srq (srq : nat)
| cmd_modify_qp (qp : nat) | cmd_modify_qp_ex (qp : nat)
| cmd_query_qp (qp : nat)
| cmd_create_cq (ncqe : Z).

(** What a call leaves behind, in order. *)
Inductive event :=
| EvKernel (c : kcmd)
| EvMutexLock (m : mutex)
| EvMutexUnlock (m : mutex)
| EvSpinLock (cq : nat)
| EvSpinUnlock (cq : nat)
| EvCqClean (cq : option nat) (rsn : Z) (srq : option nat)
| EvClearQp (qpn : Z)
| EvClearSrq (srqn : Z)
| EvClearUidx (uidx : Z)
| EvFreeDb (db : option nat)
| EvFreeBuf (b : option nat)
| EvFreeSrqWqe (srq : nat)
| EvFree (what : mlx5_rsc_type) (p : nat)
| EvAllocCqBuf (nent : Z) (cqe_sz : Z)
| EvAllocBuf (size : Z) (alignment : Z)
| EvAllocDbrec.


(** The provider's memory. *)
Record state := {
  ctx : mlx5_context;
  qps : gmap nat mlx5_qp;
  srqs : gmap nat mlx5_srq;
  cqs : gmap nat mlx5_cq;
  tds : gmap nat mlx5_td;
  pds : gmap nat mlx5_pd;
  dbrecs : gmap nat (Z * Z);
  bufs : gmap nat (Z * Z);
  errno : Z;
  trace : list event
}.

Definition set_ctx v (x : state) : state :=
  {| ctx := v; qps := qps x; srqs := srqs x; cqs := cqs x; tds := tds x;
     pds := pds x; dbrecs := dbrecs x; bufs := bufs x; errno := errno x;
     trace := trace x |}.

Definition set_qps v (x : state) : state :=
  {| ctx := ctx x; qps := v; srqs := srqs x; cqs := cqs x; tds := tds x;
     pds := pds x; dbrecs := dbrecs x; bufs := bufs x; errno := errno x;
     trace := trace x |}.

Definition set_srqs v (x : state) : state :=
  {| ctx := ctx x; qps := qps x; srqs := v; cqs := cqs x; tds := tds x;
     pds := pds x; dbrecs := dbrecs x; bufs := bufs x; errno := errno x;
     trace := trace x |}.

Definition set_cqs v (x : state) : state :=
  {| ctx := ctx x; qps := qps x; srqs := srqs x; cqs := v; tds := tds x;
     pds := pds x; dbrecs := dbrecs x; bufs := bufs x; errno := errno x;
     trace := trace x |}.

Definition set_tds v (x : state) : state :=
  {| ctx := ctx x; qps := qps x; srqs := srqs x; cqs := cqs x; tds := v;
     pds := pds x; dbrecs := dbrecs x; bufs := bufs x; errno := errno x;
     trace := trace x |}.

Definition set_pds v (x : state) : state :=
  {| ctx := ctx x; qps := qps x; srqs := srqs x; cqs := cqs x; tds := tds x;
     pds := v; dbrecs := dbrecs x; bufs := bufs x; errno := errno x;
     trace := trace x |}.

Definition set_dbrecs v (x : state) : state :=
  {| ctx := ctx x; qps := qps x; srqs := srqs x; cqs := cqs x; tds := tds x;
     pds := pds x; dbrecs := v; bufs := bufs x; errno := errno x;
     trace := trace x |}.

Definition set_bufs v (x : state) : state :=
  {| ctx := ctx x; qps := qps x; srqs := srqs x; cqs := cqs x; tds := tds x;
     pds := pds x; dbrecs := dbrecs x; bufs := v; errno := errno x;
     trace := trace x |}.

Definition set_errno v (x : state) : state :=
  {| ctx := ctx x; qps := qps x; srqs := srqs x; cqs := cqs x; tds := tds x;
     pds := pds x; dbrecs := dbrecs x; bufs := bufs x; errno := v;
     trace := trace x |}.

Definition set_trace v (x : state) : state :=
  {| ctx := ctx x; qps := qps x; srqs := srqs x; cqs := cqs x; tds := tds x;
     pds := pds x; dbrecs := dbrecs x; bufs := bufs x; errno := errno x;
     trace := v |}.

Definition set_cq_lock v (x : mlx5_cq) : mlx5_cq :=
  {| cqn := cqn x; cq_lock := v; cqes := cqes x; cons_index := cons_index x;
     cq_dbrec := cq_dbrec x; active_buf := active_buf x;
     resize_buf := resize_buf x; arm_sn := arm_sn x; cqe_sz := cqe_sz x;
     cq_flags := cq_flags x; ibv_cq_cqe := ibv_cq_cqe x |}.

Definition set_cqes v (x : mlx5_cq) : mlx5_cq :=
  {| cqn := cqn x; cq_lock := cq_lock x; cqes := v;
     cons_index := cons_index x; cq_dbrec := cq_dbrec x;
     active_buf := active_buf x; resize_buf := resize_buf x;
     arm_sn := arm_sn x; cqe_sz := cqe_sz x; cq_flags := cq_flags x;
     ibv_cq_cqe := ibv_cq_cqe x |}.

Definition set_cmd_qp v (x : mlx5_srq) : mlx5_srq :=
  {| srqn := srqn x; srq_rsc_type := srq_rsc_type x; srq_rsn := srq_rsn x;
     cmd_qp := v; srq_db := srq_db x; srq_buf := srq_buf x;
     srq_tm_list := srq_tm_list x; srq_wrid := srq_wrid x;
     srq_op := srq_op x |}.

Definition set_pd_refcount v (x : mlx5_pd) : mlx5_pd :=
  {| pd_refcount := v; mprotection_domain := mprotection_domain x;
     mtd := mtd x |}.

Definition set_td_refcount v (x : mlx5_td) : mlx5_td :=
  {| td_bf := td_bf x; td_refcount := v |}.

(** ** Calls that leave the file

    The outcome of every call into the kernel command transport, the
    allocator and the process environment during one provider call. *)
Record extern := {
  (** [mlx5_mmap] of a UAR page: the address, [None] for [MAP_FAILED] *)
  x_mmap : Z → option Z;
  (** [calloc] of the object under construction *)
  x_calloc : option nat;
  (** [getenv ("MLX5_QP_SIGNATURE")] is set *)
  x_qp_signature : bool;
  (** [getenv ("MLX5_SCATTER_TO_CQE")] is set, and is ["0"] *)
  x_scatter_to_cqe : option bool;
  (** [getenv ("MLX5_CQE_SIZE")], through [atoi] *)
  x_cqe_size : option Z;
  (** [malloc] of [sq.wrid], [sq.wr_data], [sq.wqe_head], [rq.wrid] *)
  x_malloc_sq_wrid : bool;
  x_malloc_sq_wr_data : bool;
  x_malloc_sq_wqe_head : bool;
  x_malloc_rq_wrid : bool;
  (** [mlx5_alloc_prefered_buf] for [qp->buf] and [qp->sq_buf] *)
  x_alloc_buf : option nat;
  x_alloc_sq_buf : option nat;
  (** [mlx5_alloc_cq_buf] *)
  x_alloc_cq_buf : option nat;
  (** [mlx5_spinlock_init], 0 on success *)
  x_spinlock_init_sq : Z;
  x_spinlock_init_rq : Z;
  x_spinlock_init_cq : Z;
  (** [mlx5_cq_fill_pfns] *)
  x_cq_fill_pfns : Z;
  (** [mlx5_alloc_dbrec] *)
  x_alloc_dbrec : option nat;
  (** [mlx5_store_uidx]: the index, negative on failure *)
  x_store_uidx : Z;
  (** [mlx5_store_qp] *)
  x_store_qp : Z;
  (** [check_comp_mask] and the vendor attribute tests of [create_dct] *)
  x_rx_hash_key_fits : bool;
  (** kernel commands: return value and response *)
  x_cmd_create_qp : Z;
  x_resp_qp_num : Z;
  x_resp_uuar_index : Z;
  x_cmd_create_cq : Z;
  x_resp_cqn : Z;
  x_resp_cqe : Z;
  x_cmd_destroy_qp : nat → Z;
  x_cmd_destroy_srq : nat → Z;
  x_cmd_modify_qp : nat → Z;
  x_cmd_query_qp : Z;
  x_query_cap : ibv_qp_cap;
  x_resp_dctn : Z;
  x_resp_length_ok : bool
}.

(** ** The monad of provider calls: state, and no result when the C
    program has none (a trap, a dangling pointer, a lock that is never
    released). *)

Definition M (A : Type) : Type := state → option (A * state).

Definition ret {A} (x : A) : M A := λ s, Some (x, s).

Definition bind {A B} (m : M A) (f : A → M B) : M B :=
  λ s, match m s with
       | Some (x, s') => f x s'
       | None => None
       end.

Definition undefined {A} : M A := λ _, None.

Notation "x <- m ;; k" := (bind m (λ x, k))
  (at level 100, m at next level, right associativity, only parsing).
Notation "m ;;; k" := (bind m (λ _, k))
  (at level 100, right associativity, only parsing).

Definition get : M state := λ s, Some (s, s).
Definition modify (f : state → state) : M unit := λ s, Some (tt, f s).
Definition log (e : event) : M unit :=
  modify (λ s, set_trace (trace s ++ [e]) s).
Definition set_err (e : Z) : M unit := modify (set_errno e).
Definition lift {A} (o : option A) : M A :=
  match o with Some x => ret x | None => undefined end.
Definition when (b : bool) (m : M unit) : M unit :=
  if b then m else ret tt.

(** A step on the context alone; it has no result when [f] has none. *)
Definition with_ctx {A} (f : mlx5_context → option (A * mlx5_context))
  : M A :=
  λ s, match f (ctx s) with
       | Some (x, c) => Some (x, set_ctx c s)
       | None => None
       end.

Definition get_ctx : M mlx5_context := s <- get ;; ret (ctx s).
Definition put_ctx (c : mlx5_context) : M unit := modify (set_ctx c).
Definition get_qp (p : nat) : M mlx5_qp := s <- get ;; lift (qps s !! p).
Definition put_qp (p : nat) (q : mlx5_qp) : M unit :=
  modify (λ s, set_qps (<[p := q]> (qps s)) s).
Definition get_cq (p : nat) : M mlx5_cq := s <- get ;; lift (cqs s !! p).
Definition put_cq (p : nat) (c : mlx5_cq) : M unit :=
  modify (λ s, set_cqs (<[p := c]> (cqs s)) s).
Definition get_srq (p : nat) : M mlx5_srq := s <- get ;; lift (srqs s !! p).
Definition put_srq (p : nat) (q : mlx5_srq) : M unit :=
  modify (λ s, set_srqs (<[p := q]> (srqs s)) s).
Definition get_td (p : nat) : M mlx5_td := s <- get ;; lift (tds s !! p).
Definition get_pd (p : nat) : M mlx5_pd := s <- get ;; lift (pds s !! p).

(** [pthread_mutex_lock] / [pthread_mutex_unlock]. *)
Definition mutex_lock (m : mutex) : M unit := log (EvMutexLock m).
Definition mutex_unlock (m : mutex) : M unit := log (EvMutexUnlock m).

(** [free] of an object of the provider. *)
Definition free_qp (p : nat) : M unit :=
  log (EvFree MLX5_RSC_TYPE_QP p) ;;;
  modify (λ s, set_qps (delete p (qps s)) s).
Definition free_srq (p : nat) : M unit :=
  log (EvFree MLX5_RSC_TYPE_SRQ p) ;;;
  modify (λ s, set_srqs (delete p (srqs s)) s).

(** Modelled from the spec: [mlx5_spin_lock] and [mlx5_spin_unlock]
    (mlx5.h) take and release a mutual-exclusion lock.  Taking a lock that
    is held never returns. *)
Definition mlx5_spin_lock (cq : nat) : M unit :=
  c <- get_cq cq ;;
  if cq_lock c then undefined
  else log (EvSpinLock cq) ;;; put_cq cq (set_cq_lock true c).

Definition mlx5_spin_unlock (cq : nat) : M unit :=
  c <- get_cq cq ;;
  log (EvSpinUnlock cq) ;;; put_cq cq (set_cq_lock false c).

(** Modelled from the spec: the resource index tables of mlx5.c (§4.7),
    [clear(index)] and [clear_by_handle]. *)
Definition mlx5_clear_qp (qpn : Z) : M unit :=
  log (EvClearQp qpn) ;;;
  modify (λ s, set_ctx (set_qp_table (delete qpn (qp_table (ctx s)))
                                     (ctx s)) s).

Definition mlx5_clear_srq (n : Z) : M unit :=
  log (EvClearSrq n) ;;;
  modify (λ s, set_ctx (set_srq_table (delete n (srq_table (ctx s)))
                                      (ctx s)) s).

Definition mlx5_clear_uidx (uidx : Z) : M unit :=
  log (EvClearUidx uidx) ;;;
  modify (λ s, set_ctx (set_uidx_table (delete uidx (uidx_table (ctx s)))
                                       (ctx s)) s).

(** Modelled from the spec: [store(object) -> dense_index | OutOfMemory]
    and [store_by_handle] (§4.7).  The index comes from the table's
    allocator. *)
Definition mlx5_store_uidx (X : extern) (obj : nat) : M Z :=
  let idx := x_store_uidx X in
  if idx <? 0 then ret idx
  else
    modify (λ s, set_ctx (set_uidx_table (<[idx := obj]> (uidx_table (ctx s)))
                                         (ctx s)) s) ;;;
    ret idx.

Definition mlx5_store_qp (X : extern) (qpn : Z) (obj : nat) : M Z :=
  if negb (x_store_qp X =? 0) then ret (x_store_qp X)
  else
    modify (λ s, set_ctx (set_qp_table (<[qpn := obj]> (qp_table (ctx s)))
                                       (ctx s)) s) ;;;
    ret 0.

(** Modelled from the spec: the doorbell-record allocator (dbrec.c) and the
    buffer allocator (buf.c), "lifetime scoped to the owning queue
    object". *)
Definition mlx5_alloc_dbrec (X : extern) : M (option nat) :=
  log EvAllocDbrec ;;;
  match x_alloc_dbrec X with
  | None => ret None
  | Some d =>
      modify (λ s, set_dbrecs (<[d := (0, 0)]> (dbrecs s)) s) ;;;
      ret (Some d)
  end.

Definition mlx5_free_db (d : option nat) : M unit :=
  log (EvFreeDb d) ;;;
  match d with
  | None => ret tt
  | Some d => modify (λ s, set_dbrecs (delete d (dbrecs s)) s)
  end.

Definition mlx5_free_actual_buf (b : option nat) : M unit :=
  log (EvFreeBuf b) ;;;
  match b with
  | None => ret tt
  | Some b => modify (λ s, set_bufs (delete b (bufs s)) s)
  end.

Definition mlx5_alloc_prefered_buf (r : option nat) (size alignment : Z)
  : M (option nat) :=
  log (EvAllocBuf size alignment) ;;;
  match r with
  | None => ret None
  | Some b =>
      modify (λ s, set_bufs (<[b := (size, alignment)]> (bufs s)) s) ;;;
      ret (Some b)
  end.

(** Writing one of the two words of a doorbell record. *)
Inductive dbr_word := MLX5_RCV_DBR | MLX5_SND_DBR.

Definition db_write (d : option nat) (i : dbr_word) (v : Z) : M unit :=
  match d with
  | None => undefined
  | Some d =>
      s <- get ;;
      match dbrecs s !! d with
      | None => undefined
      | Some (r, t) =>
          modify (set_dbrecs
                    (<[d := match i with
                            | MLX5_RCV_DBR => (v, t)
                            | MLX5_SND_DBR => (r, v)
                            end]> (dbrecs s)))
      end
  end.

(** ** Dynamic BF registers and thread domains *)

(** Array access by a C index; outside the array there is no result. *)
Definition nth_z {A} (l : list A) (i : Z) : option A :=
  if i <? 0 then None else l !! Z.to_nat i.

Definition upd_z {A} (l : list A) (i : Z) (x : A) : option (list A) :=
  match nth_z l i with
  | None => None
  | Some _ => Some (<[Z.to_nat i := x]> l)
  end.

(** [a % b]. *)
Definition c_rem (a b : Z) : option Z :=
  if b =? 0 then None else Some (Z.rem a b).

(** [mlx5_put_bfreg_index]: [ctx->count_dyn_bfregs[bfreg_dyn_index]--]. *)
Definition mlx5_put_bfreg_index (bfreg_dyn_index : Z) : M unit :=
  mutex_lock dyn_bfregs_mutex ;;;
  with_ctx (λ c,
    n ← nth_z (count_dyn_bfregs c) bfreg_dyn_index;
    l ← upd_z (count_dyn_bfregs c) bfreg_dyn_index (C.to_uint (n - 1));
    Some (tt, set_count_dyn_bfregs l c)) ;;;
  mutex_unlock dyn_bfregs_mutex.

(** The loop of [mlx5_get_bfreg_index], from index [i] on; [fuel] is the
    number of indices left below [num_dyn_bfregs]. *)
Fixpoint get_bfreg_loop (fuel : nat) (i : Z) (counts : list Z)
  : option (Z * list Z) :=
  match fuel with
  | O => Some (-1, counts)
  | S fuel' =>
      match nth_z counts i with
      | None => None
      | Some n =>
          if n =? 0
          then option_map (λ l, (i, l)) (upd_z counts i (C.to_uint (n + 1)))
          else get_bfreg_loop fuel' (i + 1) counts
      end
  end.

Definition mlx5_get_bfreg_index : M Z :=
  mutex_lock dyn_bfregs_mutex ;;;
  i <- with_ctx (λ c,
    r ← get_bfreg_loop (Z.to_nat (num_dyn_bfregs c)) 0 (count_dyn_bfregs c);
    Some (fst r, set_count_dyn_bfregs (snd r) c)) ;;
  mutex_unlock dyn_bfregs_mutex ;;;
  ret i.

Section BfReg.

Context (B : bf_layout) (X : extern).

Definition put_bf (i : Z) (b : mlx5_bf) : M unit :=
  with_ctx (λ c, l ← upd_z (bfs c) i b; Some (tt, set_bfs l c)).

Definition get_bf (i : Z) : M mlx5_bf :=
  c <- get_ctx ;; lift (nth_z (bfs c) i).

(** [mlx5_attach_dedicated_bf]: a dedicated BF for a thread domain; the
    result points into [ctx->bfs], [None] is [NULL]. *)
Definition mlx5_attach_dedicated_bf : M (option Z) :=
  bfreg_dyn_index <- mlx5_get_bfreg_index ;;
  if bfreg_dyn_index <? 0 then set_err C.ENOENT ;;; ret None else
  c <- get_ctx ;;
  let bfreg_total_index :=
    C.to_uint (start_dyn_bfregs_index c + bfreg_dyn_index) in
  b <- get_bf bfreg_total_index ;;
  if bool_decide (bf_reg b ≠ None) then ret (Some bfreg_total_index) else
  let num_bfregs_per_page :=
    C.to_int (num_uars_per_page c * MLX5_NUM_NON_FP_BFREGS_PER_UAR B) in
  q <- lift (C.div bfreg_dyn_index num_bfregs_per_page) ;;
  let uar_page_index := C.to_uint q in
  let mmap_bf_index :=
    C.to_int (start_dyn_bfregs_index c +
              uar_page_index * C.to_uint num_bfregs_per_page) in
  mutex_lock dyn_bfregs_mutex ;;;
  m <- get_bf mmap_bf_index ;;
  mapped <-
    (if bool_decide (bf_uar m ≠ None) then ret true
     else
       match x_mmap X uar_page_index with
       | None => put_bf mmap_bf_index (set_bf_uar None m) ;;; ret false
       | Some a => put_bf mmap_bf_index (set_bf_uar (Some a) m) ;;; ret true
       end) ;;
  mutex_unlock dyn_bfregs_mutex ;;;
  if mapped then
    r <- lift (c_rem bfreg_dyn_index num_bfregs_per_page) ;;
    index_uar_in_page <- lift (C.div r (MLX5_NUM_NON_FP_BFREGS_PER_UAR B)) ;;
    index_in_uar <-
      lift (c_rem bfreg_dyn_index (MLX5_NUM_NON_FP_BFREGS_PER_UAR B)) ;;
    m <- get_bf mmap_bf_index ;;
    uar <- lift (bf_uar m) ;;
    b <- get_bf bfreg_total_index ;;
    put_bf bfreg_total_index
      {| bf_reg := Some (uar + index_uar_in_page * MLX5_ADAPTER_PAGE_SIZE B
                         + MLX5_BF_OFFSET B + index_in_uar * bf_reg_size c);
         bf_uar := bf_uar b;
         bf_uuarn := bfreg_total_index;
         bf_buf_size := C.to_uint (Z.quot (bf_reg_size c) 2);
         bf_bfreg_dyn_index := C.to_uint bfreg_dyn_index;
         bf_uar_mmap_offset := 0;
         bf_need_lock := 0 |} ;;;
    ret (Some bfreg_total_index)
  else
    mlx5_put_bfreg_index (C.to_uint bfreg_dyn_index) ;;;
    ret None.

(** [mlx5_detach_dedicated_bf]. *)
Definition mlx5_detach_dedicated_bf (bf : Z) : M unit :=
  b <- get_bf bf ;;
  mlx5_put_bfreg_index (bf_bfreg_dyn_index b).

(** [mlx5_alloc_td]: a thread domain with a dedicated BF; [comp_mask] is
    [init_attr->comp_mask]. *)
Definition mlx5_alloc_td (comp_mask : Z) : M (option nat) :=
  if negb (comp_mask =? 0) then set_err C.EINVAL ;;; ret None else
  match x_calloc X with
  | None => set_err C.ENOMEM ;;; ret None
  | Some td =>
      bf <- mlx5_attach_dedicated_bf ;;
      match bf with
      | None => ret None
      | Some b =>
          modify (λ s, set_tds (<[td := {| td_bf := b; td_refcount := 1 |}]>
                                  (tds s)) s) ;;;
          ret (Some td)
      end
  end.

(** [mlx5_dealloc_td]. *)
Definition mlx5_dealloc_td (ib_td : nat) : M Z :=
  td <- get_td ib_td ;;
  if td_refcount td >? 1 then ret C.EBUSY else
  mlx5_detach_dedicated_bf (td_bf td) ;;;
  modify (λ s, set_tds (delete ib_td (tds s)) s) ;;;
  ret 0.

(** [atomic_fetch_sub (&pd->refcount, 1)] and the same on a thread
    domain. *)
Definition pd_refcount_add (p : nat) (d : Z) : M unit :=
  pd <- get_pd p ;;
  modify (λ s, set_pds
    (<[p := set_pd_refcount (C.to_int (pd_refcount pd + d)) pd]> (pds s)) s).

Definition td_refcount_add (p : nat) (d : Z) : M unit :=
  td <- get_td p ;;
  modify (λ s, set_tds
    (<[p := set_td_refcount (C.to_int (td_refcount td + d)) td]> (tds s)) s).

(** [mlx5_dealloc_parent_domain]. *)
Definition mlx5_dealloc_parent_domain (mparent_domain : nat) : M Z :=
  pd <- get_pd mparent_domain ;;
  if pd_refcount pd >? 1 then ret C.EBUSY else
  base <- lift (mprotection_domain pd) ;;
  pd_refcount_add base (-1) ;;;
  match mtd pd with
  | Some t => td_refcount_add t (-1)
  | None => ret tt
  end ;;;
  modify (λ s, set_pds (delete mparent_domain (pds s)) s) ;;;
  ret 0.

End BfReg.

(** Modelled from the spec: [to_mparent_domain] (mlx5.h): the parent
    domain behind a protection domain, if it is one. *)
Definition to_mparent_domain (pd : option nat) : M (option nat) :=
  match pd with
  | None => ret None
  | Some p =>
      d <- get_pd p ;;
      ret (if bool_decide (mprotection_domain d ≠ None) then Some p else None)
  end.

(** ** Completion queues *)

(** Modelled from the spec: [check_comp_mask] (driver.h): no bit of the
    request lies outside the supported mask (§7, "unsupported
    capability-mask bit"). *)
Definition check_comp_mask (input supported : Z) : bool :=
  Z.land input (Z.lnot supported) =? 0.

(** Modelled from the spec: [__mlx5_cq_clean] (cq.c), §4.6: every entry that
    carries the handle being removed leaves the ring and the survivors keep
    their order; on the receive side of a QP, the matching entries that
    belong to the shared receive queue are preserved. *)
Definition cq_clean_keeps (rsn : Z) (srq : option nat) (e : cqe) : bool :=
  negb (cqe_rsn e =? rsn) || (bool_decide (srq ≠ None) && cqe_from_srq e).

Definition __mlx5_cq_clean (cq : option nat) (rsn : Z) (srq : option nat)
  : M unit :=
  log (EvCqClean cq rsn srq) ;;;
  match cq with
  | None => ret tt
  | Some p =>
      c <- get_cq p ;;
      put_cq p (set_cqes (List.filter (cq_clean_keeps rsn srq) (cqes c)) c)
  end.

(** Modelled from the spec: [mlx5_cq_clean] (cq.c): the scavenging pass
    under the CQ's own lock. *)
Definition mlx5_cq_clean (cq : nat) (rsn : Z) (srq : option nat) : M unit :=
  mlx5_spin_lock cq ;;;
  __mlx5_cq_clean (Some cq) rsn srq ;;;
  mlx5_spin_unlock cq.

(** [struct ibv_cq_init_attr_ex] and [struct mlx5dv_cq_init_attr]. *)
Record ibv_cq_init_attr_ex := {
  cqe_req : Z;
  wc_flags : Z;
  cq_comp_mask : Z;
  cq_attr_flags : Z
}.

Record mlx5dv_cq_init_attr := {
  dvcq_comp_mask : Z;
  cqe_comp_res_format : Z;
  dvcq_flags : Z
}.

(** [get_cqe_size]. *)
Definition get_cqe_size (X : extern) : Z :=
  let size := match x_cqe_size X with Some v => v | None => 64 end in
  if (size =? 64) || (size =? 128) then size else - C.EINVAL.

Section Cq.

Context (F : flag_bits) (X : extern).

Definition mlx5_alloc_cq_buf (nent cqe_sz : Z) : M (option nat) :=
  log (EvAllocCqBuf nent cqe_sz) ;;;
  match x_alloc_cq_buf X with
  | None => ret None
  | Some b =>
      modify (λ s, set_bufs (<[b := (nent, cqe_sz)]> (bufs s)) s) ;;;
      ret (Some b)
  end.

(** The vendor attributes of [create_cq]: [Some flags] for the command, or
    [None] after [errno = EINVAL]. *)
Definition create_cq_vendor (c : mlx5_context) (cqe_sz : Z)
    (a : mlx5dv_cq_init_attr) : option Z :=
  if negb (check_comp_mask (dvcq_comp_mask a)
             (MLX5DV_CQ_INIT_ATTR_MASK_RESERVED F - 1)) then None else
  if C.bits (dvcq_comp_mask a) (MLX5DV_CQ_INIT_ATTR_MASK_COMPRESSED_CQE F)
     && negb (negb (cqe_comp_max_num c =? 0) &&
              C.bits (cqe_comp_res_format a) (cqe_comp_supported_format c))
  then None else
  if C.bits (dvcq_comp_mask a) (MLX5DV_CQ_INIT_ATTR_MASK_FLAGS F) then
    if C.bits (dvcq_flags a)
         (Z.lnot (MLX5DV_CQ_INIT_ATTR_FLAGS_RESERVED F - 1)) then None else
    if C.bits (dvcq_flags a) (MLX5DV_CQ_INIT_ATTR_FLAGS_CQE_PAD F) then
      if negb (C.bits (vendor_cap_flags c)
                 (MLX5_VENDOR_CAP_FLAGS_CQE_128B_PAD F))
         || negb (cqe_sz =? 128)
      then None
      else Some (MLX5_CREATE_CQ_FLAGS_CQE_128B_PAD F)
    else Some 0
  else Some 0.

(** [create_cq]; the result is the new CQ, [None] for [NULL]. *)
Definition create_cq (cq_attr : ibv_cq_init_attr_ex) (cq_alloc_flags : Z)
    (mlx5cq_attr : option mlx5dv_cq_init_attr) : M (option nat) :=
  if cqe_req cq_attr =? 0 then set_err C.EINVAL ;;; ret None else
  if C.bits (cq_comp_mask cq_attr) (Z.lnot (IBV_CQ_INIT_ATTR_MASK_FLAGS F))
  then set_err C.EINVAL ;;; ret None else
  if C.bits (cq_comp_mask cq_attr) (IBV_CQ_INIT_ATTR_MASK_FLAGS F) &&
     C.bits (cq_attr_flags cq_attr)
       (Z.lnot (IBV_CREATE_CQ_ATTR_SINGLE_THREADED F))
  then set_err C.EINVAL ;;; ret None else
  if C.bits (wc_flags cq_attr) (Z.lnot (CREATE_CQ_SUPPORTED_WC_FLAGS F))
  then set_err C.ENOTSUP ;;; ret None else
  match x_calloc X with
  | None => ret None
  | Some cq =>
  let rc := if C.bits cq_alloc_flags (MLX5_CQ_FLAGS_EXTENDED F)
            then x_cq_fill_pfns X else 0 in
  if negb (rc =? 0) then set_err rc ;;; ret None else
  if negb (x_spinlock_init_cq X =? 0) then ret None else
  let ncqe := align_queue_size (C.to_uint (cqe_req cq_attr + 1)) in
  if (ncqe >? Z.shiftl 1 24) ||
     (C.to_uint ncqe <? C.to_uint (cqe_req cq_attr + 1))
  then set_err C.EINVAL ;;; ret None else
  let cqe_sz := get_cqe_size X in
  if cqe_sz <? 0 then set_err (- cqe_sz) ;;; ret None else
  b <- mlx5_alloc_cq_buf ncqe cqe_sz ;;
  match b with
  | None => ret None
  | Some buf_a =>
  d <- mlx5_alloc_dbrec X ;;
  match d with
  | None => mlx5_free_actual_buf (Some buf_a) ;;; ret None
  | Some dbrec =>
  let err_db := mlx5_free_db (Some dbrec) ;;;
                mlx5_free_actual_buf (Some buf_a) ;;; ret None in
  let flags :=
    if C.bits (cq_comp_mask cq_attr) (IBV_CQ_INIT_ATTR_MASK_FLAGS F) &&
       C.bits (cq_attr_flags cq_attr) (IBV_CREATE_CQ_ATTR_SINGLE_THREADED F)
    then Z.lor cq_alloc_flags (MLX5_CQ_FLAGS_SINGLE_THREADED F)
    else cq_alloc_flags in
  c <- get_ctx ;;
  match match mlx5cq_attr with
        | Some a => create_cq_vendor c cqe_sz a
        | None => Some 0
        end with
  | None => set_err C.EINVAL ;;; err_db
  | Some _ =>
  log (EvKernel (cmd_create_cq (ncqe - 1))) ;;;
  if negb (x_cmd_create_cq X =? 0) then err_db else
  put_cq cq {| cqn := x_resp_cqn X; cq_lock := false; cqes := [];
               cons_index := 0; cq_dbrec := Some dbrec;
               active_buf := Some buf_a; resize_buf := None; arm_sn := 0;
               cqe_sz := cqe_sz; cq_flags := flags;
               ibv_cq_cqe := x_resp_cqe X |} ;;;
  ret (Some cq)
  end end end end.

(** [mlx5_create_cq]. *)
Definition mlx5_create_cq (cqe : Z) : M (option nat) :=
  if cqe <=? 0 then set_err C.EINVAL ;;; ret None else
  create_cq {| cqe_req := C.to_uint cqe;
               wc_flags := IBV_WC_STANDARD_FLAGS F;
               cq_comp_mask := 0; cq_attr_flags := 0 |} 0 None.

End Cq.

(** ** Queue pairs: creation *)

(** Modelled from the spec: [mlx5_init_qp_indices] (qp.c) resets the four
    queue cursors, head and tail of the send and of the receive queue. *)
Definition mlx5_init_qp_indices (qp : mlx5_qp) : mlx5_qp :=
  set_rq (set_cursors (rq qp) 0 0 (cur_post (rq qp)))
    (set_sq (set_cursors (sq qp) 0 0 (cur_post (sq qp))) qp).

(** Modelled from the spec: the kernel command transport (§6) returns the
    object's handle or an error code; on success libibverbs fills the
    [struct ibv_qp] from the request and the response. *)
Definition ibv_cmd_create_qp (X : extern) (c : kcmd)
    (attr : ibv_qp_init_attr_ex) (qp : mlx5_qp) : M (Z * mlx5_qp) :=
  log (EvKernel c) ;;;
  if negb (x_cmd_create_qp X =? 0) then ret (x_cmd_create_qp X, qp)
  else
    ret (0, set_ibqp_qp_num (x_resp_qp_num X)
              (set_ibqp_state IBV_QPS_RESET
              (set_ibqp_qp_type (qp_type attr)
              (set_ibqp_send_cq (attr_send_cq attr)
              (set_ibqp_recv_cq (attr_recv_cq attr)
              (set_ibqp_srq (attr_srq attr)
              (set_ibqp_pd (attr_pd attr) qp))))))).

Definition cmd_zero : mlx5_create_qp :=
  {| cmd_buf_addr := None; cmd_sq_buf_addr := None; cmd_db_addr := None;
     cmd_flags := 0; cmd_uidx := 0; cmd_sq_wqe_count := 0;
     cmd_rq_wqe_count := 0; cmd_rq_wqe_shift := 0; cmd_bfreg_index := 0;
     cmd_access_key := 0 |}.

Section QpCreate.

Context (L : wqe_layout) (F : flag_bits) (mlx5_ilog2 : Z → Z) (X : extern).

Definition MLX5_CREATE_QP_SUP_COMP_MASK : Z :=
  Z.lor (IBV_QP_INIT_ATTR_PD F)
    (Z.lor (IBV_QP_INIT_ATTR_XRCD F)
      (Z.lor (IBV_QP_INIT_ATTR_CREATE_FLAGS F)
        (Z.lor (IBV_QP_INIT_ATTR_MAX_TSO_HEADER F)
          (Z.lor (IBV_QP_INIT_ATTR_IND_TABLE F)
                 (IBV_QP_INIT_ATTR_RX_HASH F))))).

Definition MLX5_DV_CREATE_QP_SUP_COMP_MASK : Z :=
  Z.lor (MLX5DV_QP_INIT_ATTR_MASK_QP_CREATE_FLAGS F)
        (MLX5DV_QP_INIT_ATTR_MASK_DC F).

Definition MLX5_CREATE_QP_EX2_COMP_MASK : Z :=
  Z.lor (IBV_QP_INIT_ATTR_CREATE_FLAGS F)
    (Z.lor (IBV_QP_INIT_ATTR_MAX_TSO_HEADER F)
      (Z.lor (IBV_QP_INIT_ATTR_IND_TABLE F)
             (IBV_QP_INIT_ATTR_RX_HASH F))).

(** The test of lines 1370, 1686, 1701 and 1728: a raw packet QP, or one
    in underlay mode. *)
Definition separate_sq (attr : ibv_qp_init_attr_ex) (qp : mlx5_qp) : bool :=
  bool_decide (qp_type attr = IBV_QPT_RAW_PACKET)
  || C.bits (flags qp) (MLX5_QP_FLAGS_USE_UNDERLAY F).

(** [mlx5_free_qp_buf]. *)
Definition mlx5_free_qp_buf (qp : mlx5_qp) : M unit :=
  mlx5_free_actual_buf (buf qp) ;;;
  when (bool_decide (sq_buf qp ≠ None)) (mlx5_free_actual_buf (sq_buf qp)).

(** [mlx5_alloc_qp_buf]: the per-slot arrays and the queue buffer(s);
    returns 0, -1 or [-ENOMEM]. *)
Definition mlx5_alloc_qp_buf (attr : ibv_qp_init_attr_ex) (qp : mlx5_qp)
  : M (Z * mlx5_qp) :=
  let fail_nomem := set_err C.ENOMEM ;;; ret (-1, qp) in
  if negb (wqe_cnt (sq qp) =? 0) && negb (x_malloc_sq_wrid X)
  then fail_nomem else
  if negb (wqe_cnt (sq qp) =? 0) && negb (x_malloc_sq_wr_data X)
  then fail_nomem else
  if negb (x_malloc_sq_wqe_head X) then fail_nomem else
  if negb (wqe_cnt (rq qp) =? 0) && negb (x_malloc_rq_wrid X)
  then fail_nomem else
  let cnt_if (w : mlx5_wq) := if wqe_cnt w =? 0 then None
                              else Some (wqe_cnt w) in
  let qp :=
    set_rq (set_arrays (rq qp) (cnt_if (rq qp)) None None)
      (set_sq (set_arrays (sq qp) (cnt_if (sq qp)) (Some (wqe_cnt (sq qp)))
                 (cnt_if (sq qp))) qp) in
  c <- get_ctx ;;
  b <- mlx5_alloc_prefered_buf (x_alloc_buf X)
         (align (C.to_ulong (buf_size qp)) (C.to_ulong (page_size c)))
         (C.to_ulong (page_size c)) ;;
  match b with
  | None => ret (- C.ENOMEM, qp)
  | Some _ =>
      let qp := set_buf b qp in
      if separate_sq attr qp then
        let aligned_sq_buf_size :=
          align (C.to_ulong (sq_buf_size qp)) (C.to_ulong (page_size c)) in
        sb <- mlx5_alloc_prefered_buf (x_alloc_sq_buf X) aligned_sq_buf_size
                (C.to_ulong (page_size c)) ;;
        match sb with
        | None => mlx5_free_actual_buf b ;;; ret (- C.ENOMEM, qp)
        | Some _ => ret (0, set_sq_buf sb qp)
        end
      else ret (0, qp)
  end.

(** [create_dct]; the result is the errno to return, 0 on success. *)
Definition create_dct (attr : ibv_qp_init_attr_ex)
    (mlx5_qp_attr : mlx5dv_qp_init_attr) (p : nat) (qp : mlx5_qp)
  : M (Z * mlx5_qp) :=
  if negb (check_comp_mask (comp_mask attr) (IBV_QP_INIT_ATTR_PD F))
  then set_err C.EINVAL ;;; ret (C.EINVAL, qp) else
  if negb (check_comp_mask (dv_comp_mask mlx5_qp_attr)
             (MLX5DV_QP_INIT_ATTR_MASK_DC F))
  then set_err C.EINVAL ;;; ret (C.EINVAL, qp) else
  c <- get_ctx ;;
  usr_idx <- (if negb (cqe_version c =? 0) then mlx5_store_uidx X p
              else ret 16777215) ;;
  if usr_idx <? 0 then set_err C.ENOMEM ;;; ret (C.ENOMEM, qp) else
  let cmd :=
    {| cmd_buf_addr := None; cmd_sq_buf_addr := None; cmd_db_addr := None;
       cmd_flags := MLX5_QP_FLAG_TYPE_DCT F; cmd_uidx := usr_idx;
       cmd_sq_wqe_count := 0; cmd_rq_wqe_count := 0; cmd_rq_wqe_shift := 0;
       cmd_bfreg_index := 0;
       cmd_access_key := dct_access_key mlx5_qp_attr |} in
  r <- ibv_cmd_create_qp X (cmd_create_qp_ex cmd) attr qp ;;
  let '(ret_, qp) := r in
  if negb (ret_ =? 0) then
    when (negb (cqe_version c =? 0)) (mlx5_clear_uidx usr_idx) ;;;
    ret (ret_, qp)
  else
    let qp := set_rsc_type MLX5_RSC_TYPE_QP
                (set_dc_type MLX5DV_DCTYPE_DCT qp) in
    ret (0, if negb (cqe_version c =? 0) then set_rsn usr_idx qp else qp).

(** [mlx5_cmd_create_rss_qp]. *)
Definition mlx5_cmd_create_rss_qp (attr : ibv_qp_init_attr_ex)
    (qp : mlx5_qp) (mlx5_create_flags : Z) : M (Z * mlx5_qp) :=
  if negb (x_rx_hash_key_fits X)
  then set_err C.EINVAL ;;; ret (C.EINVAL, qp) else
  r <- ibv_cmd_create_qp X (cmd_create_rss_qp mlx5_create_flags) attr qp ;;
  let '(ret_, qp) := r in
  if negb (ret_ =? 0) then ret (ret_, qp)
  else ret (0, set_rss_qp true qp).

(** [create_qp], lines 1686 to 1694: one buffer for both queues, or the
    send queue in a buffer of its own. *)
Definition split_queues (attr : ibv_qp_init_attr_ex) (qp : mlx5_qp)
    (ret_ : Z) : mlx5_qp :=
  if separate_sq attr qp then
    set_sq (set_offset (sq qp) 0)
      (set_sq_buf_size (C.to_int (ret_ - offset (sq qp)))
         (set_buf_size (offset (sq qp)) qp))
  else set_sq_buf_size 0 (set_buf_size ret_ qp).

(** [create_qp], lines 1672 to 1825: the QP with work queues.  [p] is the
    address [calloc] gave, [qp] the struct so far.  The result is the new
    QP ([None] for [NULL]) and the request as the caller finds it. *)
Definition create_qp_wq (attr : ibv_qp_init_attr_ex) (p : nat)
    (qp : mlx5_qp) (mlx5_create_flags : Z)
  : M (option nat * ibv_qp_init_attr_ex) :=
  let qp := set_wq_sig (x_qp_signature X) qp in
  let flags1 :=
    if wq_sig qp then Z.lor mlx5_create_flags (MLX5_QP_FLAG_SIGNATURE F)
    else mlx5_create_flags in
  let flags2 :=
    if negb (bool_decide (x_scatter_to_cqe X = Some true))
    then Z.lor flags1 (MLX5_QP_FLAG_SCATTER_CQE F) else flags1 in
  c <- get_ctx ;;
  sized <- lift (mlx5_calc_wq_size L F mlx5_ilog2 c attr qp) ;;
  let '(ret_, attr, qp) := sized in
  if ret_ <? 0 then set_err (- ret_) ;;; ret (None, attr) else
  let qp := split_queues attr qp ret_ in
  r <- mlx5_alloc_qp_buf attr qp ;;
  let '(err, qp) := r in
  if negb (err =? 0) then ret (None, attr) else
  let sq_bytes := C.to_uint (Z.shiftl (wqe_cnt (sq qp)) (wqe_shift (sq qp))) in
  let qp :=
    if separate_sq attr qp then
      set_sq (set_qend (sq qp) (option_map (λ b, (b, sq_bytes)) (sq_buf qp)))
        (set_sq_start (option_map (λ b, (b, 0)) (sq_buf qp)) qp)
    else
      set_sq (set_qend (sq qp)
                (option_map (λ b, (b, offset (sq qp) + sq_bytes)) (buf qp)))
        (set_sq_start (option_map (λ b, (b, offset (sq qp))) (buf qp)) qp) in
  let qp := mlx5_init_qp_indices qp in
  if negb (x_spinlock_init_sq X =? 0) || negb (x_spinlock_init_rq X =? 0)
  then mlx5_free_qp_buf qp ;;; ret (None, attr) else
  d <- mlx5_alloc_dbrec X ;;
  match d with
  | None => mlx5_free_qp_buf qp ;;; ret (None, attr)
  | Some _ =>
  let qp := set_db d qp in
  db_write d MLX5_RCV_DBR 0 ;;;
  db_write d MLX5_SND_DBR 0 ;;;
  let qp := if atomic_cap_hca c then set_atomics_enabled true qp else qp in
  let err_rq_db := mlx5_free_db d ;;; mlx5_free_qp_buf qp ;;;
                   ret (None, attr) in
  usr_idx <-
    (if cqe_version c =? 0 then mutex_lock qp_table_mutex ;;; ret 0
     else if negb (is_xrc_tgt (qp_type attr)) then mlx5_store_uidx X p
     else ret 0) ;;
  if usr_idx <? 0 then err_rq_db else
  let uidx := if cqe_version c =? 0 then 16777215
              else if negb (is_xrc_tgt (qp_type attr)) then usr_idx else 0 in
  mparent_domain <- to_mparent_domain (attr_pd attr) ;;
  dyn_bf <-
    match mparent_domain with
    | None => ret None
    | Some m =>
        pd <- get_pd m ;;
        match mtd pd with
        | None => ret None
        | Some t => td <- get_td t ;; ret (Some (td_bf td))
        end
    end ;;
  bfreg_index <-
    match dyn_bf with
    | None => ret 0
    | Some i => c' <- get_ctx ;; b <- lift (nth_z (bfs c') i) ;;
                ret (bf_bfreg_dyn_index b)
    end ;;
  let cmd :=
    {| cmd_buf_addr := buf qp;
       cmd_sq_buf_addr := if separate_sq attr qp then sq_buf qp else None;
       cmd_db_addr := d;
       cmd_flags := if bool_decide (dyn_bf ≠ None)
                    then Z.lor flags2 (MLX5_QP_FLAG_BFREG_INDEX F)
                    else flags2;
       cmd_uidx := uidx;
       cmd_sq_wqe_count := wqe_cnt (sq qp);
       cmd_rq_wqe_count := wqe_cnt (rq qp);
       cmd_rq_wqe_shift := wqe_shift (rq qp);
       cmd_bfreg_index := bfreg_index;
       cmd_access_key := 0 |} in
  let ex2 := C.bits (comp_mask attr) MLX5_CREATE_QP_EX2_COMP_MASK in
  r <- ibv_cmd_create_qp X
         (if ex2 then cmd_create_qp_ex2 cmd else cmd_create_qp_ex cmd)
         attr qp ;;
  let '(ret_, qp) := r in
  let err_free_uidx :=
    (if cqe_version c =? 0 then mutex_unlock qp_table_mutex
     else when (negb (is_xrc_tgt (qp_type attr))) (mlx5_clear_uidx usr_idx)) ;;;
    err_rq_db in
  if negb (ret_ =? 0) then err_free_uidx else
  stored <-
    (if cqe_version c =? 0 then
       if negb (wqe_cnt (sq qp) =? 0) || negb (wqe_cnt (rq qp) =? 0)
       then mlx5_store_qp X (ibqp_qp_num qp) p
       else ret 0
     else ret 0) ;;
  if negb (stored =? 0) then
    log (EvKernel (cmd_destroy_qp p)) ;;; err_free_uidx
  else
  when (cqe_version c =? 0) (mutex_unlock qp_table_mutex) ;;;
  let qp :=
    set_bf (match dyn_bf with
            | None => Some (x_resp_uuar_index X)
            | Some i => Some i
            end) qp in
  let qp := set_rq (set_max_post (rq qp) (wqe_cnt (rq qp))) qp in
  let qp :=
    set_sq_signal_bits
      (if negb (sq_sig_all attr =? 0) then MLX5_WQE_CTRL_CQ_UPDATE F else 0)
      qp in
  let attr :=
    set_cap_depths attr (max_post (sq qp)) (max_post (rq qp))
                   (C.to_uint (max_gs (rq qp))) in
  let qp :=
    set_rsn (if negb (cqe_version c =? 0) && negb (is_xrc_tgt (qp_type attr))
             then usr_idx else ibqp_qp_num qp)
      (set_rsc_type MLX5_RSC_TYPE_QP qp) in
  match mparent_domain with
  | Some m => pd_refcount_add m 1
  | None => ret tt
  end ;;;
  put_qp p qp ;;;
  ret (Some p, attr)
  end.

(** [create_qp]. *)
Definition create_qp (attr : ibv_qp_init_attr_ex)
    (mlx5_qp_attr : option mlx5dv_qp_init_attr)
  : M (option nat * ibv_qp_init_attr_ex) :=
  let fail := ret (None, attr) in
  let einval := set_err C.EINVAL ;;; ret (None, attr) in
  if C.bits (comp_mask attr) (Z.lnot MLX5_CREATE_QP_SUP_COMP_MASK)
  then fail else
  if C.bits (comp_mask attr) (IBV_QP_INIT_ATTR_MAX_TSO_HEADER F) &&
     bool_decide (qp_type attr ≠ IBV_QPT_RAW_PACKET)
  then fail else
  match x_calloc X with
  | None => fail
  | Some p =>
  let qp := qp_zero in
  let source_qpn :=
    C.bits (comp_mask attr) (IBV_QP_INIT_ATTR_CREATE_FLAGS F) &&
    C.bits (create_flags attr) (IBV_QP_CREATE_SOURCE_QPN F) in
  if source_qpn && bool_decide (qp_type attr ≠ IBV_QPT_UD) then einval else
  let qp :=
    if source_qpn
    then set_flags (Z.lor (flags qp) (MLX5_QP_FLAGS_USE_UNDERLAY F)) qp
    else qp in
  let rss_or_wq (qp : mlx5_qp) (mlx5_create_flags : Z) :=
    if C.bits (comp_mask attr) (IBV_QP_INIT_ATTR_RX_HASH F) then
      r <- mlx5_cmd_create_rss_qp attr qp mlx5_create_flags ;;
      let '(ret_, qp) := r in
      if negb (ret_ =? 0) then fail
      else put_qp p qp ;;; ret (Some p, attr)
    else create_qp_wq attr p qp mlx5_create_flags in
  match mlx5_qp_attr with
  | None =>
      if bool_decide (qp_type attr = IBV_QPT_DRIVER) then fail
      else rss_or_wq qp 0
  | Some a =>
      if negb (check_comp_mask (dv_comp_mask a)
                 MLX5_DV_CREATE_QP_SUP_COMP_MASK) then einval else
      if C.bits (dv_comp_mask a) (MLX5DV_QP_INIT_ATTR_MASK_DC F) &&
         bool_decide (qp_type attr ≠ IBV_QPT_DRIVER) then einval else
      let want_flags :=
        C.bits (dv_comp_mask a)
          (MLX5DV_QP_INIT_ATTR_MASK_QP_CREATE_FLAGS F) in
      if want_flags &&
         negb (C.bits (dv_create_flags a)
                 (MLX5DV_QP_CREATE_TUNNEL_OFFLOADS F)) then einval else
      let mlx5_create_flags :=
        if want_flags then MLX5_QP_FLAG_TUNNEL_OFFLOADS F else 0 in
      if bool_decide (qp_type attr = IBV_QPT_DRIVER) then
        if C.bits (dv_comp_mask a) (MLX5DV_QP_INIT_ATTR_MASK_DC F) then
          match dv_dc_type a with
          | MLX5DV_DCTYPE_DCT =>
              r <- create_dct attr a p qp ;;
              let '(ret_, qp) := r in
              if negb (ret_ =? 0) then fail
              else put_qp p qp ;;; ret (Some p, attr)
          | MLX5DV_DCTYPE_DCI =>
              rss_or_wq (set_dc_type MLX5DV_DCTYPE_DCI qp)
                (Z.lor mlx5_create_flags (MLX5_QP_FLAG_TYPE_DCI F))
          | _ => einval
          end
        else einval
      else rss_or_wq qp mlx5_create_flags
  end
  end.

End QpCreate.

(** ** Queue pairs: destruction, modification, query *)

(** [mlx5_lock_cqs]. *)
Definition mlx5_lock_cqs (qp : mlx5_qp) : M unit :=
  match ibqp_send_cq qp, ibqp_recv_cq qp with
  | Some send_cq, Some recv_cq =>
      if bool_decide (send_cq = recv_cq) then mlx5_spin_lock send_cq
      else
        s <- get_cq send_cq ;;
        r <- get_cq recv_cq ;;
        if cqn s <? cqn r
        then mlx5_spin_lock send_cq ;;; mlx5_spin_lock recv_cq
        else mlx5_spin_lock recv_cq ;;; mlx5_spin_lock send_cq
  | Some send_cq, None => mlx5_spin_lock send_cq
  | None, Some recv_cq => mlx5_spin_lock recv_cq
  | None, None => ret tt
  end.

(** [mlx5_unlock_cqs]. *)
Definition mlx5_unlock_cqs (qp : mlx5_qp) : M unit :=
  match ibqp_send_cq qp, ibqp_recv_cq qp with
  | Some send_cq, Some recv_cq =>
      if bool_decide (send_cq = recv_cq) then mlx5_spin_unlock send_cq
      else
        s <- get_cq send_cq ;;
        r <- get_cq recv_cq ;;
        if cqn s <? cqn r
        then mlx5_spin_unlock recv_cq ;;; mlx5_spin_unlock send_cq
        else mlx5_spin_unlock send_cq ;;; mlx5_spin_unlock recv_cq
  | Some send_cq, None => mlx5_spin_unlock send_cq
  | None, Some recv_cq => mlx5_spin_unlock recv_cq
  | None, None => ret tt
  end.

Section QpLife.

Context (F : flag_bits) (X : extern) (htobe32 : Z → Z).

(** The kernel's destroy command. *)
Definition ibv_cmd_destroy_qp (ibqp : nat) : M Z :=
  log (EvKernel (cmd_destroy_qp ibqp)) ;;; ret (x_cmd_destroy_qp X ibqp).

Definition ibv_cmd_destroy_srq (srq : nat) : M Z :=
  log (EvKernel (cmd_destroy_srq srq)) ;;; ret (x_cmd_destroy_srq X srq).

(** [mlx5_destroy_qp]. *)
Definition mlx5_destroy_qp (ibqp : nat) : M Z :=
  qp <- get_qp ibqp ;;
  c <- get_ctx ;;
  mparent_domain <- to_mparent_domain (ibqp_pd qp) ;;
  let free :=
    match mparent_domain with
    | Some m => pd_refcount_add m (-1)
    | None => ret tt
    end ;;;
    free_qp ibqp ;;;
    ret 0 in
  if rss_qp qp then
    ret_ <- ibv_cmd_destroy_qp ibqp ;;
    if negb (ret_ =? 0) then ret ret_ else free
  else
    when (cqe_version c =? 0) (mutex_lock qp_table_mutex) ;;;
    ret_ <- ibv_cmd_destroy_qp ibqp ;;
    if negb (ret_ =? 0) then
      when (cqe_version c =? 0) (mutex_unlock qp_table_mutex) ;;;
      ret ret_
    else
      mlx5_lock_cqs qp ;;;
      __mlx5_cq_clean (ibqp_recv_cq qp) (rsn qp) (ibqp_srq qp) ;;;
      when (bool_decide (ibqp_send_cq qp ≠ ibqp_recv_cq qp))
           (__mlx5_cq_clean (ibqp_send_cq qp) (rsn qp) None) ;;;
      when (cqe_version c =? 0)
        (if bool_decide (dc_type qp = MLX5DV_DCTYPE_DCT) then
           when (bool_decide (ibqp_state qp = IBV_QPS_RTR))
                (mlx5_clear_qp (ibqp_qp_num qp))
         else
           when (negb (wqe_cnt (sq qp) =? 0) || negb (wqe_cnt (rq qp) =? 0))
                (mlx5_clear_qp (ibqp_qp_num qp))) ;;;
      mlx5_unlock_cqs qp ;;;
      (if cqe_version c =? 0 then mutex_unlock qp_table_mutex
       else when (negb (is_xrc_tgt (ibqp_qp_type qp)))
                 (mlx5_clear_uidx (rsn qp))) ;;;
      when (bool_decide (dc_type qp ≠ MLX5DV_DCTYPE_DCT))
           (mlx5_free_db (db qp) ;;; mlx5_free_qp_buf qp) ;;;
      free.

(** [mlx5_destroy_srq]. *)
Definition mlx5_destroy_srq (srq : nat) : M Z :=
  msrq <- get_srq srq ;;
  c <- get_ctx ;;
  r <- match cmd_qp msrq with
       | Some q =>
           ret_ <- mlx5_destroy_qp q ;;
           if negb (ret_ =? 0) then ret ret_
           else put_srq srq (set_cmd_qp None msrq) ;;; ret 0
       | None => ret 0
       end ;;
  if negb (r =? 0) then ret r else
  ret_ <- ibv_cmd_destroy_srq srq ;;
  if negb (ret_ =? 0) then ret ret_ else
  (if negb (cqe_version c =? 0) &&
      bool_decide (srq_rsc_type msrq = MLX5_RSC_TYPE_XSRQ)
   then mlx5_clear_uidx (srq_rsn msrq)
   else mlx5_clear_srq (srqn msrq)) ;;;
  mlx5_free_db (srq_db msrq) ;;;
  mlx5_free_actual_buf (srq_buf msrq) ;;;
  free_srq srq ;;;
  ret 0.

(** [mlx5_query_qp]; the kernel fills the capabilities first. *)
Definition mlx5_query_qp (ibqp : nat) (init_cap : ibv_qp_cap)
  : M (Z * ibv_qp_cap) :=
  qp <- get_qp ibqp ;;
  if rss_qp qp then ret (C.ENOSYS, init_cap) else
  log (EvKernel (cmd_query_qp ibqp)) ;;;
  if negb (x_cmd_query_qp X =? 0) then ret (x_cmd_query_qp X, init_cap) else
  ret (0, {| max_send_wr := max_post (sq qp);
             max_recv_wr := max_recv_wr (x_query_cap X);
             max_send_sge := C.to_uint (max_gs (sq qp));
             max_recv_sge := max_recv_sge (x_query_cap X);
             max_inline_data := C.to_uint (max_inline_data_qp qp) |}).

(** [modify_dct]. *)
Definition modify_dct (qp : nat) (attr : ibv_qp_attr) (attr_mask : Z)
  : M Z :=
  mqp <- get_qp qp ;;
  c <- get_ctx ;;
  log (EvKernel (cmd_modify_qp_ex qp)) ;;;
  let ret_ := x_cmd_modify_qp X qp in
  if negb (ret_ =? 0) then ret ret_ else
  let dct_create :=
    C.bits attr_mask (IBV_QP_STATE F) &&
    bool_decide (qp_state attr = IBV_QPS_RTR) in
  if negb dct_create then ret 0 else
  if negb (x_resp_length_ok X) then set_err C.EINVAL ;;; ret C.EINVAL else
  let mqp := set_ibqp_qp_num (x_resp_dctn X) mqp in
  put_qp qp mqp ;;;
  if cqe_version c =? 0 then
    mutex_lock qp_table_mutex ;;;
    r <- mlx5_store_qp X (ibqp_qp_num mqp) qp ;;
    (if r =? 0 then put_qp qp (set_rsn (ibqp_qp_num mqp) mqp)
     else set_err C.ENOMEM) ;;;
    mutex_unlock qp_table_mutex ;;;
    if negb (r =? 0) then ret C.ENOMEM else ret 0
  else ret 0.

(** [mlx5_modify_qp]. *)
Definition mlx5_modify_qp (qp : nat) (attr : ibv_qp_attr) (attr_mask : Z)
  : M Z :=
  mqp <- get_qp qp ;;
  c <- get_ctx ;;
  if bool_decide (dc_type mqp = MLX5DV_DCTYPE_DCT)
  then modify_dct qp attr attr_mask else
  if rss_qp mqp then ret C.ENOSYS else
  let underlay := C.bits (flags mqp) (MLX5_QP_FLAGS_USE_UNDERLAY F) in
  if underlay &&
     C.bits attr_mask (Z.lnot (Z.lor (IBV_QP_STATE F) (IBV_QP_CUR_STATE F)))
  then ret C.EINVAL else
  let mqp :=
    if underlay &&
       C.bits (cached_device_cap_flags c) (IBV_DEVICE_UD_IP_CSUM F)
    then set_qp_cap_cache
           (Z.lor (qp_cap_cache mqp)
              (Z.lor (MLX5_CSUM_SUPPORT_UNDERLAY_UD F)
                     (MLX5_RX_CSUM_VALID F))) mqp
    else mqp in
  mqp <-
    (if C.bits attr_mask (IBV_QP_PORT F) &&
        bool_decide (ibqp_qp_type mqp = IBV_QPT_RAW_PACKET) then
       ll <- lift (nth_z (cached_link_layer c) (port_num attr - 1)) ;;
       if ll =? IBV_LINK_LAYER_ETHERNET F then
         let mqp :=
           if C.bits (cached_device_cap_flags c) (IBV_DEVICE_RAW_IP_CSUM F)
           then set_qp_cap_cache
                  (Z.lor (qp_cap_cache mqp)
                     (Z.lor (MLX5_CSUM_SUPPORT_RAW_OVER_ETH F)
                            (MLX5_RX_CSUM_VALID F))) mqp
           else mqp in
         ret (if C.bits (cached_tso_supported_qpts c)
                   (IBV_QPT_RAW_PACKET_BIT F)
              then set_max_tso (cached_tso_max_tso c) mqp else mqp)
       else ret mqp
     else ret mqp) ;;
  put_qp qp mqp ;;;
  log (EvKernel (if C.bits attr_mask (IBV_QP_RATE_LIMIT F)
                 then cmd_modify_qp_ex qp else cmd_modify_qp qp)) ;;;
  let ret_ := x_cmd_modify_qp X qp in
  when ((ret_ =? 0) && C.bits attr_mask (IBV_QP_STATE F) &&
        bool_decide (qp_state attr = IBV_QPS_RESET))
    (match ibqp_recv_cq mqp with
     | Some recv_cq => mlx5_cq_clean recv_cq (rsn mqp) (ibqp_srq mqp)
     | None => ret tt
     end ;;;
     match ibqp_send_cq mqp with
     | Some send_cq =>
         when (bool_decide (ibqp_send_cq mqp ≠ ibqp_recv_cq mqp))
              (mlx5_cq_clean send_cq (rsn mqp) None)
     | None => ret tt
     end ;;;
     put_qp qp (mlx5_init_qp_indices mqp) ;;;
     db_write (db mqp) MLX5_RCV_DBR 0 ;;;
     db_write (db mqp) MLX5_SND_DBR 0) ;;;
  when ((ret_ =? 0) && C.bits attr_mask (IBV_QP_STATE F) &&
        bool_decide (qp_state attr = IBV_QPS_RTR) &&
        (bool_decide (ibqp_qp_type mqp = IBV_QPT_RAW_PACKET) || underlay))
    (m <- get_qp qp ;;
     db_write (db m) MLX5_RCV_DBR (htobe32 (Z.land (head (rq m)) 65535))) ;;;
  ret ret_.

End QpLife.

(** ** Vocabulary of the statements *)

Definition is_power_of_two (n : Z) : Prop := ∃ k : Z, 0 ≤ k ∧ n = 2 ^ k.

(** The first free slot of the dynamic BF counter array, from index [i]. *)
Fixpoint first_free_from (i : Z) (counts : list Z) : option Z :=
  match counts with
  | [] => None
  | n :: rest => if n =? 0 then Some i else first_free_from (i + 1) rest
  end.

Definition first_free (counts : list Z) : option Z :=
  first_free_from 0 counts.

(** The number of slots in use. *)
Definition in_use (counts : list Z) : nat :=
  length (List.filter (λ n, negb (n =? 0)) counts).

(** The layout of the dynamic BF registers in a context is consistent:
    the counter array has [num_dyn_bfregs] entries and [ctx->bfs] covers
    them. *)
Definition bfregs_wf (B : bf_layout) (c : mlx5_context) : Prop :=
  Z.of_nat (length (count_dyn_bfregs c)) = num_dyn_bfregs c ∧
  0 ≤ start_dyn_bfregs_index c ∧
  start_dyn_bfregs_index c + num_dyn_bfregs c ≤ Z.of_nat (length (bfs c)) ∧
  Z.of_nat (length (bfs c)) < 2 ^ 31 ∧
  0 < MLX5_NUM_NON_FP_BFREGS_PER_UAR B ∧
  0 < num_uars_per_page c ∧
  num_uars_per_page c * MLX5_NUM_NON_FP_BFREGS_PER_UAR B < 2 ^ 31.

(** A run of acquisitions, one outcome record per call; the result is the
    number that succeeded. *)
Fixpoint attach_many (B : bf_layout) (Xs : list extern) : M nat :=
  match Xs with
  | [] => ret O
  | X :: Xs' =>
      r <- mlx5_attach_dedicated_bf B X ;;
      n <- attach_many B Xs' ;;
      ret (if r is Some _ then S n else n)
  end.

(** The lowest free slot. *)
Definition lowest_free (counts : list Z) (i : Z) : Prop :=
  0 ≤ i ∧ counts !! Z.to_nat i = Some 0 ∧
  ∀ k, (k < Z.to_nat i)%nat → counts !! k ≠ Some 0.

(** Every dynamic BF that has a register recorded its own slot. *)
Definition bf_index_inv (c : mlx5_context) : Prop :=
  ∀ j b, 0 ≤ j →
    bfs c !! Z.to_nat (start_dyn_bfregs_index c + j) = Some b →
    bf_reg b ≠ None → bf_bfreg_dyn_index b = j.

(** The part of the context that sizes the dynamic BF area. *)
Definition bf_area (c : mlx5_context) : Z * Z * Z * Z :=
  (start_dyn_bfregs_index c, num_dyn_bfregs c, num_uars_per_page c,
   bf_reg_size c).

(** A computation that leaves a function of the state alone. *)
Definition preserves {A T} (g : state → T) (m : M A) : Prop :=
  ∀ s x s', m s = Some (x, s') → g s' = g s.

(** The dimensions of a work queue and of a QP's buffers. *)
Definition wq_dims (w : mlx5_wq) : Z * Z * Z * Z :=
  (wqe_cnt w, wqe_shift w, max_gs w, offset w).

Definition qp_dims (q : mlx5_qp) :=
  (wq_dims (sq q), max_post (sq q), wq_dims (rq q), buf_size q,
   sq_buf_size q, max_inline_data_qp q, flags q, dc_type q, rss_qp q).

(** What sizing leaves alone in a request: everything but the inline
    capacity. *)
Definition attr_but_inline (a : ibv_qp_init_attr_ex) :=
  (attr_send_cq a, attr_recv_cq a, attr_srq a, qp_type a, sq_sig_all a,
   comp_mask a, attr_pd a, create_flags a, max_tso_header a,
   max_send_wr (cap a), max_recv_wr (cap a), max_send_sge (cap a),
   max_recv_sge (cap a)).

(** The receive queue is absent. *)
Definition rq_absent (q : mlx5_qp) : Prop :=
  wqe_cnt (rq q) = 0 ∧ wqe_shift (rq q) = 0 ∧ max_post (rq q) = 0 ∧
  max_gs (rq q) = 0.

(** A QP struct without work queues or buffers. *)
Definition qp_bare (q : mlx5_qp) : Prop :=
  sq q = wq_zero ∧ rq q = wq_zero ∧ buf q = None ∧ sq_buf q = None ∧
  buf_size q = 0 ∧ sq_buf_size q = 0.

(** The completions that each CQ holds. *)
Definition contents (s : state) : gmap nat (list cqe) := cqes <$> cqs s.

(** One scavenging pass over the CQ [cq], if there is one. *)
Definition scavenged (rsn : Z) (srq : option nat) (cq : option nat)
    (m : gmap nat (list cqe)) : gmap nat (list cqe) :=
  match cq with
  | Some k => alter (List.filter (cq_clean_keeps rsn srq)) k m
  | None => m
  end.

(** The events of the CQ protocol: taking a CQ lock, and a scavenging
    pass. *)
Definition watched (e : event) : bool :=
  match e with
  | EvSpinLock _ | EvCqClean _ _ _ => true
  | _ => false
  end.

Definition watch (t : list event) : list event := List.filter watched t.

(** The events that release a piece of local bookkeeping. *)
Definition releases (e : event) : bool :=
  match e with
  | EvCqClean _ _ _ | EvClearQp _ | EvClearSrq _ | EvClearUidx _
  | EvFreeDb _ | EvFreeBuf _ | EvFreeSrqWqe _ | EvFree _ _ => true
  | _ => false
  end.

(** A computation whose events all fail the test [w]. *)
Definition silent {A} (w : event → bool) (m : M A) : Prop :=
  ∀ s x s', m s = Some (x, s') →
    ∃ t, trace s' = trace s ++ t ∧ List.filter w t = [].

(** Everything but the trace. *)
Definition store (s : state) :=
  (ctx s, qps s, srqs s, cqs s, tds s, pds s, dbrecs s, bufs s, errno s).

(** From [s] to [s'] the trace grew, and [W] is what it gained of the CQ
    protocol. *)
Definition delta (s s' : state) (W : list event) : Prop :=
  ∃ t, trace s' = trace s ++ t ∧ watch t = W.

(** The order in which [mlx5_lock_cqs] is to take the locks of a QP's CQs:
    [ks] holds each CQ once, and the CQ numbers do not decrease. *)
Definition lock_order (s : state) (q : mlx5_qp) (ks : list nat) : Prop :=
  match ibqp_send_cq q, ibqp_recv_cq q with
  | Some sc, Some rc =>
      if bool_decide (sc = rc) then ks = [sc]
      else ∃ a b ca cb,
             ks = [a; b] ∧ (a = sc ∧ b = rc ∨ a = rc ∧ b = sc) ∧
             cqs s !! a = Some ca ∧ cqs s !! b = Some cb ∧ cqn ca ≤ cqn cb
  | Some sc, None => ks = [sc]
  | None, Some rc => ks = [rc]
  | None, None => ks = []
  end.

(** What ties a QP to its CQs, its SRQ and its doorbell record. *)
Definition qp_links (q : mlx5_qp) :=
  (ibqp_send_cq q, ibqp_recv_cq q, ibqp_srq q, rsn q, db q).

(** The objects a QP points to are there, and none of its CQ locks is
    held. *)
Definition qp_settled (s : state) (q : mlx5_qp) : Prop :=
  (∀ k, ibqp_send_cq q = Some k ∨ ibqp_recv_cq q = Some k →
        ∃ c, cqs s !! k = Some c ∧ cq_lock c = false) ∧
  (∀ d, ibqp_pd q = Some d → is_Some (pds s !! d)).

(** A computation that returns from every state. *)
Definition total {A} (m : M A) : Prop := ∀ s, is_Some (m s).

(** The bytes one send descriptor needs, as the specification has it (§4.2:
    "final descriptor size = max(overhead+scatter, overhead+inline)"), in
    unbounded integers: the overhead with the TSO header and the gather
    entries, or the overhead with the inline segment. *)
Definition send_wqe_bytes (L : wqe_layout) (F : flag_bits)
    (attr : ibv_qp_init_attr_ex) (qp : mlx5_qp) : Z :=
  let ovh := sq_overhead L F qp (qp_type attr) in
  Z.max
    (ovh
     + (if C.bits (comp_mask attr) (IBV_QP_INIT_ATTR_MAX_TSO_HEADER F)
        then align (max_tso_header attr) 16 else 0)
     + sizeof_data_seg L * max_send_sge (cap attr))
    (if max_inline_data (cap attr) =? 0 then 0
     else ovh + align (sizeof_inl_data_seg L + max_inline_data (cap attr)) 16).

(** ** Concrete objects, to run the model *)

(** One assignment of the flag bits. *)
Definition sample_flag_bits : flag_bits :=
  {| IBV_QP_INIT_ATTR_PD := 1; IBV_QP_INIT_ATTR_XRCD := 2;
     IBV_QP_INIT_ATTR_CREATE_FLAGS := 4;
     IBV_QP_INIT_ATTR_MAX_TSO_HEADER := 8;
     IBV_QP_INIT_ATTR_IND_TABLE := 16; IBV_QP_INIT_ATTR_RX_HASH := 32;
     IBV_QP_CREATE_SOURCE_QPN := 1024; MLX5_QP_FLAGS_USE_UNDERLAY := 1;
     MLX5DV_QP_INIT_ATTR_MASK_QP_CREATE_FLAGS := 1;
     MLX5DV_QP_INIT_ATTR_MASK_DC := 2;
     MLX5DV_QP_CREATE_TUNNEL_OFFLOADS := 1;
     MLX5_QP_FLAG_SIGNATURE := 1; MLX5_QP_FLAG_SCATTER_CQE := 2;
     MLX5_QP_FLAG_TUNNEL_OFFLOADS := 4; MLX5_QP_FLAG_BFREG_INDEX := 8;
     MLX5_QP_FLAG_TYPE_DCT := 16; MLX5_QP_FLAG_TYPE_DCI := 32;
     MLX5_WQE_CTRL_CQ_UPDATE := 8;
     IBV_QP_STATE := 1; IBV_QP_CUR_STATE := 2; IBV_QP_PORT := 32;
     IBV_QP_RATE_LIMIT := 33554432;
     IBV_DEVICE_UD_IP_CSUM := 262144; IBV_DEVICE_RAW_IP_CSUM := 67108864;
     MLX5_CSUM_SUPPORT_UNDERLAY_UD := 2;
     MLX5_CSUM_SUPPORT_RAW_OVER_ETH := 1; MLX5_RX_CSUM_VALID := 65536;
     IBV_CQ_INIT_ATTR_MASK_FLAGS := 1;
     IBV_CREATE_CQ_ATTR_SINGLE_THREADED := 1;
     CREATE_CQ_SUPPORTED_WC_FLAGS := 4095;
     MLX5_CQ_FLAGS_EXTENDED := 8; MLX5_CQ_FLAGS_SINGLE_THREADED := 4;
     MLX5DV_CQ_INIT_ATTR_MASK_COMPRESSED_CQE := 1;
     MLX5DV_CQ_INIT_ATTR_MASK_FLAGS := 2;
     MLX5DV_CQ_INIT_ATTR_MASK_RESERVED := 4;
     MLX5DV_CQ_INIT_ATTR_FLAGS_CQE_PAD := 1;
     MLX5DV_CQ_INIT_ATTR_FLAGS_RESERVED := 2;
     MLX5_VENDOR_CAP_FLAGS_CQE_128B_PAD := 4;
     MLX5_CREATE_CQ_FLAGS_CQE_128B_PAD := 1;
     IBV_WC_STANDARD_FLAGS := 127; IBV_LINK_LAYER_ETHERNET := 2;
     IBV_QPT_RAW_PACKET_BIT := 256 |}.

(** The ceiling of the binary logarithm, -1 below 1. *)
Definition sample_ilog2 (n : Z) : Z := if n <=? 0 then -1 else Z.log2_up n.

Definition bf_zero : mlx5_bf :=
  {| bf_reg := None; bf_uar := None; bf_uuarn := 0; bf_buf_size := 0;
     bf_bfreg_dyn_index := 0; bf_uar_mmap_offset := 0; bf_need_lock := 0 |}.

(** An adapter with 512-byte descriptors, four dynamic BF registers behind
    two static ones, and the modern index tables. *)
Definition sample_ctx : mlx5_context :=
  {| max_sq_desc_sz := 512; max_rq_desc_sz := 512; max_send_wqebb := 32768;
     ctx_max_recv_wr := 32768; cqe_version := 1; atomic_cap_hca := true;
     cached_device_cap_flags := 0; cached_link_layer := [1; 2];
     cached_tso_max_tso := 0; cached_tso_supported_qpts := 0;
     cqe_comp_max_num := 0; cqe_comp_supported_format := 0;
     vendor_cap_flags := 0; page_size := 4096;
     num_uars_per_page := 1; bf_reg_size := 512; num_dyn_bfregs := 4;
     count_dyn_bfregs := [0; 0; 0; 0]; start_dyn_bfregs_index := 2;
     bfs := [bf_zero; bf_zero; bf_zero; bf_zero; bf_zero; bf_zero];
     qp_table := ∅; srq_table := ∅; uidx_table := ∅ |}.

Definition sample_cap : ibv_qp_cap :=
  {| max_send_wr := 200; max_recv_wr := 0; max_send_sge := 1;
     max_recv_sge := 0; max_inline_data := 64 |}.

(** Every external call succeeds. *)
Definition sample_extern : extern :=
  {| x_mmap := λ page, Some (1048576 + page * 4096);
     x_calloc := Some 7%nat;
     x_qp_signature := false; x_scatter_to_cqe := None;
     x_cqe_size := None;
     x_malloc_sq_wrid := true; x_malloc_sq_wr_data := true;
     x_malloc_sq_wqe_head := true; x_malloc_rq_wrid := true;
     x_alloc_buf := Some 20%nat; x_alloc_sq_buf := Some 21%nat;
     x_alloc_cq_buf := Some 22%nat;
     x_spinlock_init_sq := 0; x_spinlock_init_rq := 0;
     x_spinlock_init_cq := 0; x_cq_fill_pfns := 0;
     x_alloc_dbrec := Some 30%nat;
     x_store_uidx := 5; x_store_qp := 0; x_rx_hash_key_fits := true;
     x_cmd_create_qp := 0; x_resp_qp_num := 77; x_resp_uuar_index := 0;
     x_cmd_create_cq := 0; x_resp_cqn := 9; x_resp_cqe := 255;
     x_cmd_destroy_qp := λ _, 0; x_cmd_destroy_srq := λ _, 0;
     x_cmd_modify_qp := λ _, 0; x_cmd_query_qp := 0;
     x_query_cap := sample_cap;
     x_resp_dctn := 78; x_resp_length_ok := true |}.

Definition empty_state (c : mlx5_context) : state :=
  {| ctx := c; qps := ∅; srqs := ∅; cqs := ∅; tds := ∅; pds := ∅;
     dbrecs := ∅; bufs := ∅; errno := 0; trace := [] |}.

Definition sample_state : state := empty_state sample_ctx.

(** A reliable-connected QP without a receive queue: 200 sends of one
    gather entry, 64 bytes of inline data. *)
Definition sample_attr : ibv_qp_init_attr_ex :=
  {| attr_send_cq := None; attr_recv_cq := None; attr_srq := None;
     cap := sample_cap; qp_type := IBV_QPT_RC; sq_sig_all := 0;
     comp_mask := 0; attr_pd := None; create_flags := 0;
     max_tso_header := 0; rx_hash_key_len := 0 |}.

(** A receive-only QP: no sends, 16 receives of one scatter entry; the
    request still names 64 bytes of inline data. *)
Definition recv_only_attr : ibv_qp_init_attr_ex :=
  {| attr_send_cq := None; attr_recv_cq := None; attr_srq := None;
     cap := {| max_send_wr := 0; max_recv_wr := 16; max_send_sge := 1;
               max_recv_sge := 1; max_inline_data := 64 |};
     qp_type := IBV_QPT_RC; sq_sig_all := 0;
     comp_mask := 0; attr_pd := None; create_flags := 0;
     max_tso_header := 0; rx_hash_key_len := 0 |}.

(** Completions: two of the QP with handle 5, one of them taken from its
    SRQ, and one of another QP. *)
Definition own_cqe : cqe := {| cqe_rsn := 5; cqe_from_srq := false |}.
Definition srq_cqe : cqe := {| cqe_rsn := 5; cqe_from_srq := true |}.
Definition other_cqe : cqe := {| cqe_rsn := 8; cqe_from_srq := false |}.

Definition sample_cq (n : Z) (es : list cqe) : mlx5_cq :=
  {| cqn := n; cq_lock := false; cqes := es; cons_index := 0;
     cq_dbrec := None; active_buf := None; resize_buf := None; arm_sn := 0;
     cqe_sz := 64; cq_flags := 0; ibv_cq_cqe := 255 |}.

(** A QP with handle 5 that sends to CQ 1 and receives from CQ 2 and
    SRQ 3. *)
Definition sample_qp : mlx5_qp :=
  set_ibqp_send_cq (Some 1%nat)
    (set_ibqp_recv_cq (Some 2%nat)
      (set_ibqp_srq (Some 3%nat)
        (set_db (Some 30%nat)
          (set_rsn 5 (set_rsc_type MLX5_RSC_TYPE_QP qp_zero))))).

Definition sample_srq (q : option nat) : mlx5_srq :=
  {| srqn := 12; srq_rsc_type := MLX5_RSC_TYPE_SRQ; srq_rsn := 6;
     cmd_qp := q; srq_db := None; srq_buf := None; srq_tm_list := false;
     srq_wrid := false; srq_op := false |}.

(** The send CQ has the larger number. *)
Definition live_state : state :=
  set_cqs {[ 1%nat := sample_cq 9 [own_cqe; other_cqe];
             2%nat := sample_cq 4 [own_cqe; srq_cqe; other_cqe] ]}
    (set_qps {[ 7%nat := sample_qp ]}
      (set_srqs {[ 3%nat := sample_srq None ]}
        (set_dbrecs {[ 30%nat := (3, 4) ]} sample_state))).

(** An SRQ with a command QP, which completes on CQ 1. *)
Definition tm_srq_state : state :=
  set_cqs {[ 1%nat := sample_cq 9 [other_cqe] ]}
    (set_qps {[ 7%nat := set_ibqp_send_cq (Some 1%nat)
                           (set_ibqp_recv_cq (Some 1%nat)
                             (set_rsc_type MLX5_RSC_TYPE_QP qp_zero)) ]}
      (set_srqs {[ 3%nat := sample_srq (Some 7%nat) ]} sample_state)).

Definition reset_attr : ibv_qp_attr :=
  {| qp_state := IBV_QPS_RESET; port_num := 1 |}.

(** The kernel refuses to destroy an SRQ. *)
Definition srq_busy_extern : extern :=
  {| x_mmap := x_mmap sample_extern;
     x_calloc := x_calloc sample_extern;
     x_qp_signature := x_qp_signature sample_extern;
     x_scatter_to_cqe := x_scatter_to_cqe sample_extern;
     x_cqe_size := x_cqe_size sample_extern;
     x_malloc_sq_wrid := x_malloc_sq_wrid sample_extern;
     x_malloc_sq_wr_data := x_malloc_sq_wr_data sample_extern;
     x_malloc_sq_wqe_head := x_malloc_sq_wqe_head sample_extern;
     x_malloc_rq_wrid := x_malloc_rq_wrid sample_extern;
     x_alloc_buf := x_alloc_buf sample_extern;
     x_alloc_sq_buf := x_alloc_sq_buf sample_extern;
     x_alloc_cq_buf := x_alloc_cq_buf sample_extern;
     x_spinlock_init_sq := x_spinlock_init_sq sample_extern;
     x_spinlock_init_rq := x_spinlock_init_rq sample_extern;
     x_spinlock_init_cq := x_spinlock_init_cq sample_extern;
     x_cq_fill_pfns := x_cq_fill_pfns sample_extern;
     x_alloc_dbrec := x_alloc_dbrec sample_extern;
     x_store_uidx := x_store_uidx sample_extern;
     x_store_qp := x_store_qp sample_extern;
     x_rx_hash_key_fits := x_rx_hash_key_fits sample_extern;
     x_cmd_create_qp := x_cmd_create_qp sample_extern;
     x_resp_qp_num := x_resp_qp_num sample_extern;
     x_resp_uuar_index := x_resp_uuar_index sample_extern;
     x_cmd_create_cq := x_cmd_create_cq sample_extern;
     x_resp_cqn := x_resp_cqn sample_extern;
     x_resp_cqe := x_resp_cqe sample_extern;
     x_cmd_destroy_qp := x_cmd_destroy_qp sample_extern;
     x_cmd_destroy_srq := λ _, C.EBUSY;
     x_cmd_modify_qp := x_cmd_modify_qp sample_extern;
     x_cmd_query_qp := x_cmd_query_qp sample_extern;
     x_query_cap := x_query_cap sample_extern;
     x_resp_dctn := x_resp_dctn sample_extern;
     x_resp_length_ok := x_resp_length_ok sample_extern |}.

(** The kernel refuses to destroy a QP. *)
Definition qp_busy_extern : extern :=
  {| x_mmap := x_mmap sample_extern;
     x_calloc := x_calloc sample_extern;
     x_qp_signature := x_qp_signature sample_extern;
     x_scatter_to_cqe := x_scatter_to_cqe sample_extern;
     x_cqe_size := x_cqe_size sample_extern;
     x_malloc_sq_wrid := x_malloc_sq_wrid sample_extern;
     x_malloc_sq_wr_data := x_malloc_sq_wr_data sample_extern;
     x_malloc_sq_wqe_head := x_malloc_sq_wqe_head sample_extern;
     x_malloc_rq_wrid := x_malloc_rq_wrid sample_extern;
     x_alloc_buf := x_alloc_buf sample_extern;
     x_alloc_sq_buf := x_alloc_sq_buf sample_extern;
     x_alloc_cq_buf := x_alloc_cq_buf sample_extern;
     x_spinlock_init_sq := x_spinlock_init_sq sample_extern;
     x_spinlock_init_rq := x_spinlock_init_rq sample_extern;
     x_spinlock_init_cq := x_spinlock_init_cq sample_extern;
     x_cq_fill_pfns := x_cq_fill_pfns sample_extern;
     x_alloc_dbrec := x_alloc_dbrec sample_extern;
     x_store_uidx := x_store_uidx sample_extern;
     x_store_qp := x_store_qp sample_extern;
     x_rx_hash_key_fits := x_rx_hash_key_fits sample_extern;
     x_cmd_create_qp := x_cmd_create_qp sample_extern;
     x_resp_qp_num := x_resp_qp_num sample_extern;
     x_resp_uuar_index := x_resp_uuar_index sample_extern;
     x_cmd_create_cq := x_cmd_create_cq sample_extern;
     x_resp_cqn := x_resp_cqn sample_extern;
     x_resp_cqe := x_resp_cqe sample_extern;
     x_cmd_destroy_qp := λ _, C.EBUSY;
     x_cmd_destroy_srq := x_cmd_destroy_srq sample_extern;
     x_cmd_modify_qp := x_cmd_modify_qp sample_extern;
     x_cmd_query_qp := x_cmd_query_qp sample_extern;
     x_query_cap := x_query_cap sample_extern;
     x_resp_dctn := x_resp_dctn sample_extern;
     x_resp_length_ok := x_resp_length_ok sample_extern |}.

(** The same with QP 7 an RSS QP. *)
Definition rss_state : state :=
  set_qps {[ 7%nat := set_rss_qp true sample_qp ]} live_state.

(** The second buffer of a QP cannot be had. *)
Definition raw_no_sq_buf_extern : extern :=
  {| x_mmap := x_mmap sample_extern;
     x_calloc := x_calloc sample_extern;
     x_qp_signature := x_qp_signature sample_extern;
     x_scatter_to_cqe := x_scatter_to_cqe sample_extern;
     x_cqe_size := x_cqe_size sample_extern;
     x_malloc_sq_wrid := x_malloc_sq_wrid sample_extern;
     x_malloc_sq_wr_data := x_malloc_sq_wr_data sample_extern;
     x_malloc_sq_wqe_head := x_malloc_sq_wqe_head sample_extern;
     x_malloc_rq_wrid := x_malloc_rq_wrid sample_extern;
     x_alloc_buf := x_alloc_buf sample_extern;
     x_alloc_sq_buf := None;
     x_alloc_cq_buf := x_alloc_cq_buf sample_extern;
     x_spinlock_init_sq := x_spinlock_init_sq sample_extern;
     x_spinlock_init_rq := x_spinlock_init_rq sample_extern;
     x_spinlock_init_cq := x_spinlock_init_cq sample_extern;
     x_cq_fill_pfns := x_cq_fill_pfns sample_extern;
     x_alloc_dbrec := x_alloc_dbrec sample_extern;
     x_store_uidx := x_store_uidx sample_extern;
     x_store_qp := x_store_qp sample_extern;
     x_rx_hash_key_fits := x_rx_hash_key_fits sample_extern;
     x_cmd_create_qp := x_cmd_create_qp sample_extern;
     x_resp_qp_num := x_resp_qp_num sample_extern;
     x_resp_uuar_index := x_resp_uuar_index sample_extern;
     x_cmd_create_cq := x_cmd_create_cq sample_extern;
     x_resp_cqn := x_resp_cqn sample_extern;
     x_resp_cqe := x_resp_cqe sample_extern;
     x_cmd_destroy_qp := x_cmd_destroy_qp sample_extern;
     x_cmd_destroy_srq := x_cmd_destroy_srq sample_extern;
     x_cmd_modify_qp := x_cmd_modify_qp sample_extern;
     x_cmd_query_qp := x_cmd_query_qp sample_extern;
     x_query_cap := x_query_cap sample_extern;
     x_resp_dctn := x_resp_dctn sample_extern;
     x_resp_length_ok := x_resp_length_ok sample_extern |}.

(** A raw packet QP. *)
Definition raw_attr : ibv_qp_init_attr_ex :=
  {| attr_send_cq := None; attr_recv_cq := None; attr_srq := None;
     cap := sample_cap; qp_type := IBV_QPT_RAW_PACKET; sq_sig_all := 0;
     comp_mask := 0; attr_pd := None; create_flags := 0;
     max_tso_header := 0; rx_hash_key_len := 0 |}.

(** The sample context after slot 0 has been acquired and released once:
    its BF is mapped. *)
Definition released_state : state :=
  match mlx5_attach_dedicated_bf mlx5_bf_layout sample_extern sample_state
  with
  | Some (Some bf, s1) =>
      match mlx5_detach_dedicated_bf bf s1 with
      | Some (_, s2) => s2
      | None => sample_state
      end
  | _ => sample_state
  end.

(** The kernel refuses to modify a QP. *)
Definition modify_busy_extern : extern :=
  {| x_mmap := x_mmap sample_extern;
     x_calloc := x_calloc sample_extern;
     x_qp_signature := x_qp_signature sample_extern;
     x_scatter_to_cqe := x_scatter_to_cqe sample_extern;
     x_cqe_size := x_cqe_size sample_extern;
     x_malloc_sq_wrid := x_malloc_sq_wrid sample_extern;
     x_malloc_sq_wr_data := x_malloc_sq_wr_data sample_extern;
     x_malloc_sq_wqe_head := x_malloc_sq_wqe_head sample_extern;
     x_malloc_rq_wrid := x_malloc_rq_wrid sample_extern;
     x_alloc_buf := x_alloc_buf sample_extern;
     x_alloc_sq_buf := x_alloc_sq_buf sample_extern;
     x_alloc_cq_buf := x_alloc_cq_buf sample_extern;
     x_spinlock_init_sq := x_spinlock_init_sq sample_extern;
     x_spinlock_init_rq := x_spinlock_init_rq sample_extern;
     x_spinlock_init_cq := x_spinlock_init_cq sample_extern;
     x_cq_fill_pfns := x_cq_fill_pfns sample_extern;
     x_alloc_dbrec := x_alloc_dbrec sample_extern;
     x_store_uidx := x_store_uidx sample_extern;
     x_store_qp := x_store_qp sample_extern;
     x_rx_hash_key_fits := x_rx_hash_key_fits sample_extern;
     x_cmd_create_qp := x_cmd_create_qp sample_extern;
     x_resp_qp_num := x_resp_qp_num sample_extern;
     x_resp_uuar_index := x_resp_uuar_index sample_extern;
     x_cmd_create_cq := x_cmd_create_cq sample_extern;
     x_resp_cqn := x_resp_cqn sample_extern;
     x_resp_cqe := x_resp_cqe sample_extern;
     x_cmd_destroy_qp := x_cmd_destroy_qp sample_extern;
     x_cmd_destroy_srq := x_cmd_destroy_srq sample_extern;
     x_cmd_modify_qp := λ _, C.EBUSY;
     x_cmd_query_qp := x_cmd_query_qp sample_extern;
     x_query_cap := x_query_cap sample_extern;
     x_resp_dctn := x_resp_dctn sample_extern;
     x_resp_length_ok := x_resp_length_ok sample_extern |}.

(** A QP that sends to and receives from one CQ, CQ 1, which holds two of
    its completions, one of them taken from its SRQ. *)
Definition one_cq_state : state :=
  set_cqs {[ 1%nat := sample_cq 9 [own_cqe; srq_cqe; other_cqe] ]}
    (set_qps {[ 7%nat := set_ibqp_send_cq (Some 1%nat)
                           (set_ibqp_recv_cq (Some 1%nat) sample_qp) ]}
      live_state).

(** A raw packet QP of 16 sends with a TSO header of 1000 bytes and [sge]
    gather entries. *)
Definition tso_attr (sge : Z) : ibv_qp_init_attr_ex :=
  {| attr_send_cq := None; attr_recv_cq := None; attr_srq := None;
     cap := {| max_send_wr := 16; max_recv_wr := 0; max_send_sge := sge;
               max_recv_sge := 0; max_inline_data := 0 |};
     qp_type := IBV_QPT_RAW_PACKET; sq_sig_all := 0;
     comp_mask := IBV_QP_INIT_ATTR_MAX_TSO_HEADER sample_flag_bits;
     attr_pd := None; create_flags := 0;
     max_tso_header := 1000; rx_hash_key_len := 0 |}.

(** The sample request with [n] sends. *)
Definition deep_attr (n : Z) : ibv_qp_init_attr_ex :=
  {| attr_send_cq := None; attr_recv_cq := None; attr_srq := None;
     cap := {| max_send_wr := n; max_recv_wr := 0; max_send_sge := 1;
               max_recv_sge := 0; max_inline_data := 64 |};
     qp_type := IBV_QPT_RC; sq_sig_all := 0;
     comp_mask := 0; attr_pd := None; create_flags := 0;
     max_tso_header := 0; rx_hash_key_len := 0 |}.

(** * Properties *)

(** ** Integer conversions *)

Lemma to_uint_id x : 0 ≤ x < 2 ^ 32 → C.to_uint x = x.
Proof. intros H. unfold C.to_uint. apply Z.mod_small. lia. Qed.

Lemma to_int_id x : - 2 ^ 31 ≤ x < 2 ^ 31 → C.to_int x = x.
Proof.
  intros H. unfold C.to_int. rewrite Z.mod_small; lia.
Qed.

Lemma to_uint_range x : 0 ≤ C.to_uint x < 2 ^ 32.
Proof. unfold C.to_uint. apply Z.mod_pos_bound. lia. Qed.

Lemma to_int_range x : - 2 ^ 31 ≤ C.to_int x < 2 ^ 31.
Proof.
  unfold C.to_int.
  pose proof (Z.mod_pos_bound (x + 2 ^ 31) (2 ^ 32) ltac:(lia)). lia.
Qed.

Lemma to_int_divide d x :
  (d | 2 ^ 31) → (d | x) → (d | C.to_int x).
Proof.
  intros Hd Hx. unfold C.to_int.
  assert (H32 : (d | 2 ^ 32)).
  { replace (2 ^ 32) with (2 * 2 ^ 31) by lia. by apply Z.divide_mul_r. }
  apply Z.divide_sub_r; [|done].
  rewrite Z.mod_eq by lia.
  apply Z.divide_sub_r; [by apply Z.divide_add_r|].
  by apply Z.divide_mul_l.
Qed.

Lemma to_ulong_divide d x :
  (d | 2 ^ 64) → (d | x) → (d | C.to_ulong x).
Proof.
  intros Hd Hx. unfold C.to_ulong. rewrite Z.mod_eq by lia.
  apply Z.divide_sub_r; [done|]. by apply Z.divide_mul_l.
Qed.

Lemma align_divide v :
  (MLX5_SEND_WQE_BB | align v MLX5_SEND_WQE_BB).
Proof.
  unfold align. apply to_ulong_divide.
  - exists (2 ^ 58). reflexivity.
  - apply Z.divide_factor_r.
Qed.

(** ** Rounding up to a power of two *)

Lemma round_up_loop_pow2 fuel : ∀ k sz,
  0 ≤ k → sz ≤ 2 ^ (k + Z.of_nat fuel) →
  ∃ j, k ≤ j ≤ k + Z.of_nat fuel ∧
       round_up_loop fuel (2 ^ k) sz = 2 ^ j ∧ sz ≤ 2 ^ j ∧
       (j = k ∨ 2 ^ (j - 1) < sz).
Proof.
  induction fuel as [|fuel IH]; intros k sz Hk Hsz; simpl.
  - exists k. change (Z.of_nat 0) with 0 in *. rewrite Z.add_0_r in Hsz.
    repeat split; auto; lia.
  - destruct (Z.ltb_spec (2 ^ k) sz) as [Hlt|Hge].
    + rewrite Z.shiftl_mul_pow2 by lia.
      replace (2 ^ k * 2 ^ 1) with (2 ^ (k + 1))
        by (rewrite Z.pow_add_r; lia).
      destruct (IH (k + 1) sz) as (j & Hj & Heq & Hle & Hmin); [lia| |].
      { replace (k + 1 + Z.of_nat fuel) with (k + Z.of_nat (S fuel)) by lia.
        done. }
      exists j. repeat split; try lia; try done.
      right. destruct Hmin as [->|?]; [|done].
      by replace (k + 1 - 1) with k by lia.
    + exists k. repeat split; auto; lia.
Qed.

Lemma round_up_accept sz :
  sz ≤ 2 ^ 62 → 0 ≤ mlx5_round_up_power_of_two sz →
  ∃ j, 0 ≤ j ≤ 30 ∧ mlx5_round_up_power_of_two sz = 2 ^ j ∧ sz ≤ 2 ^ j ∧
       (j = 0 ∨ 2 ^ (j - 1) < sz).
Proof.
  intros Hsz. unfold mlx5_round_up_power_of_two.
  destruct (round_up_loop_pow2 62 0 sz) as (j & Hj & Heq & Hle & Hmin);
    [lia|simpl; lia|].
  change (2 ^ 0) with 1 in Heq. rewrite Heq.
  destruct (Z.gtb_spec (2 ^ j) C.INT_MAX) as [Hgt|Hok].
  - unfold C.ENOMEM. lia.
  - intros _. unfold C.INT_MAX in Hok.
    assert (j ≤ 30).
    { destruct (Z.le_gt_cases j 30); [done|].
      assert (2 ^ 31 ≤ 2 ^ j) by (apply Z.pow_le_mono_r; lia). lia. }
    assert (2 ^ j ≤ 2 ^ 30) by (apply Z.pow_le_mono_r; lia).
    exists j. rewrite to_int_id by lia. repeat split; auto; lia.
Qed.


(** ** Send queue sizing *)

Lemma to_ulong_id x : 0 ≤ x < 2 ^ 64 → C.to_ulong x = x.
Proof. intros H. unfold C.to_ulong. apply Z.mod_small. lia. Qed.

Lemma align_bounds x a :
  0 < a → 0 ≤ x → x + a < 2 ^ 64 →
  x ≤ align x a < x + a ∧ (a | align x a).
Proof.
  intros Ha Hx Hlt. unfold align.
  pose proof (Z.div_mod (x + a - 1) a ltac:(lia)) as Hdm.
  pose proof (Z.mod_pos_bound (x + a - 1) a Ha) as Hm.
  assert (Hr : 0 ≤ (x + a - 1) / a * a < 2 ^ 64) by nia.
  unfold C.to_ulong. rewrite Z.mod_small by exact Hr.
  split; [nia|]. apply Z.divide_factor_r.
Qed.

Section SizingFacts.

Context (L : wqe_layout) (F : flag_bits) (mlx5_ilog2 : Z → Z).

(** Case analysis on the tests of a definition unfolded in [H]. *)
Ltac split_if H :=
  match type of H with
  | context [if ?b then _ else _] =>
      let E := fresh "E" in destruct b eqn:E
  end.

Lemma calc_send_wqe_sq ctx attr qp w qp1 :
  mlx5_calc_send_wqe L F ctx attr qp = Some (w, qp1) →
  sq qp1 = sq qp ∧ rq qp1 = rq qp ∧ dc_type qp1 = dc_type qp ∧
  flags qp1 = flags qp ∧ wq_sig qp1 = wq_sig qp ∧
  max_inline_data_qp qp1 = max_inline_data_qp qp ∧ sq_buf qp1 = sq_buf qp.
Proof.
  unfold mlx5_calc_send_wqe. intros H.
  repeat (split_if H; simplify_eq; try done);
    destruct (C.div _ _); simplify_eq;
    repeat (split_if H; simplify_eq; try done).
Qed.

Lemma sq_overhead_ext qp qp1 t :
  dc_type qp1 = dc_type qp → flags qp1 = flags qp →
  sq_overhead L F qp1 t = sq_overhead L F qp t.
Proof. intros H1 H2. unfold sq_overhead. by rewrite H1, H2. Qed.

Lemma calc_send_wqe_divide ctx attr qp w qp1 :
  mlx5_calc_send_wqe L F ctx attr qp = Some (w, qp1) → 0 ≤ w →
  (MLX5_SEND_WQE_BB | w) ∧ w < 2 ^ 31.
Proof.
  unfold mlx5_calc_send_wqe. intros H Hw.
  split_if H; [apply Z.ltb_lt in E; simplify_eq; lia|].
  destruct (C.div _ _); [|done].
  split_if H; [simplify_eq; unfold C.EINVAL in Hw; lia|].
  split_if H; [simplify_eq; unfold C.EINVAL in Hw; lia|].
  simplify_eq. split; [|apply to_int_range].
  apply to_int_divide; [by exists (2 ^ 25)|apply align_divide].
Qed.

(** What an accepted send-queue request looks like. *)
Lemma calc_sq_size_accept ctx attr qp r attr' qp' :
  0 < max_send_wr (cap attr) →
  mlx5_calc_sq_size L F mlx5_ilog2 ctx attr qp = Some (r, attr', qp') →
  0 ≤ r →
  ∃ w qp1 k,
    mlx5_calc_send_wqe L F ctx attr qp = Some (w, qp1) ∧
    MLX5_SEND_WQE_BB ≤ w ≤ max_sq_desc_sz ctx ∧
    (MLX5_SEND_WQE_BB | w) ∧
    6 ≤ k ≤ 30 ∧ r = 2 ^ k ∧
    max_send_wr (cap attr) * w ≤ r ∧
    wqe_cnt (sq qp') = 2 ^ (k - 6) ∧
    wqe_cnt (sq qp') ≤ C.to_uint (max_send_wqebb ctx) ∧
    max_inline_data (cap attr') =
      C.to_uint (C.to_int (C.to_ulong
        (C.to_int (w - sq_overhead L F qp (qp_type attr))
         - sizeof_inl_data_seg L))) ∧
    max_inline_data_qp qp' =
      C.to_int (C.to_ulong
        (C.to_int (w - sq_overhead L F qp (qp_type attr))
         - sizeof_inl_data_seg L)) ∧
    max_send_sge (cap attr') = max_send_sge (cap attr) ∧
    max_gs (sq qp') = C.to_int (max_send_sge (cap attr)) ∧
    rq qp' = rq qp.
Proof.
  intros Hwr H Hr. unfold mlx5_calc_sq_size in H.
  destruct (Z.eqb_spec (max_send_wr (cap attr)) 0) as [?|_]; [lia|].
  destruct (mlx5_calc_send_wqe L F ctx attr qp) as [[w qp1]|] eqn:Hw;
    [|done]. simpl in H.
  destruct (calc_send_wqe_sq _ _ _ _ _ Hw) as (Hsq & Hrq & Hdc & Hfl & _ & _).
  destruct (Z.ltb_spec w 0) as [?|Hw0]; [simpl in H; simplify_eq; lia|].
  destruct (Z.gtb_spec w (max_sq_desc_sz ctx)) as [?|Hwmax];
    [simpl in H; simplify_eq; unfold C.EINVAL in Hr; lia|].
  pose proof (calc_send_wqe_divide _ _ _ _ _ Hw Hw0) as [Hdiv Hw31].
  unfold C.div in H.
  destruct (Z.eqb_spec (max_sq_desc_sz ctx) 0) as [?|Hmax0];
    [cbn in H; done|].
  cbn [mbind option_bind] in H.
  set (lim := 2147483647 `quot` max_sq_desc_sz ctx) in *.
  assert (Hlim : 0 ≤ lim ∧ lim * max_sq_desc_sz ctx ≤ 2147483647).
  { unfold lim. rewrite Z.quot_div_nonneg by lia.
    split; [apply Z.div_pos; lia|].
    pose proof (Z.mul_div_le 2147483647 (max_sq_desc_sz ctx) ltac:(lia)).
    lia. }
  assert (Hlim2 : lim ≤ 2147483647).
  { unfold lim. rewrite Z.quot_div_nonneg by lia.
    apply Z.div_le_upper_bound; nia. }
  rewrite (to_uint_id lim) in H by lia.
  destruct (Z.gtb_spec (max_send_wr (cap attr)) lim) as [?|Hwrlim];
    [simpl in H; simplify_eq; unfold C.EINVAL in Hr; lia|].
  change (max_send_wr (cap (set_cap_inline attr _)))
    with (max_send_wr (cap attr)) in H.
  rewrite (to_uint_id w) in H by lia.
  assert (Hprod : 0 ≤ max_send_wr (cap attr) * w ≤ 2147483647).
  { split; [apply Z.mul_nonneg_nonneg; lia|].
    etrans; [apply (Z.mul_le_mono_nonneg _ lim _ (max_sq_desc_sz ctx))|];
      lia. }
  rewrite (to_uint_id (_ * w)) in H by lia.
  set (wq := mlx5_round_up_power_of_two (max_send_wr (cap attr) * w)) in *.
  split_if H; [simplify_eq; unfold C.EINVAL in Hr; lia|].
  destruct (Z.eqb_spec w 0) as [?|Hwne];
    [cbn in H; done|].
  cbn [mbind option_bind] in H. simplify_eq.
  assert (Hw64 : 64 ≤ w).
  { destruct Hdiv as [c Hc]. unfold MLX5_SEND_WQE_BB in Hc. lia. }
  destruct (round_up_accept (max_send_wr (cap attr) * w))
    as (j & Hj & Heq & Hle & _); [lia|exact Hr|].
  set (wq := mlx5_round_up_power_of_two (max_send_wr (cap attr) * w)) in *.
  assert (64 ≤ 2 ^ j) by nia.
  assert (6 ≤ j).
  { destruct (Z.le_gt_cases 6 j); [done|].
    assert (2 ^ j ≤ 2 ^ 5) by (apply Z.pow_le_mono_r; lia). lia. }
  assert (Hq : wq `quot` MLX5_SEND_WQE_BB = 2 ^ (j - 6)).
  { rewrite Heq. unfold MLX5_SEND_WQE_BB.
    rewrite Z.quot_div_nonneg by lia.
    replace (2 ^ j) with (2 ^ (j - 6) * 64).
    - apply Z.div_mul. lia.
    - change 64 with (2 ^ 6). rewrite <- Z.pow_add_r by lia. f_equal. lia. }
  assert (Hq2 : 0 < 2 ^ (j - 6) ≤ 2 ^ 24).
  { split; [apply Z.pow_pos_nonneg; lia|apply Z.pow_le_mono_r; lia]. }
  cbn [sq set_sq wqe_cnt set_wqe_cnt set_wq_sizes set_max_inline_data_qp]
    in E.
  rewrite Hq, to_uint_id in E by lia.
  rewrite Z.gtb_ltb in E. apply Z.ltb_ge in E.
  exists w, qp1, j.
  cbn [sq rq set_sq wqe_cnt max_gs set_wqe_cnt set_wq_sizes
       set_max_inline_data_qp max_inline_data_qp cap set_cap_inline
       max_inline_data max_send_sge].
  rewrite Hq, (to_uint_id (2 ^ _)) by lia.
  rewrite (sq_overhead_ext _ _ _ Hdc Hfl).
  unfold MLX5_SEND_WQE_BB at 1.
  repeat split; try exact Hdiv; try exact Hrq; try reflexivity; try lia.
Qed.

Ltac size_facts :=
  repeat split;
  first [ done | congruence | lia | unfold C.EINVAL; lia
        | intros; exfalso; lia | apply to_int_range
        | simpl; congruence ].

Lemma to_int_sum a b :
  0 ≤ a < 2 ^ 31 → 0 ≤ b < 2 ^ 31 → 0 ≤ C.to_int (a + b) →
  C.to_int (a + b) = a + b.
Proof.
  intros Ha Hb. unfold C.to_int.
  destruct (Z.lt_ge_cases (a + b) (2 ^ 31)).
  - rewrite Z.mod_small by lia. lia.
  - replace (a + b + 2 ^ 31) with ((a + b - 2 ^ 31) + 1 * 2 ^ 32) by lia.
    rewrite Z.mod_add by lia. rewrite Z.mod_small by lia. lia.
Qed.

Lemma max_int_range x : max_int (C.to_int x) MLX5_SEND_WQE_BB < 2 ^ 31.
Proof.
  unfold max_int, MLX5_SEND_WQE_BB. pose proof (to_int_range x).
  destruct (C.to_int x >? 64); lia.
Qed.

Lemma round_up_power_of_two_bounds sz :
  1 ≤ sz ≤ 2 ^ 30 →
  ∃ j, 0 ≤ j ≤ 30 ∧ mlx5_round_up_power_of_two sz = 2 ^ j ∧ sz ≤ 2 ^ j ∧
       (j = 0 ∨ 2 ^ (j - 1) < sz).
Proof.
  intros Hsz. apply round_up_accept; [lia|].
  unfold mlx5_round_up_power_of_two. cbv zeta.
  destruct (round_up_loop_pow2 62 0 sz) as (j & Hj & Heq & Hle & Hmin);
    [lia|simpl; lia|].
  change (2 ^ 0) with 1 in Heq. rewrite Heq. unfold C.INT_MAX.
  assert (j ≤ 30).
  { destruct Hmin as [->|Hmin]; [lia|].
    destruct (Z.le_gt_cases j 30); [done|].
    assert (2 ^ 30 ≤ 2 ^ (j - 1)) by (apply Z.pow_le_mono_r; lia). lia. }
  assert (0 < 2 ^ j ≤ 2 ^ 30)
    by (split; [apply Z.pow_pos_nonneg; lia|apply Z.pow_le_mono_r; lia]).
  destruct (Z.gtb_spec (2 ^ j) (2 ^ 31 - 1)); [lia|].
  rewrite to_int_id by lia. lia.
Qed.

Lemma round_up_power_of_two_big sz :
  2 ^ 30 < sz ≤ 2 ^ 62 → mlx5_round_up_power_of_two sz = - C.ENOMEM.
Proof.
  intros Hsz. unfold mlx5_round_up_power_of_two. cbv zeta.
  destruct (round_up_loop_pow2 62 0 sz) as (j & Hj & Heq & Hle & Hmin);
    [lia|simpl; lia|].
  change (2 ^ 0) with 1 in Heq. rewrite Heq. unfold C.INT_MAX.
  assert (31 ≤ j).
  { destruct (Z.le_gt_cases 31 j); [done|].
    assert (2 ^ j ≤ 2 ^ 30) by (apply Z.pow_le_mono_r; lia). lia. }
  assert (2 ^ 31 ≤ 2 ^ j) by (apply Z.pow_le_mono_r; lia).
  destruct (Z.gtb_spec (2 ^ j) (2 ^ 31 - 1)); [reflexivity|lia].
Qed.

Lemma round_up_range sz : mlx5_round_up_power_of_two sz < 2 ^ 31.
Proof.
  unfold mlx5_round_up_power_of_two. cbv zeta.
  destruct (_ >? _); [unfold C.ENOMEM; lia|apply to_int_range].
Qed.

(** What [mlx5_calc_sq_size] leaves alone. *)
Lemma calc_sq_size_frame ctx attr qp r attr' qp' :
  mlx5_calc_sq_size L F mlx5_ilog2 ctx attr qp = Some (r, attr', qp') →
  r < 2 ^ 31 ∧ attr_but_inline attr' = attr_but_inline attr ∧
  rq qp' = rq qp ∧ flags qp' = flags qp ∧ dc_type qp' = dc_type qp ∧
  wq_sig qp' = wq_sig qp ∧ offset (sq qp') = offset (sq qp) ∧
  sq_buf qp' = sq_buf qp ∧
  (max_send_wr (cap attr) = 0 → r = 0 ∧ attr' = attr ∧ qp' = qp).
Proof.
  intros H. unfold mlx5_calc_sq_size in H.
  destruct (Z.eqb_spec (max_send_wr (cap attr)) 0) as [Hz|Hnz].
  { simplify_eq. size_facts. }
  destruct (mlx5_calc_send_wqe L F ctx attr qp) as [[w qp1]|] eqn:Hw;
    [|done]. cbn [mbind option_bind] in H.
  destruct (calc_send_wqe_sq _ _ _ _ _ Hw)
    as (Hsq & Hrq & Hdc & Hfl & Hsig & _ & Hsb).
  destruct (Z.ltb_spec w 0) as [?|Hw0];
    [simplify_eq; size_facts|].
  split_if H; [simplify_eq; size_facts|].
  destruct (C.div 2147483647 _) as [lim|]; [|done].
  cbn [mbind option_bind] in H.
  split_if H; [simplify_eq; size_facts|].
  split_if H; [simplify_eq; size_facts|].
  destruct (C.div _ w) as [post|]; [|done].
  cbn [mbind option_bind] in H. simplify_eq.
  repeat split; first [apply round_up_range | size_facts].
Qed.

(** What [mlx5_calc_rq_size] leaves alone. *)
Lemma calc_rq_size_frame ctx attr qp r qp' :
  mlx5_calc_rq_size L mlx5_ilog2 ctx attr qp = Some (r, qp') →
  r < 2 ^ 31 ∧ sq qp' = sq qp ∧ flags qp' = flags qp ∧
  dc_type qp' = dc_type qp ∧ wq_sig qp' = wq_sig qp ∧
  max_inline_data_qp qp' = max_inline_data_qp qp ∧
  offset (rq qp') = offset (rq qp) ∧ sq_buf qp' = sq_buf qp.
Proof.
  intros H. unfold mlx5_calc_rq_size in H.
  split_if H; [simplify_eq; size_facts|].
  split_if H; [simplify_eq; size_facts|].
  split_if H; [simplify_eq; size_facts|].
  split_if H.
  - destruct (C.div (max_int _ _) _) as [cnt|]; [|cbn in H; done].
    cbn [mbind option_bind] in H.
    destruct (C.div _ _) as [gs|]; [|cbn in H; done].
    cbn [mbind option_bind] in H.
    simplify_eq. repeat split; try done.
    apply max_int_range.
  - simplify_eq. repeat split; try done. apply to_int_range.
Qed.

(** Without a receive depth, or with an SRQ, an accepted request sizes the
    receive queue to nothing. *)
Lemma calc_rq_size_absent ctx attr qp r qp' :
  max_recv_wr (cap attr) = 0 ∨ attr_srq attr ≠ None →
  mlx5_calc_rq_size L mlx5_ilog2 ctx attr qp = Some (r, qp') → 0 ≤ r →
  r = 0 ∧ (max_recv_wr (cap attr) = 0 → qp' = qp) ∧
  (max_recv_wr (cap attr) ≠ 0 → rq_absent qp').
Proof.
  intros Hreq H Hr. unfold mlx5_calc_rq_size in H.
  destruct (Z.eqb_spec (max_recv_wr (cap attr)) 0) as [Hz|Hnz].
  { simplify_eq. done. }
  destruct Hreq as [?|Hsrq]; [done|].
  split_if H; [simplify_eq; unfold C.EINVAL in Hr; lia|].
  assert (Hw : mlx5_calc_rcv_wqe L ctx attr qp = 0).
  { unfold mlx5_calc_rcv_wqe. by rewrite bool_decide_eq_true_2. }
  rewrite Hw in H. cbn [Z.ltb Z.compare orb negb Z.eqb] in H.
  split_if H; [simplify_eq; unfold C.EINVAL in Hr; lia|].
  simplify_eq. rewrite Z.mul_0_r. split; [done|]. split; [done|].
  intros _. done.
Qed.

(** [mlx5_calc_wq_size] on an accepted request: both queues were accepted
    and the sizes add up without overflow. *)
Lemma calc_wq_size_accept ctx attr qp ret_ attr1 qp1 :
  mlx5_calc_wq_size L F mlx5_ilog2 ctx attr qp = Some (ret_, attr1, qp1) →
  0 ≤ ret_ →
  ∃ sq_bytes qpa rq_bytes qpb,
    mlx5_calc_sq_size L F mlx5_ilog2 ctx attr qp = Some (sq_bytes, attr1, qpa) ∧
    mlx5_calc_rq_size L mlx5_ilog2 ctx attr1 qpa = Some (rq_bytes, qpb) ∧
    0 ≤ sq_bytes ∧ 0 ≤ rq_bytes ∧ ret_ = sq_bytes + rq_bytes ∧
    qp1 = set_rq (set_offset (rq qpb) 0) (set_sq (set_offset (sq qpb) rq_bytes) qpb).
Proof.
  intros H Hr. unfold mlx5_calc_wq_size in H.
  destruct (mlx5_calc_sq_size _ _ _ _ _ _) as [[[sqb attr'] qpa]|] eqn:Hsq;
    [|done]. cbn [mbind option_bind] in H.
  pose proof (calc_sq_size_frame _ _ _ _ _ _ Hsq) as (Hsq31 & _).
  destruct (Z.ltb_spec sqb 0) as [?|Hsq0]; [simplify_eq; lia|].
  destruct (mlx5_calc_rq_size _ _ _ _ _) as [[rqb qpb]|] eqn:Hrq;
    [|done]. cbn [mbind option_bind] in H.
  pose proof (calc_rq_size_frame _ _ _ _ _ Hrq) as (Hrq31 & _).
  destruct (Z.ltb_spec rqb 0) as [?|Hrq0]; [simplify_eq; lia|].
  simplify_eq.
  assert (C.to_int (sqb + rqb) = sqb + rqb) as Hsum
    by (apply to_int_sum; lia).
  exists sqb, qpa, rqb, qpb. rewrite Hsum. done.
Qed.

(** Within [int], [mlx5_calc_send_wqe] computes the bytes needed and
    compares them with the adapter's limit. *)
Lemma calc_send_wqe_exact c attr qp :
  0 ≤ sq_overhead L F qp (qp_type attr) →
  0 < sizeof_data_seg L < 2 ^ 32 → 0 ≤ sizeof_inl_data_seg L < 2 ^ 32 →
  0 ≤ max_send_sge (cap attr) < 2 ^ 32 →
  0 ≤ max_inline_data (cap attr) < 2 ^ 32 →
  0 ≤ max_tso_header attr < 2 ^ 16 →
  0 ≤ max_sq_desc_sz c < 2 ^ 30 →
  send_wqe_bytes L F attr qp < 2 ^ 31 →
  fst <$> mlx5_calc_send_wqe L F c attr qp =
    Some (if send_wqe_bytes L F attr qp >? max_sq_desc_sz c then - C.EINVAL
          else align (send_wqe_bytes L F attr qp) MLX5_SEND_WQE_BB).
Proof.
  intros Hov Hd Hil Hg Hi Hh Hmax HD.
  unfold send_wqe_bytes in *. unfold mlx5_calc_send_wqe.
  set (ovh := sq_overhead L F qp (qp_type attr)) in *.
  set (tso := C.bits (comp_mask attr) (IBV_QP_INIT_ATTR_MAX_TSO_HEADER F))
    in *.
  set (d := sizeof_data_seg L) in *. set (g := max_send_sge (cap attr)) in *.
  set (i := max_inline_data (cap attr)) in *.
  set (il := sizeof_inl_data_seg L) in *.
  set (h := max_tso_header attr) in *.
  destruct (Z.ltb_spec ovh 0) as [?|_]; [lia|]. cbv zeta.
  destruct (align_bounds h 16) as (Hah & _); [lia..|].
  destruct (align_bounds (il + i) 16) as (Hai & _); [lia..|].
  set (t16 := if tso then align h 16 else 0) in *.
  set (inl := if i =? 0 then 0 else ovh + align (il + i) 16) in *.
  assert (Ht16 : 0 ≤ t16) by (unfold t16; destruct tso; lia).
  assert (Hinl : 0 ≤ inl) by (unfold inl; destruct (i =? 0); lia).
  assert (Hdg : 0 ≤ d * g) by nia.
  assert (Hsz1 : (if tso then C.to_int (C.to_ulong ovh + align h 16)
                  else ovh) = ovh + t16).
  { unfold t16. destruct tso; [|lia].
    rewrite to_ulong_id, to_int_id by lia. done. }
  rewrite Hsz1.
  assert (Hinl' : (if negb (i =? 0)
                   then C.to_int (C.to_ulong ovh
                                  + align (C.to_ulong (il + i)) 16)
                   else 0) = inl).
  { unfold inl in *. destruct (i =? 0); cbn [negb]; [done|].
    rewrite !to_ulong_id by lia. apply to_int_id. lia. }
  rewrite Hinl'.
  rewrite (to_ulong_id d) by lia.
  unfold C.div. destruct (Z.eqb_spec d 0) as [?|_]; [lia|].
  rewrite (to_int_id (max_sq_desc_sz c - (ovh + t16))) by lia.
  assert (Hsz2 : C.to_int (C.to_ulong (ovh + t16) + C.to_ulong (g * d))
                 = ovh + t16 + d * g).
  { rewrite !to_ulong_id by nia. rewrite to_int_id by nia. lia. }
  rewrite Hsz2.
  assert (Htot : max_int (ovh + t16 + d * g) inl
                 = Z.max (ovh + t16 + d * g) inl).
  { unfold max_int. destruct (Z.gtb_spec (ovh + t16 + d * g) inl); lia. }
  rewrite Htot. set (D := Z.max (ovh + t16 + d * g) inl) in *.
  destruct (Z.gtb_spec D (max_sq_desc_sz c)) as [Hbig|Hfit].
  - destruct (g >? _); [reflexivity|]. reflexivity.
  - assert (Hfit1 : ovh + t16 + d * g ≤ max_sq_desc_sz c) by lia.
    rewrite (to_ulong_id (max_sq_desc_sz c - (ovh + t16))) by nia.
    set (q := (max_sq_desc_sz c - (ovh + t16)) `quot` d).
    assert (Hq : g ≤ q < 2 ^ 31).
    { unfold q. rewrite Z.quot_div_nonneg by nia. split.
      - apply Z.div_le_lower_bound; lia.
      - apply Z.div_lt_upper_bound; nia. }
    rewrite (to_int_id q), (to_uint_id q) by lia.
    destruct (Z.gtb_spec g q); [lia|]. cbn.
    destruct (align_bounds D 64) as (HaD & _); [lia..|].
    rewrite (to_ulong_id D) by lia. f_equal. apply to_int_id.
    unfold MLX5_SEND_WQE_BB. lia.
Qed.

End SizingFacts.

(** ** The monad *)

Lemma bind_inv {A B} (m : M A) (f : A → M B) s y s' :
  bind m f s = Some (y, s') →
  ∃ x s1, m s = Some (x, s1) ∧ f x s1 = Some (y, s').
Proof.
  unfold bind. destruct (m s) as [[x s1]|]; [|done]. eauto.
Qed.

Lemma bind_run {A B} (m : M A) (f : A → M B) s x s1 :
  m s = Some (x, s1) → bind m f s = f x s1.
Proof. unfold bind. by intros ->. Qed.

(** Reduction of the monad's operations and of the state's fields, and
    nothing else. *)
Ltac msimpl :=
  cbv beta iota zeta delta
      [bind ret undefined get modify log set_err lift when with_ctx get_ctx
       put_ctx
       get_qp put_qp get_cq put_cq get_srq put_srq get_td get_pd
       mutex_lock mutex_unlock];
  cbn [fst snd ctx qps srqs cqs tds pds dbrecs bufs errno trace
       set_ctx set_qps set_srqs set_cqs set_tds set_pds set_dbrecs set_bufs
       set_errno set_trace].

Ltac msimpl_in H :=
  cbv beta iota zeta delta
      [bind ret undefined get modify log set_err lift when with_ctx get_ctx
       put_ctx
       get_qp put_qp get_cq put_cq get_srq put_srq get_td get_pd
       mutex_lock mutex_unlock] in H;
  cbn [fst snd ctx qps srqs cqs tds pds dbrecs bufs errno trace
       set_ctx set_qps set_srqs set_cqs set_tds set_pds set_dbrecs set_bufs
       set_errno set_trace] in H.

(** ** Frame rules *)

Lemma preserves_bind {A B T} (g : state → T) (m : M A) (f : A → M B) :
  preserves g m → (∀ x, preserves g (f x)) → preserves g (bind m f).
Proof.
  intros Hm Hf s y s' H. apply bind_inv in H as (x & s1 & H1 & H2).
  rewrite (Hf _ _ _ _ H2). eauto.
Qed.

Lemma preserves_ret {A T} (g : state → T) (x : A) : preserves g (ret x).
Proof. intros s y s' [= _ <-]. done. Qed.

Lemma preserves_undefined {A T} (g : state → T) :
  preserves g (@undefined A).
Proof. intros s y s' [=]. Qed.

Lemma preserves_lift {A T} (g : state → T) (o : option A) :
  preserves g (lift o).
Proof.
  destruct o; [apply preserves_ret|apply preserves_undefined].
Qed.

Lemma preserves_get {T} (g : state → T) : preserves g get.
Proof. intros s y s' [= _ <-]. done. Qed.

Lemma preserves_modify {T} (g : state → T) f :
  (∀ s, g (f s) = g s) → preserves g (modify f).
Proof. intros Hf s y s' [= _ <-]. apply Hf. Qed.

Lemma preserves_when {T} (g : state → T) b m :
  preserves g m → preserves g (when b m).
Proof. destruct b; [done|]. intros _. apply preserves_ret. Qed.

Lemma preserves_with_ctx {A T} (g : mlx5_context → T)
    (f : mlx5_context → option (A * mlx5_context)) :
  (∀ c x c', f c = Some (x, c') → g c' = g c) →
  preserves (λ s, g (ctx s)) (with_ctx f).
Proof.
  intros Hf s x s' H. unfold with_ctx in H.
  destruct (f (ctx s)) as [[y c]|] eqn:E; [|done]. simplify_eq.
  cbn. eauto.
Qed.

(** Splits a frame goal along the structure of the computation. *)
Ltac frame_step :=
  lazymatch goal with
  | |- preserves _ (bind _ _) => apply preserves_bind; [|intros ?]
  | |- preserves _ (ret _) => apply preserves_ret
  | |- preserves _ undefined => apply preserves_undefined
  | |- preserves _ (lift _) => apply preserves_lift
  | |- preserves _ get => apply preserves_get
  | |- preserves _ (when _ _) => apply preserves_when
  | |- preserves _ (modify _) =>
      apply preserves_modify; intros ?; try reflexivity
  | |- preserves _ (with_ctx _) => apply preserves_with_ctx
  | |- preserves _ (if ?b then _ else _) => destruct b
  | |- preserves _ (match ?o with _ => _ end) => destruct o
  | |- preserves _ (let '(_, _) := ?p in _) => destruct p
  end.

Ltac frame :=
  repeat (first
    [ frame_step
    | progress unfold get_ctx, put_ctx, get_qp, put_qp, get_cq, put_cq,
        get_srq, put_srq, get_td, get_pd, log, set_err, mutex_lock,
        mutex_unlock ]).

(** ** Dynamic BF registers *)

Lemma nth_z_lookup {A} (l : list A) i :
  0 ≤ i → nth_z l i = l !! Z.to_nat i.
Proof. intros. unfold nth_z. destruct (Z.ltb_spec i 0); [lia|done]. Qed.

Lemma first_free_from_spec counts : ∀ i j,
  first_free_from i counts = Some j →
  i ≤ j < i + Z.of_nat (length counts) ∧
  counts !! Z.to_nat (j - i) = Some 0 ∧
  ∀ k, (k < Z.to_nat (j - i))%nat → counts !! k ≠ Some 0.
Proof.
  induction counts as [|n rest IH]; intros i j H; simpl in *; [done|].
  destruct (Z.eqb_spec n 0) as [->|Hn].
  - simplify_eq. replace (j - j) with 0 by lia. simpl.
    repeat split; try lia; try done.
  - destruct (IH _ _ H) as (Hr & Hz & Hmin).
    assert (Hk : Z.to_nat (j - i) = S (Z.to_nat (j - (i + 1)))) by lia.
    rewrite Hk. repeat split; try lia; try done.
    intros [|k] Hlt; simpl; [congruence|]. apply Hmin. lia.
Qed.

Lemma first_free_from_none counts : ∀ i,
  first_free_from i counts = None → ∀ k, counts !! k ≠ Some 0.
Proof.
  induction counts as [|n rest IH]; intros i H k; simpl in *; [done|].
  destruct (Z.eqb_spec n 0) as [->|Hn]; [done|].
  destruct k as [|k]; simpl; [congruence|]. by eapply IH.
Qed.

Lemma get_bfreg_loop_spec fuel : ∀ i counts,
  0 ≤ i → (Z.to_nat i + fuel = length counts)%nat →
  get_bfreg_loop fuel i counts =
    match first_free_from i (drop (Z.to_nat i) counts) with
    | Some j => Some (j, <[Z.to_nat j := 1]> counts)
    | None => Some (-1, counts)
    end.
Proof.
  induction fuel as [|fuel IH]; intros i counts Hi Hlen; simpl.
  - rewrite drop_ge by lia. done.
  - rewrite nth_z_lookup by done.
    destruct (counts !! Z.to_nat i) as [n|] eqn:Hn.
    2: { apply lookup_ge_None in Hn. lia. }
    rewrite (drop_S _ _ _ Hn). simpl.
    destruct (Z.eqb_spec n 0) as [->|Hne].
    + unfold upd_z. rewrite nth_z_lookup, Hn by done. done.
    + rewrite IH by lia. by replace (Z.to_nat (i + 1)) with (S (Z.to_nat i)) by lia.
Qed.

Section BfRegFacts.

Context (B : bf_layout).

Lemma get_bfreg_index_run s :
  Z.of_nat (length (count_dyn_bfregs (ctx s))) = num_dyn_bfregs (ctx s) →
  ∃ s',
    mlx5_get_bfreg_index s =
      Some (match first_free (count_dyn_bfregs (ctx s)) with
            | Some j => j | None => -1 end, s') ∧
    ctx s' =
      set_count_dyn_bfregs
        (match first_free (count_dyn_bfregs (ctx s)) with
         | Some j => <[Z.to_nat j := 1]> (count_dyn_bfregs (ctx s))
         | None => count_dyn_bfregs (ctx s) end) (ctx s) ∧
    errno s' = errno s ∧ tds s' = tds s ∧ pds s' = pds s.
Proof.
  intros Hlen. unfold mlx5_get_bfreg_index, bind, with_ctx, ret,
    mutex_lock, mutex_unlock, log, modify. simpl.
  rewrite get_bfreg_loop_spec by lia. rewrite drop_0.
  fold (first_free (count_dyn_bfregs (ctx s))).
  destruct (first_free _); simpl; eexists; split; done.
Qed.

Lemma get_bf_run s i b :
  0 ≤ i → bfs (ctx s) !! Z.to_nat i = Some b → get_bf i s = Some (b, s).
Proof.
  intros Hi Hb. unfold get_bf. msimpl. rewrite nth_z_lookup, Hb by done. done.
Qed.

Lemma put_bf_run s i b b0 :
  0 ≤ i → bfs (ctx s) !! Z.to_nat i = Some b0 →
  put_bf i b s =
    Some (tt, set_ctx (set_bfs (<[Z.to_nat i := b]> (bfs (ctx s))) (ctx s)) s).
Proof.
  intros Hi Hb. unfold put_bf, upd_z. msimpl.
  rewrite nth_z_lookup, Hb by done. done.
Qed.

Lemma put_bfreg_index_run s i n :
  0 ≤ i → count_dyn_bfregs (ctx s) !! Z.to_nat i = Some n →
  ∃ s',
    mlx5_put_bfreg_index i s = Some (tt, s') ∧
    ctx s' = set_count_dyn_bfregs
               (<[Z.to_nat i := C.to_uint (n - 1)]>
                  (count_dyn_bfregs (ctx s))) (ctx s) ∧
    errno s' = errno s ∧ tds s' = tds s ∧ pds s' = pds s.
Proof.
  intros Hi Hn. unfold mlx5_put_bfreg_index, upd_z. msimpl.
  rewrite nth_z_lookup, Hn by done. cbn. eexists. split; [reflexivity|].
  done.
Qed.

(** One call of [mlx5_attach_dedicated_bf] on a consistent context. *)
Lemma attach_dedicated_bf_run X s :
  bfregs_wf B (ctx s) →
  ∃ r s',
    mlx5_attach_dedicated_bf B X s = Some (r, s') ∧
    bfregs_wf B (ctx s') ∧
    match first_free (count_dyn_bfregs (ctx s)) with
    | None =>
        r = None ∧ errno s' = C.ENOENT ∧
        count_dyn_bfregs (ctx s') = count_dyn_bfregs (ctx s) ∧
        bfs (ctx s') = bfs (ctx s)
    | Some i =>
        (r = Some (start_dyn_bfregs_index (ctx s) + i) ∧
         count_dyn_bfregs (ctx s') =
           <[Z.to_nat i := 1]> (count_dyn_bfregs (ctx s)) ∧
         ∃ b b0,
           bfs (ctx s') !! Z.to_nat (start_dyn_bfregs_index (ctx s) + i)
             = Some b ∧ bf_reg b ≠ None ∧
           bfs (ctx s) !! Z.to_nat (start_dyn_bfregs_index (ctx s) + i)
             = Some b0 ∧
           (bf_reg b0 ≠ None → bfs (ctx s') = bfs (ctx s)) ∧
           (bf_reg b0 = None → bf_bfreg_dyn_index b = i))
        ∨
        (r = None ∧
         count_dyn_bfregs (ctx s') = count_dyn_bfregs (ctx s) ∧
         x_mmap X (i `quot` (num_uars_per_page (ctx s) *
                             MLX5_NUM_NON_FP_BFREGS_PER_UAR B)) = None ∧
         ∃ b0,
           bfs (ctx s) !! Z.to_nat (start_dyn_bfregs_index (ctx s) + i)
             = Some b0 ∧ bf_reg b0 = None)
    end.
Proof.
  intros Hwf. pose proof Hwf as (Hlen & Hst & Hbfs & Hbnd & Hnf & Hup & Hpp).
  destruct (get_bfreg_index_run s Hlen) as (s1 & Hrun & Hctx & Herr & _).
  unfold mlx5_attach_dedicated_bf. rewrite (bind_run _ _ _ _ _ Hrun).
  destruct (first_free (count_dyn_bfregs (ctx s))) as [i|] eqn:Hff.
  2: { msimpl. eexists _, _. split; [reflexivity|]. msimpl.
       rewrite Hctx. by destruct (ctx s). }
  destruct (first_free_from_spec _ _ _ Hff) as (Hi & Hz & Hmin).
  rewrite Z.sub_0_r in *.
  destruct (Z.ltb_spec i 0) as [?|_]; [lia|].
  assert (Hb1 : bfs (ctx s1) = bfs (ctx s)) by (by rewrite Hctx).
  assert (Hs1 : start_dyn_bfregs_index (ctx s1)
                = start_dyn_bfregs_index (ctx s)) by (by rewrite Hctx).
  assert (Hn1 : num_uars_per_page (ctx s1) = num_uars_per_page (ctx s))
    by (by rewrite Hctx).
  assert (Hc1 : count_dyn_bfregs (ctx s1)
                = <[Z.to_nat i := 1]> (count_dyn_bfregs (ctx s)))
    by (by rewrite Hctx).
  assert (Hwf1 : bfregs_wf B (ctx s1)).
  { rewrite Hctx. unfold bfregs_wf. cbn. rewrite length_insert.
    by destruct (ctx s). }
  set (start := start_dyn_bfregs_index (ctx s)) in *.
  set (pp := num_uars_per_page (ctx s) * MLX5_NUM_NON_FP_BFREGS_PER_UAR B)
    in *.
  assert (Hpp0 : 0 < pp) by (unfold pp; nia).
  erewrite bind_run by reflexivity. rewrite Hs1, Hn1. fold pp.
  rewrite (to_uint_id (start + i)) by lia.
  destruct (bfs (ctx s) !! Z.to_nat (start + i)) as [b|] eqn:Hb.
  2: { apply lookup_ge_None in Hb. lia. }
  erewrite bind_run by (apply get_bf_run; [lia|by rewrite Hb1]).
  destruct (bool_decide (bf_reg b ≠ None)) eqn:Hreg.
  { apply bool_decide_eq_true in Hreg. msimpl. eexists _, _.
    split; [reflexivity|]. split; [done|]. left. rewrite Hb1.
    split; [done|]. split; [done|]. exists b, b. done. }
  apply bool_decide_eq_false in Hreg.
  rewrite (to_int_id pp) by lia.
  unfold C.div at 1. destruct (Z.eqb_spec pp 0) as [?|_]; [lia|].
  erewrite bind_run by reflexivity.
  set (q := i `quot` pp).
  assert (Hq : 0 ≤ q ∧ q * pp ≤ i).
  { unfold q. rewrite Z.quot_div_nonneg by lia. split; [apply Z.div_pos; lia|].
    rewrite Z.mul_comm. apply Z.mul_div_le. lia. }
  assert (Hqi : q ≤ i) by nia.
  rewrite (to_uint_id q), (to_uint_id pp) by lia.
  rewrite (to_int_id (start + q * pp)) by lia.
  rewrite (to_uint_id i) by lia.
  erewrite bind_run by reflexivity.
  destruct (bfs (ctx s) !! Z.to_nat (start + q * pp)) as [m|] eqn:Hm.
  2: { apply lookup_ge_None in Hm. lia. }
  erewrite bind_run by (apply get_bf_run; [lia|cbn; by rewrite Hb1]).
  assert (Hcnt1 : count_dyn_bfregs (ctx s1) !! Z.to_nat i = Some 1).
  { rewrite Hc1. apply list_lookup_insert_eq. by eapply lookup_lt_Some. }
  assert (Hback : <[Z.to_nat i := C.to_uint (1 - 1)]>
                    (count_dyn_bfregs (ctx s1)) = count_dyn_bfregs (ctx s)).
  { rewrite Hc1, list_insert_insert_eq. by apply list_insert_id. }
  assert (Hmapped : ∀ s2 a,
    bfregs_wf B (ctx s2) →
    count_dyn_bfregs (ctx s2) = count_dyn_bfregs (ctx s1) →
    start_dyn_bfregs_index (ctx s2) = start →
    length (bfs (ctx s2)) = length (bfs (ctx s)) →
    bfs (ctx s2) !! Z.to_nat (start + q * pp) = Some a →
    bf_uar a ≠ None →
    ∃ r s', bind (lift (c_rem i pp)) (λ r0,
      bind (lift (C.div r0 (MLX5_NUM_NON_FP_BFREGS_PER_UAR B)))
       (λ index_uar_in_page,
        bind (lift (c_rem i (MLX5_NUM_NON_FP_BFREGS_PER_UAR B)))
         (λ index_in_uar,
          bind (get_bf (start + q * pp)) (λ m0,
           bind (lift (bf_uar m0)) (λ uar,
            bind (get_bf (start + i)) (λ b0,
             bind (put_bf (start + i)
               {| bf_reg := Some (uar + index_uar_in_page *
                                   MLX5_ADAPTER_PAGE_SIZE B + MLX5_BF_OFFSET B
                                  + index_in_uar * bf_reg_size (ctx s1));
                  bf_uar := bf_uar b0; bf_uuarn := start + i;
                  bf_buf_size := C.to_uint (bf_reg_size (ctx s1) `quot` 2);
                  bf_bfreg_dyn_index := i; bf_uar_mmap_offset := 0;
                  bf_need_lock := 0 |})
              (λ _, ret (Some (start + i))))))))) s2 = Some (r, s') ∧
      bfregs_wf B (ctx s') ∧ r = Some (start + i) ∧
      count_dyn_bfregs (ctx s') = count_dyn_bfregs (ctx s1) ∧
      ∃ b1, bfs (ctx s') !! Z.to_nat (start + i) = Some b1 ∧
            bf_reg b1 ≠ None ∧ bf_bfreg_dyn_index b1 = i).
  { intros s2 a Hwf2 Hc2 Hs2 Hl2 Ha Hua.
    unfold c_rem, C.div.
    destruct (Z.eqb_spec pp 0) as [?|_]; [lia|].
    destruct (Z.eqb_spec (MLX5_NUM_NON_FP_BFREGS_PER_UAR B) 0) as [?|_];
      [lia|].
    do 3 (erewrite bind_run by reflexivity).
    erewrite bind_run by (apply get_bf_run; [lia|done]).
    destruct (bf_uar a) as [ua|] eqn:Hu; [|done].
    erewrite bind_run by reflexivity.
    destruct (bfs (ctx s2) !! Z.to_nat (start + i)) as [b2|] eqn:Hb2.
    2: { apply lookup_ge_None in Hb2. lia. }
    erewrite bind_run by (apply get_bf_run; [lia|done]).
    erewrite bind_run by (eapply put_bf_run; [lia|done]).
    eexists _, _. split; [reflexivity|]. cbn.
    split.
    { destruct Hwf2 as (? & ? & ? & ? & ? & ? & ?).
      unfold bfregs_wf. cbn. rewrite length_insert. by destruct (ctx s2). }
    split; [done|]. split; [by destruct (ctx s2)|].
    eexists. split.
    { cbn [bfs set_bfs].
      apply list_lookup_insert_eq. by eapply lookup_lt_Some. }
    done. }
  set (s2 := set_trace (trace s1 ++ [EvMutexLock dyn_bfregs_mutex]) s1).
  assert (Hm2 : bfs (ctx s2) !! Z.to_nat (start + q * pp) = Some m)
    by (cbn; by rewrite Hb1).
  assert (Hfin : ∀ r s',
    bfregs_wf B (ctx s') ∧ r = Some (start + i) ∧
    count_dyn_bfregs (ctx s') = count_dyn_bfregs (ctx s1) ∧
    (∃ b1, bfs (ctx s') !! Z.to_nat (start + i) = Some b1 ∧ bf_reg b1 ≠ None
           ∧ bf_bfreg_dyn_index b1 = i)
    → bfregs_wf B (ctx s')
      ∧ (r = Some (start + i)
         ∧ count_dyn_bfregs (ctx s') =
           <[Z.to_nat i:=1]> (count_dyn_bfregs (ctx s))
           ∧ (∃ b1 b0 : mlx5_bf,
                bfs (ctx s') !! Z.to_nat (start + i) = Some b1
                ∧ bf_reg b1 ≠ None
                ∧ Some b = Some b0
                ∧ (bf_reg b0 ≠ None → bfs (ctx s') = bfs (ctx s))
                ∧ (bf_reg b0 = None → bf_bfreg_dyn_index b1 = i))
         ∨ r = None
           ∧ count_dyn_bfregs (ctx s') = count_dyn_bfregs (ctx s)
             ∧ x_mmap X q = None
             ∧ ∃ b0, Some b = Some b0 ∧ bf_reg b0 = None)).
  { intros r s' (? & ? & Hc & b1 & ? & ? & ?). split; [done|]. left.
    split; [done|]. split; [by rewrite Hc|]. exists b1, b.
    repeat split; try done. }
  destruct (bool_decide (bf_uar m ≠ None)) eqn:Hu.
  - apply bool_decide_eq_true in Hu.
    do 2 (erewrite bind_run by reflexivity). lazy beta iota.
    destruct (Hmapped (set_trace (trace s2 ++ [EvMutexUnlock dyn_bfregs_mutex])
                s2) m) as (r & s' & Hr & Hres); try done.
    { cbn. by rewrite Hb1. }
    exists r, s'. split; [exact Hr|]. by apply Hfin.
  - destruct (x_mmap X q) as [a|] eqn:Hmap.
    + erewrite bind_run.
      2: { erewrite bind_run by (eapply put_bf_run; [lia|exact Hm2]).
           reflexivity. }
      erewrite bind_run by reflexivity. lazy beta iota.
      match goal with
      | |- ∃ r s', _ ?st = _ ∧ _ =>
          destruct (Hmapped st (set_bf_uar (Some a) m))
            as (r & s' & Hr & Hres);
            [..|exists r, s'; split; [exact Hr|by apply Hfin]]
      end.
      * destruct Hwf1 as (? & ? & ? & ? & ? & ? & ?).
        unfold bfregs_wf. cbn. rewrite length_insert. by destruct (ctx s1).
      * cbn. by destruct (ctx s1).
      * cbn. rewrite <- Hs1. by destruct (ctx s1).
      * cbn. cbn [bfs set_bfs]. by rewrite length_insert, Hb1.
      * cbn. cbn [bfs set_bfs]. apply list_lookup_insert_eq.
        rewrite Hb1. by eapply lookup_lt_Some.
      * done.
    + erewrite bind_run.
      2: { erewrite bind_run by (eapply put_bf_run; [lia|exact Hm2]).
           reflexivity. }
      erewrite bind_run by reflexivity. lazy beta iota.
      match goal with
      | |- ∃ r s', bind _ _ ?st = _ ∧ _ =>
          destruct (put_bfreg_index_run st i 1) as (s3 & Hput & Hc3 & _);
            [lia|cbn; cbn [count_dyn_bfregs set_bfs]; exact Hcnt1|]
      end.
      erewrite bind_run by exact Hput.
      eexists _, _. split; [reflexivity|]. rewrite Hc3. cbn.
      cbn [count_dyn_bfregs set_bfs set_count_dyn_bfregs].
      rewrite Hback. split.
      * rewrite Hctx. unfold bfregs_wf. cbn. rewrite length_insert.
        unfold pp in Hpp. clear -Hlen Hst Hbfs Hbnd Hnf Hup Hpp.
        destruct (ctx s). cbn in *. done.
      * right. assert (bf_reg b = None).
        { destruct (bf_reg b); [|done]. by destruct Hreg. }
        eauto 10.
Qed.

Lemma put_bfreg_index_area i :
  preserves (λ s, bf_area (ctx s)) (mlx5_put_bfreg_index i).
Proof.
  unfold mlx5_put_bfreg_index. frame. intros c0 x0 c' H.
  destruct (nth_z _ _); [|done]. cbn in H.
  destruct (upd_z _ _ _); [|done]. cbn in H. by simplify_eq.
Qed.

Lemma get_bfreg_index_area :
  preserves (λ s, bf_area (ctx s)) mlx5_get_bfreg_index.
Proof.
  unfold mlx5_get_bfreg_index. frame. intros c0 x0 c' H.
  destruct (get_bfreg_loop _ _ _); [|done]. cbn in H. by simplify_eq.
Qed.

Lemma attach_dedicated_bf_area X :
  preserves (λ s, bf_area (ctx s)) (mlx5_attach_dedicated_bf B X).
Proof.
  assert (Hput : ∀ i b, preserves (λ s, bf_area (ctx s)) (put_bf i b)).
  { intros i b. unfold put_bf. frame. intros c0 x0 c' H.
    destruct (upd_z _ _ _); [|done]. cbn in H. by simplify_eq. }
  unfold mlx5_attach_dedicated_bf, get_bf.
  frame; try apply get_bfreg_index_area; try apply put_bfreg_index_area;
    try apply Hput.
Qed.

Lemma in_use_le counts : (in_use counts ≤ length counts)%nat.
Proof. unfold in_use. apply List.filter_length_le. Qed.

Lemma in_use_take counts : ∀ i,
  counts !! i = Some 0 →
  in_use (<[i := 1]> counts) = S (in_use counts).
Proof.
  unfold in_use. induction counts as [|n rest IH]; intros [|i] H;
    simpl in *; try done.
  - by simplify_eq.
  - destruct (negb (n =? 0)); simpl; by rewrite IH.
Qed.

Lemma first_free_lowest counts i :
  first_free counts = Some i → lowest_free counts i.
Proof.
  intros H. destruct (first_free_from_spec _ _ _ H) as (? & ? & ?).
  rewrite Z.sub_0_r in *. unfold lowest_free. repeat split; [lia|done|done].
Qed.

Lemma bfregs_wf_area c c' :
  bfregs_wf B c → bf_area c' = bf_area c →
  length (count_dyn_bfregs c') = length (count_dyn_bfregs c) →
  length (bfs c') = length (bfs c) → bfregs_wf B c'.
Proof.
  unfold bfregs_wf, bf_area. intros H [= -> -> -> _] -> ->. done.
Qed.

(** Acquisitions without a release: each success takes one more slot. *)
Lemma attach_many_run Xs : ∀ s,
  bfregs_wf B (ctx s) →
  ∃ n s',
    attach_many B Xs s = Some (n, s') ∧ bfregs_wf B (ctx s') ∧
    length (count_dyn_bfregs (ctx s')) = length (count_dyn_bfregs (ctx s)) ∧
    in_use (count_dyn_bfregs (ctx s')) =
      (in_use (count_dyn_bfregs (ctx s)) + n)%nat.
Proof.
  induction Xs as [|X Xs IH]; intros s Hwf; simpl.
  - exists O, s. rewrite Nat.add_0_r. done.
  - destruct (attach_dedicated_bf_run X s Hwf) as (r & s1 & Hr & Hwf1 & Hcase).
    destruct (IH s1 Hwf1) as (n & s2 & Hn & Hwf2 & Hlen2 & Huse).
    rewrite (bind_run _ _ _ _ _ Hr), (bind_run _ _ _ _ _ Hn).
    eexists _, _. split; [reflexivity|]. split; [done|].
    rewrite Hlen2, Huse.
    destruct (first_free (count_dyn_bfregs (ctx s))) as [i|] eqn:Hff.
    + destruct (first_free_lowest _ _ Hff) as (Hi & Hz & _).
      destruct Hcase as [(-> & -> & _)|(-> & -> & _)].
      * rewrite length_insert, in_use_take by done. split; [done|lia].
      * done.
    + destruct Hcase as (-> & _ & -> & _). done.
Qed.

(** Acquire, release, acquire again: the same slot with the same
    register. *)
Lemma attach_detach_attach X X' s bf s1 :
  bfregs_wf B (ctx s) → bf_index_inv (ctx s) →
  mlx5_attach_dedicated_bf B X s = Some (Some bf, s1) →
  ∃ s2 s3,
    mlx5_detach_dedicated_bf bf s1 = Some (tt, s2) ∧
    count_dyn_bfregs (ctx s2) = count_dyn_bfregs (ctx s) ∧
    mlx5_attach_dedicated_bf B X' s2 = Some (Some bf, s3) ∧
    bfs (ctx s3) = bfs (ctx s1).
Proof.
  intros Hwf Hinv Hatt.
  destruct (attach_dedicated_bf_run X s Hwf) as (r & s1' & Hr & Hwf1 & Hcase).
  rewrite Hatt in Hr. simplify_eq.
  pose proof (attach_dedicated_bf_area X _ _ _ Hatt) as Harea.
  cbv beta in Harea.
  destruct (first_free (count_dyn_bfregs (ctx s))) as [i|] eqn:Hff.
  2: { by destruct Hcase as ([=] & _). }
  destruct (first_free_lowest _ _ Hff) as (Hi & Hz & Hmin).
  destruct Hcase as [([= Hbf] & Hc1 & b & b0 & Hb & Hreg & Hb0 & Hold & Hnew)
                    |([=] & _)].
  assert (Hstart : start_dyn_bfregs_index (ctx s1')
                   = start_dyn_bfregs_index (ctx s)).
  { pose proof Harea as Ha. unfold bf_area in Ha. by simplify_eq. }
  assert (Hdyn : bf_bfreg_dyn_index b = i).
  { destruct (bf_reg b0) eqn:E; [|by apply Hnew].
    assert (Hbfs : bfs (ctx s1') = bfs (ctx s)) by (by apply Hold).
    rewrite Hbfs in Hb. eapply Hinv; [exact Hi|exact Hb|done]. }
  pose proof Hwf as (Hlen & Hst & Hbfs & Hbnd & _).
  assert (Hi2 : (Z.to_nat i < length (count_dyn_bfregs (ctx s)))%nat)
    by (by eapply lookup_lt_Some).
  destruct (put_bfreg_index_run s1' i 1) as (s2 & Hput & Hc2 & _); [done| |].
  { rewrite Hc1. by apply list_lookup_insert_eq. }
  assert (Hcnt2 : count_dyn_bfregs (ctx s2) = count_dyn_bfregs (ctx s)).
  { rewrite Hc2. cbn. rewrite Hc1, list_insert_insert_eq.
    by apply list_insert_id. }
  assert (Harea2 : bf_area (ctx s2) = bf_area (ctx s)).
  { rewrite Hc2. transitivity (bf_area (ctx s1')); [|exact Harea].
    by destruct (ctx s1'). }
  assert (Hbfs2 : bfs (ctx s2) = bfs (ctx s1')).
  { rewrite Hc2. by destruct (ctx s1'). }
  assert (Hwf2 : bfregs_wf B (ctx s2)).
  { eapply bfregs_wf_area; [exact Hwf1| | |by rewrite Hbfs2].
    - rewrite Hc2. by destruct (ctx s1').
    - rewrite Hc2. cbn. by rewrite length_insert. }
  assert (Hget : get_bf bf s1' = Some (b, s1')).
  { subst bf. apply get_bf_run; [lia|done]. }
  exists s2.
  destruct (attach_dedicated_bf_run X' s2 Hwf2) as (r & s3 & Hr & _ & Hcase).
  rewrite Hcnt2, Hff in Hcase.
  assert (Hst2 : start_dyn_bfregs_index (ctx s2)
                 = start_dyn_bfregs_index (ctx s)).
  { pose proof Harea2 as Ha. unfold bf_area in Ha. by simplify_eq. }
  rewrite Hst2, Hbfs2, Hb in Hcase.
  destruct Hcase as [(-> & _ & b' & b0' & Hb' & _ & [= <-] & Hsame & _)
                    |(_ & _ & _ & b0' & [= <-] & Hnone)]; [|done].
  exists s3. unfold mlx5_detach_dedicated_bf.
  rewrite (bind_run _ _ _ _ _ Hget), Hdyn, Hput. subst bf.
  repeat split; try done. rewrite Hsame by done. done.
Qed.

End BfRegFacts.

(** ** Queue pair creation *)

(** A branch that returns [NULL] cannot have produced a QP. *)
Ltac dead H :=
  exfalso;
  repeat (apply bind_inv in H as (? & ? & _ & H));
  unfold ret in H; by simplify_eq.

Section QpCreateFacts.

Context (L : wqe_layout) (F : flag_bits) (mlx5_ilog2 : Z → Z) (X : extern).

Lemma qp_dims_inv a b :
  qp_dims a = qp_dims b →
  wq_dims (sq a) = wq_dims (sq b) ∧ max_post (sq a) = max_post (sq b) ∧
  wq_dims (rq a) = wq_dims (rq b) ∧ buf_size a = buf_size b ∧
  sq_buf_size a = sq_buf_size b ∧
  max_inline_data_qp a = max_inline_data_qp b ∧ flags a = flags b ∧
  dc_type a = dc_type b ∧ rss_qp a = rss_qp b.
Proof.
  unfold qp_dims. intros [=].
  repeat split; try assumption; unfold wq_dims; congruence.
Qed.

Lemma wq_dims_inv a b :
  wq_dims a = wq_dims b →
  wqe_cnt a = wqe_cnt b ∧ wqe_shift a = wqe_shift b ∧ max_gs a = max_gs b ∧
  offset a = offset b.
Proof. unfold wq_dims. intros [=]. repeat split; assumption. Qed.

(** [keeps g H]: the step of [H] leaves [g] of the state alone. *)
Ltac keeps g H :=
  match type of H with
  | ?m ?s = Some (_, ?s') =>
      let K := fresh "K" in
      assert (K : g s' = g s);
      [ refine ((_ : preserves g m) _ _ _ H);
        unfold mlx5_alloc_dbrec, db_write, mlx5_store_uidx, mlx5_store_qp,
          to_mparent_domain, ibv_cmd_create_qp, pd_refcount_add;
        frame | ]
  end.


Lemma alloc_qp_buf_ok attr q s q3 s3 :
  mlx5_alloc_qp_buf F X attr q s = Some ((0, q3), s3) →
  qp_dims q3 = qp_dims q ∧ max_post (rq q3) = max_post (rq q) ∧
  is_Some (buf q3) ∧
  (if separate_sq F attr q then is_Some (sq_buf q3)
   else sq_buf q3 = sq_buf q) ∧
  trace s3 =
    trace s ++
    EvAllocBuf (align (C.to_ulong (buf_size q)) (C.to_ulong (page_size (ctx s))))
               (C.to_ulong (page_size (ctx s)))
    :: (if separate_sq F attr q
        then [EvAllocBuf (align (C.to_ulong (sq_buf_size q))
                                (C.to_ulong (page_size (ctx s))))
                         (C.to_ulong (page_size (ctx s)))]
        else []) ∧
  (if separate_sq F attr q
   then ∃ b, sq_buf q3 = Some b ∧
          bufs s3 !! b =
            Some (align (C.to_ulong (sq_buf_size q))
                        (C.to_ulong (page_size (ctx s))),
                  C.to_ulong (page_size (ctx s)))
   else ∃ b, buf q3 = Some b ∧
          bufs s3 !! b =
            Some (align (C.to_ulong (buf_size q))
                        (C.to_ulong (page_size (ctx s))),
                  C.to_ulong (page_size (ctx s)))).
Proof.
  intros H. unfold mlx5_alloc_qp_buf in H. cbv zeta in H.
  repeat match type of H with
  | (if ?b then bind (set_err _) _ else _) _ = _ =>
      destruct b; [dead H|]
  end.
  apply bind_inv in H as (c & s1 & Hc & H).
  unfold get_ctx in Hc. msimpl_in Hc. simplify_eq.
  apply bind_inv in H as (b & s2 & Hb & H).
  unfold mlx5_alloc_prefered_buf in Hb. msimpl_in Hb.
  destruct (x_alloc_buf X) as [b1|] eqn:Hx1; simplify_eq.
  unfold separate_sq in *.
  cbn [flags set_buf set_rq set_sq qp_type] in H.
  destruct (_ || _) eqn:Hsep.
  - apply bind_inv in H as (sb & s3' & Hsb & H).
    unfold mlx5_alloc_prefered_buf in Hsb. msimpl_in Hsb.
    destruct (x_alloc_sq_buf X) as [b2|] eqn:Hx2; simplify_eq.
    unfold ret in H. simplify_eq. cbn.
    rewrite <- app_assoc. repeat split; eauto.
    eexists. split; [reflexivity|apply lookup_insert_eq].
  - unfold ret in H. simplify_eq. cbn. repeat split; eauto.
    eexists. split; [reflexivity|apply lookup_insert_eq].
Qed.

Lemma ibv_cmd_create_qp_ok c attr q s q' s' :
  ibv_cmd_create_qp X c attr q s = Some ((0, q'), s') →
  qp_dims q' = qp_dims q ∧ max_post (rq q') = max_post (rq q) ∧
  buf q' = buf q ∧ sq_buf q' = sq_buf q ∧ ibqp_srq q' = attr_srq attr ∧
  ibqp_send_cq q' = attr_send_cq attr ∧ ibqp_recv_cq q' = attr_recv_cq attr.
Proof.
  unfold ibv_cmd_create_qp. intros H.
  apply bind_inv in H as ([] & s1 & _ & H).
  destruct (Z.eqb_spec (x_cmd_create_qp X) 0) as [E|E]; cbn [negb] in H;
    unfold ret in H; simplify_eq.
  repeat split; reflexivity.
Qed.

(** What a QP that [create_qp] built with work queues looks like. *)
Lemma create_qp_wq_created attr p qp fl s p' attr' s' :
  create_qp_wq L F mlx5_ilog2 X attr p qp fl s = Some ((Some p', attr'), s') →
  ∃ ret_ attr1 qp1 qpf,
    mlx5_calc_wq_size L F mlx5_ilog2 (ctx s) attr
      (set_wq_sig (x_qp_signature X) qp) = Some (ret_, attr1, qp1) ∧
    0 ≤ ret_ ∧ p' = p ∧ qps s' !! p = Some qpf ∧
    qp_dims qpf = qp_dims (split_queues F attr1 qp1 ret_) ∧
    max_post (rq qpf) = wqe_cnt (rq qp1) ∧
    is_Some (buf qpf) ∧
    (let pg := C.to_ulong (page_size (ctx s)) in
     let q := split_queues F attr1 qp1 ret_ in
     if separate_sq F attr1 qp1 then
       ∃ b, sq_buf qpf = Some b ∧
            bufs s' !! b = Some (align (C.to_ulong (sq_buf_size q)) pg, pg)
     else
       sq_buf qpf = sq_buf qp1 ∧
       ∃ b, buf qpf = Some b ∧
            bufs s' !! b = Some (align (C.to_ulong (buf_size q)) pg, pg)) ∧
    attr' = set_cap_depths attr1 (max_post (sq qp1)) (wqe_cnt (rq qp1))
              (C.to_uint (max_gs (rq qp1))).
Proof.
  intros H. unfold create_qp_wq in H. cbv zeta in H.
  apply bind_inv in H as (c & s1 & Hc & H).
  unfold get_ctx in Hc. msimpl_in Hc. simplify_eq.
  apply bind_inv in H as ([[ret_ attr1] qp1] & s2 & Hsz & H).
  destruct (mlx5_calc_wq_size _ _ _ _ _ _) as [sized|] eqn:Hsized; [|done].
  cbn in Hsz. unfold ret in Hsz. simplify_eq.
  destruct (Z.ltb_spec ret_ 0) as [?|Hret]; [dead H|].
  apply bind_inv in H as ([err qp3] & s3 & Halloc & H).
  destruct (Z.eqb_spec err 0) as [->|?]; [|dead H]. cbn [negb] in H.
  destruct (alloc_qp_buf_ok _ _ _ _ _ Halloc) as (Hd3 & Hp3 & Hb3 & Hsb3 & _ & Hbufs3).
  assert (Hsep3 : separate_sq F attr1 qp3 = separate_sq F attr1 qp1).
  { unfold separate_sq. f_equal. f_equal.
    assert (Hf : flags qp3 = flags (split_queues F attr1 qp1 ret_))
      by (apply qp_dims_inv in Hd3; tauto).
    rewrite Hf. unfold split_queues.
    destruct (separate_sq F attr1 qp1); reflexivity. }
  assert (Hsepq : separate_sq F attr1 (split_queues F attr1 qp1 ret_)
                  = separate_sq F attr1 qp1).
  { unfold separate_sq at 1. unfold split_queues.
    destruct (separate_sq F attr1 qp1) eqn:E; exact E. }
  rewrite Hsepq in Hsb3, Hbufs3.
  match type of H with
  | context [mlx5_init_qp_indices ?q] =>
      set (qp4 := mlx5_init_qp_indices q) in *
  end.
  assert (H4 : qp_dims qp4 = qp_dims qp3 ∧ max_post (rq qp4) = max_post (rq qp3)
               ∧ buf qp4 = buf qp3 ∧ sq_buf qp4 = sq_buf qp3).
  { unfold qp4. rewrite Hsep3. by destruct (separate_sq F attr1 qp1). }
  clearbody qp4.
  destruct (_ || _); [dead H|].
  apply bind_inv in H as (d & s4 & Hdb & H).
  destruct d as [d|]; [|dead H].
  apply bind_inv in H as ([] & s5 & Hw1 & H).
  apply bind_inv in H as ([] & s6 & Hw2 & H).
  match type of H with
  | context [ibv_cmd_create_qp _ _ _ ?q] => set (qp5 := q) in *
  end.
  assert (H5 : qp_dims qp5 = qp_dims qp4 ∧ max_post (rq qp5) = max_post (rq qp4)
               ∧ buf qp5 = buf qp4 ∧ sq_buf qp5 = sq_buf qp4).
  { unfold qp5. destruct (atomic_cap_hca _); repeat split; reflexivity. }
  clearbody qp5.
  apply bind_inv in H as (usr_idx & s7 & Hidx & H).
  destruct (usr_idx <? 0); [dead H|].
  apply bind_inv in H as (mparent & s8 & Hmp & H).
  apply bind_inv in H as (dyn_bf & s9 & Hdyn & H).
  apply bind_inv in H as (bfreg_index & s10 & Hbfi & H).
  apply bind_inv in H as ([ret2 qp6] & s11 & Hk & H).
  destruct (Z.eqb_spec ret2 0) as [->|?]; [|dead H]. cbn [negb] in H.
  apply bind_inv in H as (stored & s12 & Hst & H).
  destruct (negb (stored =? 0)); [dead H|].
  apply bind_inv in H as ([] & s13 & Hul & H).
  apply bind_inv in H as ([] & s14 & Hrc & H).
  apply bind_inv in H as ([] & s15 & Hput & H).
  assert (Hbufs : bufs s15 = bufs s3).
  { keeps bufs Hdb. keeps bufs Hw1. keeps bufs Hw2. keeps bufs Hidx.
    keeps bufs Hmp. keeps bufs Hdyn. keeps bufs Hbfi. keeps bufs Hk.
    keeps bufs Hst. keeps bufs Hul. keeps bufs Hrc. keeps bufs Hput.
    congruence. }
  apply ibv_cmd_create_qp_ok in Hk as (H6 & Hp6 & Hb6 & Hsb6 & _).
  unfold ret in H. unfold put_qp, modify in Hput.
  injection Hput as <-. injection H as <- <- <-.
  destruct H4 as (H4 & Hp4 & Hb4 & Hsb4). destruct H5 as (H5 & Hp5 & Hb5 & Hsb5).
  eexists _, _, _, _. split; [reflexivity|]. split; [done|]. split; [done|].
  split; [cbn; apply lookup_insert_eq|]. cbn [bufs set_qps] in Hbufs.
  assert (Hchain : qp_dims qp6 = qp_dims (split_queues F attr1 qp1 ret_))
    by congruence.
  assert (Hrqs : rq (split_queues F attr1 qp1 ret_) = rq qp1)
    by (unfold split_queues; destruct (separate_sq F attr1 qp1); reflexivity).
  assert (Hmps : max_post (sq (split_queues F attr1 qp1 ret_))
                 = max_post (sq qp1))
    by (unfold split_queues; destruct (separate_sq F attr1 qp1); reflexivity).
  assert (Hsbs : sq_buf (split_queues F attr1 qp1 ret_) = sq_buf qp1)
    by (unfold split_queues; destruct (separate_sq F attr1 qp1); reflexivity).
  pose proof (qp_dims_inv _ _ Hchain) as (_ & Hmpost & Hrq & _).
  apply wq_dims_inv in Hrq as (Hcnt & _ & Hgs & _).
  rewrite Hrqs in Hcnt, Hgs. rewrite Hmps in Hmpost.
  split; [etrans; [|exact Hchain]; reflexivity|].
  split; [exact Hcnt|].
  split; [change (is_Some (buf qp6)); congruence|].
  split; [|congruence].
  cbv zeta. cbn [bufs set_qps].
  change (if separate_sq F attr1 qp1
          then ∃ b, sq_buf qp6 = Some b ∧
                 bufs s14 !! b =
                   Some (align (C.to_ulong (sq_buf_size
                                  (split_queues F attr1 qp1 ret_)))
                           (C.to_ulong (page_size (ctx s2))),
                         C.to_ulong (page_size (ctx s2)))
          else sq_buf qp6 = sq_buf qp1 ∧
               ∃ b, buf qp6 = Some b ∧
                 bufs s14 !! b =
                   Some (align (C.to_ulong (buf_size
                                  (split_queues F attr1 qp1 ret_)))
                           (C.to_ulong (page_size (ctx s2))),
                         C.to_ulong (page_size (ctx s2)))).
  rewrite Hbufs.
  destruct (separate_sq F attr1 qp1).
  - destruct Hbufs3 as (b & Hb & Hl). exists b. split; [congruence|exact Hl].
  - split; [congruence|].
    destruct Hbufs3 as (b & Hb & Hl). exists b. split; [congruence|exact Hl].
Qed.

(** A request that the sizing engine refuses creates nothing: [errno] takes
    the code and the state is otherwise as before. *)
Lemma create_qp_wq_rejects attr p qp fl s r attr1 qp1 :
  mlx5_calc_wq_size L F mlx5_ilog2 (ctx s) attr
    (set_wq_sig (x_qp_signature X) qp) = Some (r, attr1, qp1) →
  r < 0 →
  create_qp_wq L F mlx5_ilog2 X attr p qp fl s
    = Some ((None, attr1), set_errno (- r) s).
Proof.
  intros Hsz Hr. unfold create_qp_wq. cbv zeta.
  unfold get_ctx. msimpl. rewrite Hsz.
  destruct (Z.ltb_spec r 0); [reflexivity|lia].
Qed.

Lemma calc_wq_size_rejects ctx attr qp r attr1 qp1 :
  mlx5_calc_sq_size L F mlx5_ilog2 ctx attr qp = Some (r, attr1, qp1) →
  r < 0 →
  mlx5_calc_wq_size L F mlx5_ilog2 ctx attr qp = Some (r, attr1, qp1).
Proof.
  intros Hsq Hr. unfold mlx5_calc_wq_size. rewrite Hsq.
  cbn [mbind option_bind]. cbn.
  destruct (Z.ltb_spec r 0); [reflexivity|lia].
Qed.

(** A QP built with work queues, in terms of the two sizing calls. *)
Lemma create_qp_wq_sized attr p qp fl s p' attr' s' :
  create_qp_wq L F mlx5_ilog2 X attr p qp fl s = Some ((Some p', attr'), s') →
  ∃ sq_bytes attr1 qpa rq_bytes qpb q,
    mlx5_calc_sq_size L F mlx5_ilog2 (ctx s) attr
      (set_wq_sig (x_qp_signature X) qp) = Some (sq_bytes, attr1, qpa) ∧
    mlx5_calc_rq_size L mlx5_ilog2 (ctx s) attr1 qpa = Some (rq_bytes, qpb) ∧
    0 ≤ sq_bytes ∧ 0 ≤ rq_bytes ∧
    p' = p ∧ qps s' !! p = Some q ∧
    separate_sq F attr q = separate_sq F attr qp ∧
    (wqe_cnt (sq q) = wqe_cnt (sq qpa) ∧ max_post (sq q) = max_post (sq qpa) ∧
     max_gs (sq q) = max_gs (sq qpa)) ∧
    (wqe_cnt (rq q) = wqe_cnt (rq qpb) ∧ wqe_shift (rq q) = wqe_shift (rq qpb) ∧
     max_gs (rq q) = max_gs (rq qpb) ∧ max_post (rq q) = wqe_cnt (rq qpb) ∧
     offset (rq q) = 0) ∧
    max_inline_data_qp q = max_inline_data_qp qpa ∧
    is_Some (buf q) ∧
    (let pg := C.to_ulong (page_size (ctx s)) in
     if separate_sq F attr qp then
       buf_size q = rq_bytes ∧ sq_buf_size q = sq_bytes ∧ offset (sq q) = 0 ∧
       ∃ b, sq_buf q = Some b ∧
            bufs s' !! b = Some (align (C.to_ulong sq_bytes) pg, pg)
     else
       buf_size q = rq_bytes + sq_bytes ∧ sq_buf_size q = 0 ∧
       offset (sq q) = rq_bytes ∧ sq_buf q = sq_buf qp ∧
       ∃ b, buf q = Some b ∧
            bufs s' !! b =
              Some (align (C.to_ulong (rq_bytes + sq_bytes)) pg, pg)) ∧
    attr' = set_cap_depths attr1 (max_post (sq qpa)) (wqe_cnt (rq qpb))
              (C.to_uint (max_gs (rq qpb))).
Proof.
  intros H.
  apply create_qp_wq_created in H
    as (ret_ & attr1 & qp1 & q & Hwq & Hret & -> & Hq & Hdims & Hpost & Hbuf
        & Hbufs & ->).
  apply calc_wq_size_accept in Hwq
    as (sqb & qpa & rqb & qpb & Hsq & Hrq & Hsq0 & Hrq0 & -> & Hqp1);
    [|exact Hret].
  pose proof (calc_sq_size_frame _ _ _ _ _ _ _ _ _ Hsq)
    as (Hsq31 & Hattr & _ & Hfla & _ & _ & _ & Hsba & _).
  pose proof (calc_rq_size_frame _ _ _ _ _ _ _ Hrq)
    as (_ & Hsqb & Hflb & _ & _ & Hinl & _ & Hsbb).
  change (sq_buf qpa = sq_buf qp) in Hsba.
  assert (Hty : qp_type attr1 = qp_type attr)
    by (unfold attr_but_inline in Hattr; congruence).
  change (flags qpa = flags qp) in Hfla.
  assert (Hfl1 : flags qp1 = flags qp) by (subst qp1; cbn; congruence).
  assert (Hsep : separate_sq F attr1 qp1 = separate_sq F attr qp)
    by (unfold separate_sq; rewrite Hty, Hfl1; reflexivity).
  pose proof (qp_dims_inv _ _ Hdims)
    as (Hdsq & Hmpsq & Hdrq & Hbsz & Hsbsz & Hinlq & Hflq & _).
  apply wq_dims_inv in Hdsq as (Hsqcnt & _ & Hsqgs & Hsqoff).
  apply wq_dims_inv in Hdrq as (Hrqcnt & Hrqsh & Hrqgs & Hrqoff).
  assert (Hsepq : separate_sq F attr q = separate_sq F attr qp).
  { unfold separate_sq. f_equal. f_equal. rewrite Hflq, <- Hfl1.
    unfold split_queues. destruct (separate_sq F attr1 qp1); reflexivity. }
  cbv zeta in Hbufs. unfold split_queues in *. rewrite Hsep in *.
  exists sqb, attr1, qpa, rqb, qpb, q.
  split; [exact Hsq|]. split; [exact Hrq|]. split; [exact Hsq0|].
  split; [exact Hrq0|]. split; [reflexivity|]. split; [exact Hq|].
  split; [exact Hsepq|].
  assert (Hto : C.to_int (sqb + rqb - rqb) = sqb)
    by (rewrite Z.add_simpl_r; apply to_int_id; lia).
  subst qp1.
  destruct (separate_sq F attr qp);
    cbn [sq rq set_sq set_rq set_offset set_buf_size set_sq_buf_size
         wqe_cnt wqe_shift max_gs max_post offset buf_size sq_buf_size
         max_inline_data_qp sq_buf] in *.
  - rewrite Hto in *. rewrite Hsqb in *.
    repeat split; try assumption; try congruence; try lia.
  - rewrite Hsqb in *.
    destruct Hbufs as (Hsbq & b & Hb & Hl).
    replace (rqb + sqb) with (sqb + rqb) by lia.
    repeat split; try assumption; try congruence; try lia.
    exists b. done.
Qed.

Lemma rss_qp_created attr q fl s q' s' :
  mlx5_cmd_create_rss_qp X attr q fl s = Some ((0, q'), s') →
  qp_bare q → qp_bare q' ∧ rss_qp q' = true.
Proof.
  unfold mlx5_cmd_create_rss_qp. intros H Hq.
  destruct (negb (x_rx_hash_key_fits X)).
  { apply bind_inv in H as ([] & s1 & _ & H). unfold ret in H.
    unfold C.EINVAL in H. simplify_eq. }
  apply bind_inv in H as ([r q1] & s1 & Hk & H).
  destruct (Z.eqb_spec r 0) as [->|?]; cbn [negb] in H; unfold ret in H;
    [|simplify_eq].
  injection H as <- <-.
  unfold ibv_cmd_create_qp in Hk.
  apply bind_inv in Hk as ([] & s2 & _ & Hk).
  destruct (Z.eqb_spec (x_cmd_create_qp X) 0) as [E|E]; cbn [negb] in Hk;
    unfold ret in Hk; [|simplify_eq].
  injection Hk as <- <-. split; [exact Hq|reflexivity].
Qed.

Lemma dct_created attr a p q s q' s' :
  create_dct F X attr a p q s = Some ((0, q'), s') →
  qp_bare q → qp_bare q' ∧ dc_type q' = MLX5DV_DCTYPE_DCT.
Proof.
  unfold create_dct. intros H Hq.
  destruct (negb (check_comp_mask (comp_mask attr) _)).
  { apply bind_inv in H as ([] & s1 & _ & H). unfold ret in H.
    unfold C.EINVAL in H. simplify_eq. }
  destruct (negb (check_comp_mask (dv_comp_mask a) _)).
  { apply bind_inv in H as ([] & s1 & _ & H). unfold ret in H.
    unfold C.EINVAL in H. simplify_eq. }
  apply bind_inv in H as (c & s1 & _ & H).
  apply bind_inv in H as (usr_idx & s2 & _ & H).
  destruct (usr_idx <? 0).
  { apply bind_inv in H as ([] & s3 & _ & H). unfold ret in H.
    unfold C.ENOMEM in H. simplify_eq. }
  apply bind_inv in H as ([r q1] & s3 & Hk & H).
  destruct (Z.eqb_spec r 0) as [->|Hr]; cbn [negb] in H.
  - unfold ret in H. injection H as <- <-.
    unfold ibv_cmd_create_qp in Hk.
    apply bind_inv in Hk as ([] & s4 & _ & Hk).
    destruct (Z.eqb_spec (x_cmd_create_qp X) 0) as [E|E]; cbn [negb] in Hk;
      unfold ret in Hk; [|simplify_eq].
    injection Hk as <- <-.
    destruct (negb (cqe_version c =? 0)); split; (exact Hq || reflexivity).
  - apply bind_inv in H as ([] & s4 & _ & H). unfold ret in H. simplify_eq.
Qed.

(** A QP that [create_qp] returned was built with work queues, or it is an
    RSS QP or a DCT and has none. *)
Lemma create_qp_created attr dv s p' attr' s' :
  create_qp L F mlx5_ilog2 X attr dv s = Some ((Some p', attr'), s') →
  (∃ qp0 fl,
     create_qp_wq L F mlx5_ilog2 X attr p' qp0 fl s
       = Some ((Some p', attr'), s') ∧
     qp_bare qp0 ∧
     C.bits (comp_mask attr) (IBV_QP_INIT_ATTR_RX_HASH F) = false)
  ∨ (attr' = attr ∧
     ∃ q, qps s' !! p' = Some q ∧ qp_bare q ∧
          (rss_qp q = true ∨ dc_type q = MLX5DV_DCTYPE_DCT)).
Proof.
  intros H. unfold create_qp in H. cbv zeta in H.
  destruct (C.bits (comp_mask attr) (Z.lnot _)); [dead H|].
  destruct (_ && _); [dead H|].
  destruct (x_calloc X) as [p|]; [|dead H].
  destruct (_ && bool_decide (qp_type attr ≠ IBV_QPT_UD)); [dead H|].
  match type of H with
  | context [create_qp_wq _ _ _ _ _ _ ?q 0] => set (q0 := q) in *
  end.
  assert (Hq0 : qp_bare q0) by (unfold q0; destruct (_ && _); done).
  assert (Hq1 : qp_bare (set_dc_type MLX5DV_DCTYPE_DCI q0)) by exact Hq0.
  clearbody q0.
  assert (Hcase : ∀ q fl, qp_bare q →
    (if C.bits (comp_mask attr) (IBV_QP_INIT_ATTR_RX_HASH F)
     then bind (mlx5_cmd_create_rss_qp X attr q fl)
            (λ '(ret_, qp), if negb (ret_ =? 0) then ret (None, attr)
                            else bind (put_qp p qp)
                                   (λ _, ret (Some p, attr)))
     else create_qp_wq L F mlx5_ilog2 X attr p q fl) s
      = Some ((Some p', attr'), s') →
    (∃ qp0 fl,
       create_qp_wq L F mlx5_ilog2 X attr p' qp0 fl s
         = Some ((Some p', attr'), s') ∧
       qp_bare qp0 ∧
       C.bits (comp_mask attr) (IBV_QP_INIT_ATTR_RX_HASH F) = false)
    ∨ (attr' = attr ∧
       ∃ q, qps s' !! p' = Some q ∧ qp_bare q ∧
            (rss_qp q = true ∨ dc_type q = MLX5DV_DCTYPE_DCT))).
  { intros q fl Hq Hrun.
    destruct (C.bits (comp_mask attr) (IBV_QP_INIT_ATTR_RX_HASH F)) eqn:Hrx.
    - right. apply bind_inv in Hrun as ([r q1] & s1 & Hrss & Hrun).
      destruct (Z.eqb_spec r 0) as [->|?]; cbn [negb] in Hrun;
        [|dead Hrun].
      apply bind_inv in Hrun as ([] & s2 & Hput & Hrun).
      unfold ret in Hrun. unfold put_qp, modify in Hput.
      injection Hput as <-. injection Hrun as <- <- <-.
      destruct (rss_qp_created _ _ _ _ _ _ Hrss Hq) as [Hb Hr].
      split; [done|]. exists q1. split; [cbn; apply lookup_insert_eq|].
      split; [exact Hb|by left].
    - left.
      pose proof (create_qp_wq_created _ _ _ _ _ _ _ _ Hrun)
        as (? & ? & ? & ? & _ & _ & -> & _).
      exists q, fl. done. }
  destruct dv as [a|].
  - destruct (negb (check_comp_mask _ _)); [dead H|].
    destruct (_ && bool_decide (qp_type attr ≠ IBV_QPT_DRIVER)); [dead H|].
    destruct (_ && negb _); [dead H|].
    destruct (bool_decide (qp_type attr = IBV_QPT_DRIVER)).
    + destruct (C.bits (dv_comp_mask a) (MLX5DV_QP_INIT_ATTR_MASK_DC F));
        [|dead H].
      destruct (dv_dc_type a) as [| | |v]; [dead H| |exact (Hcase _ _ Hq1 H)|dead H].
      right. apply bind_inv in H as ([r q1] & s1 & Hdct & H).
      destruct (Z.eqb_spec r 0) as [->|?]; cbn [negb] in H; [|dead H].
      apply bind_inv in H as ([] & s2 & Hput & H).
      unfold ret in H. unfold put_qp, modify in Hput.
      injection Hput as <-. injection H as <- <- <-.
      destruct (dct_created _ _ _ _ _ _ _ Hdct Hq0) as [Hb Hr].
      split; [done|]. exists q1. split; [cbn; apply lookup_insert_eq|].
      split; [exact Hb|by right].
    + exact (Hcase _ _ Hq0 H).
  - destruct (bool_decide (qp_type attr = IBV_QPT_DRIVER)); [dead H|].
    exact (Hcase _ _ Hq0 H).
Qed.

End QpCreateFacts.

(** ** Events of a computation *)

Lemma silent_bind {A B} w (m : M A) (f : A → M B) :
  silent w m → (∀ x, silent w (f x)) → silent w (bind m f).
Proof.
  intros Hm Hf s y s' H. apply bind_inv in H as (x & s1 & H1 & H2).
  destruct (Hm _ _ _ H1) as (t1 & E1 & F1).
  destruct (Hf _ _ _ _ H2) as (t2 & E2 & F2).
  exists (t1 ++ t2). rewrite E2, E1, <- app_assoc. split; [done|].
  rewrite List.filter_app, F1, F2. done.
Qed.

Lemma silent_ret {A} w (x : A) : silent w (ret x).
Proof. intros s y s' [= _ <-]. exists []. by rewrite app_nil_r. Qed.

Lemma silent_undefined {A} w : silent w (@undefined A).
Proof. intros s y s' [=]. Qed.

Lemma silent_lift {A} w (o : option A) : silent w (lift o).
Proof. destruct o; [apply silent_ret|apply silent_undefined]. Qed.

Lemma silent_get w : silent w get.
Proof. intros s y s' [= _ <-]. exists []. by rewrite app_nil_r. Qed.

Lemma silent_modify w f :
  (∀ s, trace (f s) = trace s) → silent w (modify f).
Proof.
  intros Hf s y s' [= _ <-]. exists []. by rewrite app_nil_r, Hf.
Qed.

Lemma silent_log w e : w e = false → silent w (log e).
Proof.
  intros He s y s' [= _ <-]. exists [e]. split; [done|].
  cbn. by rewrite He.
Qed.

Lemma silent_when w b m : silent w m → silent w (when b m).
Proof. destruct b; [done|]. intros _. apply silent_ret. Qed.

Lemma silent_with_ctx {A} w
    (f : mlx5_context → option (A * mlx5_context)) : silent w (with_ctx f).
Proof.
  intros s x s' H. unfold with_ctx in H.
  destruct (f (ctx s)) as [[y c]|]; [|done]. simplify_eq.
  exists []. by rewrite app_nil_r.
Qed.

(** Splits a goal on events along the structure of the computation. *)
Ltac silence_step :=
  lazymatch goal with
  | |- silent _ (bind _ _) => apply silent_bind; [|intros ?]
  | |- silent _ (ret _) => apply silent_ret
  | |- silent _ undefined => apply silent_undefined
  | |- silent _ (lift _) => apply silent_lift
  | |- silent _ get => apply silent_get
  | |- silent _ (when _ _) => apply silent_when
  | |- silent _ (log _) => apply silent_log; reflexivity
  | |- silent _ (modify _) =>
      apply silent_modify; intros ?; try reflexivity
  | |- silent _ (with_ctx _) => apply silent_with_ctx
  | |- silent _ (if ?b then _ else _) => destruct b
  | |- silent _ (match ?o with _ => _ end) => destruct o
  | |- silent _ (let '(_, _) := ?p in _) => destruct p
  end.

Ltac silence :=
  repeat (first
    [ silence_step
    | progress unfold get_ctx, put_ctx, get_qp, put_qp, get_cq, put_cq,
        get_srq, put_srq, get_td, get_pd, set_err, mutex_lock,
        mutex_unlock, free_qp, free_srq, mlx5_clear_qp, mlx5_clear_srq,
        mlx5_clear_uidx, mlx5_free_db, mlx5_free_actual_buf,
        mlx5_free_qp_buf, to_mparent_domain, pd_refcount_add, db_write,
        mlx5_lock_cqs, mlx5_unlock_cqs, mlx5_cq_clean, mlx5_spin_lock,
        mlx5_spin_unlock, __mlx5_cq_clean, ibv_cmd_destroy_qp,
        ibv_cmd_destroy_srq ]).

(** [says w H]: the step of [H] adds no event that passes [w]. *)
Ltac says w H :=
  match type of H with
  | ?m ?s = Some (_, ?s') =>
      let K := fresh "T" in
      assert (K : ∃ t, trace s' = trace s ++ t ∧ List.filter w t = []);
      [ refine ((_ : silent w m) _ _ _ H); silence | ]
  end.

(** [same g H]: the step of [H] leaves [g] of the state alone. *)
Ltac same g H :=
  match type of H with
  | ?m ?s = Some (_, ?s') =>
      let K := fresh "K" in
      assert (K : g s' = g s);
      [ refine ((_ : preserves g m) _ _ _ H);
        repeat (first
          [ frame_step
          | progress unfold get_ctx, put_ctx, get_qp, put_qp, get_cq,
              put_cq, get_srq, put_srq, get_td, get_pd, log, set_err,
              mutex_lock, mutex_unlock, free_qp, free_srq, mlx5_clear_qp,
              mlx5_clear_srq, mlx5_clear_uidx, mlx5_free_db,
              mlx5_free_qp_buf, mlx5_free_actual_buf, to_mparent_domain,
              pd_refcount_add, db_write, ibv_cmd_destroy_qp,
              ibv_cmd_destroy_srq, mlx5_lock_cqs, mlx5_unlock_cqs,
              mlx5_cq_clean, mlx5_spin_lock, mlx5_spin_unlock,
              __mlx5_cq_clean ]) | ]
  end.

(** ** CQ locks and scavenging *)

Lemma contents_relock s k c b :
  cqs s !! k = Some c →
  cqes <$> <[k := set_cq_lock b c]> (cqs s) = contents s.
Proof.
  intros Hk. unfold contents. rewrite fmap_insert.
  apply insert_id. rewrite lookup_fmap, Hk. reflexivity.
Qed.

Lemma spin_lock_run k s x s' :
  mlx5_spin_lock k s = Some (x, s') →
  contents s' = contents s ∧ trace s' = trace s ++ [EvSpinLock k] ∧
  (∀ j c, cqs s !! j = Some c →
     ∃ c', cqs s' !! j = Some c' ∧ cqn c' = cqn c).
Proof.
  unfold mlx5_spin_lock, get_cq. intros H. msimpl_in H.
  destruct (cqs s !! k) as [c|] eqn:Hk; [|done]. cbn in H.
  destruct (cq_lock c); [done|]. simplify_eq. cbn.
  split; [by eapply contents_relock|]. split; [done|].
  intros j c' Hj. destruct (decide (j = k)) as [->|Hne].
  - rewrite lookup_insert_eq. simplify_eq. eauto.
  - rewrite lookup_insert_ne by done. eauto.
Qed.

Lemma spin_unlock_run k s x s' :
  mlx5_spin_unlock k s = Some (x, s') →
  contents s' = contents s ∧ trace s' = trace s ++ [EvSpinUnlock k].
Proof.
  unfold mlx5_spin_unlock, get_cq. intros H. msimpl_in H.
  destruct (cqs s !! k) as [c|] eqn:Hk; [|done]. cbn in H.
  simplify_eq. cbn. split; [by eapply contents_relock|done].
Qed.

Lemma cq_clean_run cq rsn srq s x s' :
  __mlx5_cq_clean cq rsn srq s = Some (x, s') →
  contents s' = scavenged rsn srq cq (contents s) ∧
  trace s' = trace s ++ [EvCqClean cq rsn srq].
Proof.
  unfold __mlx5_cq_clean, get_cq. intros H. msimpl_in H.
  destruct cq as [k|]; cbn in H; [|by simplify_eq].
  destruct (cqs s !! k) as [c|] eqn:Hk; [|done]. cbn in H.
  simplify_eq. cbn. split; [|done].
  unfold contents. rewrite fmap_insert. cbn.
  apply map_eq. intros j. destruct (decide (j = k)) as [->|Hne].
  - rewrite lookup_insert_eq, lookup_alter_eq, lookup_fmap, Hk. done.
  - rewrite lookup_insert_ne, lookup_alter_ne by done. done.
Qed.

Lemma delta_refl s : delta s s [].
Proof. exists []. by rewrite app_nil_r. Qed.

Lemma delta_trans s s1 s2 W1 W2 :
  delta s s1 W1 → delta s1 s2 W2 → delta s s2 (W1 ++ W2).
Proof.
  intros (t1 & E1 & F1) (t2 & E2 & F2). exists (t1 ++ t2).
  rewrite E2, E1, <- app_assoc. split; [done|].
  unfold watch in *. by rewrite List.filter_app, F1, F2.
Qed.

Lemma delta_quiet s s1 s2 W :
  delta s s1 W → delta s1 s2 [] → delta s s2 W.
Proof. intros H1 H2. rewrite <- (app_nil_r W). by eapply delta_trans. Qed.

Lemma watch_locks ks : watch (map EvSpinLock ks) = map EvSpinLock ks.
Proof.
  unfold watch. induction ks as [|k ks IH]; [done|]. cbn. by rewrite IH.
Qed.

Lemma lock_cqs_run q s x s' :
  mlx5_lock_cqs q s = Some (x, s') →
  contents s' = contents s ∧
  ∃ ks, trace s' = trace s ++ map EvSpinLock ks ∧ lock_order s q ks.
Proof.
  unfold mlx5_lock_cqs, lock_order. intros H.
  destruct (ibqp_send_cq q) as [sc|], (ibqp_recv_cq q) as [rc|].
  - destruct (bool_decide (sc = rc)).
    { apply spin_lock_run in H as (Hc & Ht & _). split; [done|].
      by exists [sc]. }
    apply bind_inv in H as (cs & s1 & Hs & H).
    apply bind_inv in H as (cr & s2 & Hr & H).
    unfold get_cq in Hs, Hr. msimpl_in Hs. msimpl_in Hr.
    destruct (cqs s !! sc) as [cs'|] eqn:Esc; [|done]. cbn in Hs.
    simplify_eq.
    destruct (cqs s1 !! rc) as [cr'|] eqn:Erc; [|done]. cbn in Hr.
    simplify_eq.
    destruct (Z.ltb_spec (cqn cs) (cqn cr)) as [Hlt|Hge];
      apply bind_inv in H as ([] & s3 & H1 & H2);
      apply spin_lock_run in H1 as (Hc1 & Ht1 & _);
      apply spin_lock_run in H2 as (Hc2 & Ht2 & _);
      (split; [congruence|]).
    + exists [sc; rc]. split; [rewrite Ht2, Ht1, <- app_assoc; done|].
      exists sc, rc, cs, cr. split; [done|]. split; [by left|].
      repeat split; (done || lia).
    + exists [rc; sc]. split; [rewrite Ht2, Ht1, <- app_assoc; done|].
      exists rc, sc, cr, cs. split; [done|]. split; [by right|].
      repeat split; (done || lia).
  - apply spin_lock_run in H as (Hc & Ht & _). split; [done|]. by exists [sc].
  - apply spin_lock_run in H as (Hc & Ht & _). split; [done|]. by exists [rc].
  - unfold ret in H. simplify_eq. split; [done|]. exists [].
    by rewrite app_nil_r.
Qed.

Lemma unlock_cqs_run q s x s' :
  mlx5_unlock_cqs q s = Some (x, s') →
  contents s' = contents s ∧ delta s s' [].
Proof.
  assert (Hone : ∀ k s x s', mlx5_spin_unlock k s = Some (x, s') →
            contents s' = contents s ∧ delta s s' []).
  { intros k s0 x0 s0' H0. apply spin_unlock_run in H0 as (Hc & Ht).
    split; [done|]. by exists [EvSpinUnlock k]. }
  assert (Htwo : ∀ a b s x s',
            (mlx5_spin_unlock a ;;; mlx5_spin_unlock b) s = Some (x, s') →
            contents s' = contents s ∧ delta s s' []).
  { intros a b s0 x0 s0' H0. apply bind_inv in H0 as ([] & s1 & H1 & H2).
    apply Hone in H1 as (Hc1 & Hd1). apply Hone in H2 as (Hc2 & Hd2).
    split; [congruence|]. by eapply delta_quiet. }
  unfold mlx5_unlock_cqs. intros H.
  destruct (ibqp_send_cq q) as [sc|], (ibqp_recv_cq q) as [rc|]; eauto.
  - destruct (bool_decide (sc = rc)); [eauto|].
    apply bind_inv in H as (cs & s1 & Hs & H).
    apply bind_inv in H as (cr & s2 & Hr & H).
    unfold get_cq in Hs, Hr. msimpl_in Hs. msimpl_in Hr.
    destruct (cqs s !! sc) as [cs'|] eqn:Esc; [|done]. cbn in Hs.
    simplify_eq.
    destruct (cqs s1 !! rc) as [cr'|] eqn:Erc; [|done]. cbn in Hr.
    simplify_eq.
    destruct (cqn cs <? cqn cr); eauto.
  - unfold ret in H. simplify_eq. split; [done|apply delta_refl].
Qed.

(** ** Calls that return *)

Lemma total_bind {A B} (m : M A) (f : A → M B) :
  total m → (∀ x, total (f x)) → total (bind m f).
Proof.
  intros Hm Hf s. unfold bind. destruct (Hm s) as [[x s1] ->]. apply Hf.
Qed.

Lemma total_ret {A} (x : A) : total (ret x).
Proof. intros s. by eexists. Qed.

Lemma total_get : total get.
Proof. intros s. by eexists. Qed.

Lemma total_modify f : total (modify f).
Proof. intros s. by eexists. Qed.

Lemma total_when b m : total m → total (when b m).
Proof. destruct b; [done|]. intros _. apply total_ret. Qed.

Ltac total_step :=
  lazymatch goal with
  | |- total (bind _ _) => apply total_bind; [|intros ?]
  | |- total (ret _) => apply total_ret
  | |- total get => apply total_get
  | |- total (when _ _) => apply total_when
  | |- total (modify _) => apply total_modify
  | |- total (if ?b then _ else _) => destruct b
  | |- total (match ?o with _ => _ end) => destruct o
  end.

Ltac totality :=
  repeat (first
    [ total_step
    | progress unfold get_ctx, put_ctx, put_qp, put_cq, put_srq, log,
        set_err, mutex_lock, mutex_unlock, free_qp, free_srq,
        mlx5_clear_qp, mlx5_clear_srq, mlx5_clear_uidx, mlx5_free_db,
        mlx5_free_qp_buf, mlx5_free_actual_buf, ibv_cmd_destroy_qp,
        ibv_cmd_destroy_srq ]).

(** [runs m s H x s']: [m] is total; [H] is its run from [s]. *)
Ltac runs m s H x s' :=
  assert (H : is_Some (m s)) by (refine ((_ : total m) s); totality);
  destruct H as [[x s'] H].

Lemma spin_lock_returns k c s :
  cqs s !! k = Some c → cq_lock c = false →
  ∃ s', mlx5_spin_lock k s = Some (tt, s') ∧
        cqs s' = <[k := set_cq_lock true c]> (cqs s).
Proof.
  intros Hk Hl. unfold mlx5_spin_lock, get_cq. msimpl. rewrite Hk. cbn.
  rewrite Hl. eexists. split; reflexivity.
Qed.

Lemma spin_unlock_returns k c s :
  cqs s !! k = Some c →
  ∃ s', mlx5_spin_unlock k s = Some (tt, s') ∧
        cqs s' = <[k := set_cq_lock false c]> (cqs s).
Proof.
  intros Hk. unfold mlx5_spin_unlock, get_cq. msimpl. rewrite Hk. cbn.
  eexists. split; reflexivity.
Qed.

Lemma cq_clean_returns cq rsn srq s :
  (∀ k, cq = Some k → is_Some (cqs s !! k)) →
  ∃ s', __mlx5_cq_clean cq rsn srq s = Some (tt, s') ∧
        ∀ k, is_Some (cqs s !! k) → is_Some (cqs s' !! k).
Proof.
  intros Hcq. unfold __mlx5_cq_clean, get_cq. msimpl.
  destruct cq as [k|]; cbn.
  - destruct (Hcq k eq_refl) as [c Hk]. rewrite Hk. cbn.
    eexists. split; [reflexivity|]. cbn. intros j Hj.
    destruct (decide (j = k)) as [->|Hne].
    + rewrite lookup_insert_eq. by eexists.
    + by rewrite lookup_insert_ne.
  - eexists. split; [reflexivity|]. done.
Qed.

Lemma alive_insert (m : gmap nat mlx5_cq) k c j :
  is_Some (m !! j) → is_Some (<[k := c]> m !! j).
Proof.
  intros Hj. destruct (decide (j = k)) as [->|Hne].
  - rewrite lookup_insert_eq. by eexists.
  - by rewrite lookup_insert_ne.
Qed.

Lemma lock_cqs_returns q s :
  (∀ k, ibqp_send_cq q = Some k ∨ ibqp_recv_cq q = Some k →
        ∃ c, cqs s !! k = Some c ∧ cq_lock c = false) →
  ∃ s', mlx5_lock_cqs q s = Some (tt, s') ∧
        ∀ k, is_Some (cqs s !! k) → is_Some (cqs s' !! k).
Proof.
  intros Hcq. unfold mlx5_lock_cqs.
  assert (Hone : ∀ k, (∃ c, cqs s !! k = Some c ∧ cq_lock c = false) →
            ∃ s', mlx5_spin_lock k s = Some (tt, s') ∧
                  ∀ j, is_Some (cqs s !! j) → is_Some (cqs s' !! j)).
  { intros k (c & Hk & Hl).
    destruct (spin_lock_returns _ _ _ Hk Hl) as (s' & Hrun & Hc).
    exists s'. split; [exact Hrun|]. intros j Hj. rewrite Hc.
    by apply alive_insert. }
  assert (Htwo : ∀ a b, a ≠ b →
            (∃ c, cqs s !! a = Some c ∧ cq_lock c = false) →
            (∃ c, cqs s !! b = Some c ∧ cq_lock c = false) →
            ∃ s', (mlx5_spin_lock a ;;; mlx5_spin_lock b) s = Some (tt, s') ∧
                  ∀ j, is_Some (cqs s !! j) → is_Some (cqs s' !! j)).
  { intros a b Hne (ca & Ha & Hla) (cb & Hb & Hlb).
    destruct (spin_lock_returns _ _ _ Ha Hla) as (s1 & Hrun1 & Hc1).
    assert (Hb1 : cqs s1 !! b = Some cb)
      by (rewrite Hc1, lookup_insert_ne; done).
    destruct (spin_lock_returns _ _ _ Hb1 Hlb) as (s2 & Hrun2 & Hc2).
    exists s2. split; [by rewrite (bind_run _ _ _ _ _ Hrun1)|].
    intros j Hj. rewrite Hc2, Hc1. by do 2 apply alive_insert. }
  destruct (ibqp_send_cq q) as [sc|], (ibqp_recv_cq q) as [rc|].
  - destruct (decide (sc = rc)) as [->|Hne].
    + rewrite bool_decide_eq_true_2 by done. apply Hone, Hcq. by left.
    + rewrite bool_decide_eq_false_2 by done.
      destruct (Hcq sc) as (cs & Hs & Hls); [by left|].
      destruct (Hcq rc) as (cr & Hr & Hlr); [by right|].
      assert (Gs : get_cq sc s = Some (cs, s))
        by (unfold get_cq; msimpl; by rewrite Hs).
      assert (Gr : get_cq rc s = Some (cr, s))
        by (unfold get_cq; msimpl; by rewrite Hr).
      rewrite (bind_run _ _ _ _ _ Gs), (bind_run _ _ _ _ _ Gr).
      destruct (cqn cs <? cqn cr); apply Htwo; eauto.
  - apply Hone, Hcq. by left.
  - apply Hone, Hcq. by right.
  - exists s. done.
Qed.

Lemma unlock_cqs_returns q s :
  (∀ k, ibqp_send_cq q = Some k ∨ ibqp_recv_cq q = Some k →
        is_Some (cqs s !! k)) →
  ∃ s', mlx5_unlock_cqs q s = Some (tt, s').
Proof.
  intros Hcq. unfold mlx5_unlock_cqs.
  assert (Hone : ∀ k s, is_Some (cqs s !! k) →
            ∃ s', mlx5_spin_unlock k s = Some (tt, s') ∧
                  ∀ j, is_Some (cqs s !! j) → is_Some (cqs s' !! j)).
  { intros k s0 [c Hk].
    destruct (spin_unlock_returns _ _ _ Hk) as (s' & Hrun & Hc).
    exists s'. split; [exact Hrun|]. intros j Hj. rewrite Hc.
    by apply alive_insert. }
  assert (Htwo : ∀ a b, is_Some (cqs s !! a) → is_Some (cqs s !! b) →
            ∃ s', (mlx5_spin_unlock a ;;; mlx5_spin_unlock b) s
                  = Some (tt, s')).
  { intros a b Ha Hb.
    destruct (Hone a s Ha) as (s1 & Hrun1 & Hk1).
    destruct (Hone b s1 (Hk1 _ Hb)) as (s2 & Hrun2 & _).
    exists s2. by rewrite (bind_run _ _ _ _ _ Hrun1). }
  destruct (ibqp_send_cq q) as [sc|], (ibqp_recv_cq q) as [rc|].
  - destruct (bool_decide (sc = rc)).
    + destruct (Hone sc s) as (s' & ? & _); [apply Hcq; by left|eauto].
    + destruct (Hcq sc) as (cs & Hs); [by left|].
      destruct (Hcq rc) as (cr & Hr); [by right|].
      assert (Gs : get_cq sc s = Some (cs, s))
        by (unfold get_cq; msimpl; by rewrite Hs).
      assert (Gr : get_cq rc s = Some (cr, s))
        by (unfold get_cq; msimpl; by rewrite Hr).
      rewrite (bind_run _ _ _ _ _ Gs), (bind_run _ _ _ _ _ Gr).
      destruct (cqn cs <? cqn cr); apply Htwo; eauto.
  - destruct (Hone sc s) as (s' & ? & _); [apply Hcq; by left|eauto].
  - destruct (Hone rc s) as (s' & ? & _); [apply Hcq; by right|eauto].
  - exists s. done.
Qed.

(** [step H x s']: the first step of the goal's computation is total; [H]
    is its run. *)
Ltac step H x s' :=
  lazymatch goal with
  | |- ∃ _ _, bind ?m _ ?s = Some _ =>
      runs m s H x s'; rewrite (bind_run _ _ _ _ _ H)
  end.

Section QpLifeFacts.

Context (F : flag_bits) (X : extern) (htobe32 : Z → Z).

Lemma contents_same s s' : cqs s' = cqs s → contents s' = contents s.
Proof. unfold contents. by intros ->. Qed.

Lemma says_delta s s' :
  (∃ t, trace s' = trace s ++ t ∧ List.filter watched t = []) →
  delta s s' [].
Proof. done. Qed.

Lemma lock_order_ext s1 s2 q ks :
  cqs s1 = cqs s2 → lock_order s1 q ks → lock_order s2 q ks.
Proof. unfold lock_order. by intros ->. Qed.

(** The destruction of a QP that is not an RSS QP, once the kernel has
    agreed. *)
Lemma destroy_qp_run p q s r s' :
  qps s !! p = Some q → rss_qp q = false → x_cmd_destroy_qp X p = 0 →
  mlx5_destroy_qp X p s = Some (r, s') →
  r = 0 ∧ qps s' !! p = None ∧
  contents s' =
    (if bool_decide (ibqp_send_cq q ≠ ibqp_recv_cq q)
     then scavenged (rsn q) None (ibqp_send_cq q) else id)
      (scavenged (rsn q) (ibqp_srq q) (ibqp_recv_cq q) (contents s)) ∧
  ∃ ks,
    lock_order s q ks ∧
    delta s s'
      (map EvSpinLock ks ++
       EvCqClean (ibqp_recv_cq q) (rsn q) (ibqp_srq q) ::
       (if bool_decide (ibqp_send_cq q ≠ ibqp_recv_cq q)
        then [EvCqClean (ibqp_send_cq q) (rsn q) None] else [])).
Proof.
  intros Hq Hrss Hx H. unfold mlx5_destroy_qp in H. cbv zeta in H.
  apply bind_inv in H as (q' & s1 & Hget & H).
  unfold get_qp in Hget. msimpl_in Hget. rewrite Hq in Hget.
  injection Hget as <- <-.
  apply bind_inv in H as (c & s1 & Hc & H).
  unfold get_ctx in Hc. msimpl_in Hc. injection Hc as <- <-.
  apply bind_inv in H as (mparent & s1 & Hmp & H).
  rewrite Hrss in H.
  apply bind_inv in H as ([] & s2 & Hml & H).
  apply bind_inv in H as (ret_ & s3 & Hk & H).
  unfold ibv_cmd_destroy_qp in Hk.
  apply bind_inv in Hk as ([] & s3' & Hlog & Hk).
  unfold ret in Hk. injection Hk as <- <-. rewrite Hx in H. cbn [negb Z.eqb] in H.
  apply bind_inv in H as ([] & s4 & Hlock & H).
  apply bind_inv in H as ([] & s5 & Hc1 & H).
  apply bind_inv in H as ([] & s6 & Hc2 & H).
  apply bind_inv in H as ([] & s7 & Hclr & H).
  apply bind_inv in H as ([] & s8 & Hul & H).
  apply bind_inv in H as ([] & s9 & Huidx & H).
  apply bind_inv in H as ([] & s10 & Hfree & H).
  apply bind_inv in H as ([] & s11 & Hrc & H).
  apply bind_inv in H as ([] & s12 & Hfq & H).
  unfold ret in H. injection H as <- <-.
  same cqs Hmp. says watched Hmp. same cqs Hml. says watched Hml.
  same cqs Hlog. says watched Hlog.
  apply lock_cqs_run in Hlock as (Cl & ks & Tl & Hord).
  apply cq_clean_run in Hc1 as (Cc1 & Tc1).
  assert (Hsend : contents s6 =
            (if bool_decide (ibqp_send_cq q ≠ ibqp_recv_cq q)
             then scavenged (rsn q) None (ibqp_send_cq q) else id)
              (contents s5) ∧
          delta s5 s6
            (if bool_decide (ibqp_send_cq q ≠ ibqp_recv_cq q)
             then [EvCqClean (ibqp_send_cq q) (rsn q) None] else [])).
  { destruct (bool_decide (ibqp_send_cq q ≠ ibqp_recv_cq q)); cbn in Hc2.
    - apply cq_clean_run in Hc2 as (Cc2 & Tc2). split; [done|].
      by exists [EvCqClean (ibqp_send_cq q) (rsn q) None].
    - unfold ret in Hc2. injection Hc2 as <-. split; [done|apply delta_refl]. }
  destruct Hsend as (Cc2 & Tc2).
  same cqs Hclr. says watched Hclr.
  apply unlock_cqs_run in Hul as (Cu & Tu).
  same cqs Huidx. says watched Huidx. same cqs Hfree. says watched Hfree.
  same cqs Hrc. says watched Hrc. same cqs Hfq. says watched Hfq.
  split; [done|]. split.
  { unfold free_qp in Hfq. apply bind_inv in Hfq as ([] & sx & _ & Hfq).
    unfold modify in Hfq. injection Hfq as <-. cbn. apply lookup_delete_eq. }
  assert (C0 : contents s3' = contents s)
    by (apply contents_same; congruence).
  split.
  { rewrite (contents_same s8 s12) by congruence. rewrite Cu.
    rewrite (contents_same s6 s7) by congruence.
    rewrite Cc2, Cc1, Cl, C0. done. }
  exists ks. split; [eapply lock_order_ext; [|exact Hord]; congruence|].
  assert (D0 : delta s s3' []).
  { eapply delta_quiet; [eapply delta_quiet; [apply says_delta, T|]|];
      by apply says_delta. }
  assert (D1 : delta s3' s4 (map EvSpinLock ks)).
  { exists (map EvSpinLock ks). split; [done|apply watch_locks]. }
  assert (D2 : delta s4 s5
                 [EvCqClean (ibqp_recv_cq q) (rsn q) (ibqp_srq q)]).
  { by exists [EvCqClean (ibqp_recv_cq q) (rsn q) (ibqp_srq q)]. }
  assert (D3 : delta s6 s12 []).
  { pose proof (delta_quiet _ _ _ _ (says_delta _ _ T2) Tu) as E1.
    pose proof (delta_quiet _ _ _ _ E1 (says_delta _ _ T3)) as E2.
    pose proof (delta_quiet _ _ _ _ E2 (says_delta _ _ T4)) as E3.
    pose proof (delta_quiet _ _ _ _ E3 (says_delta _ _ T5)) as E4.
    exact (delta_quiet _ _ _ _ E4 (says_delta _ _ T6)). }
  pose proof (delta_trans _ _ _ _ _ D0 D1) as D.
  pose proof (delta_trans _ _ _ _ _ D D2) as D'.
  pose proof (delta_trans _ _ _ _ _ D' Tc2) as D''.
  pose proof (delta_quiet _ _ _ _ D'' D3) as Dall.
  cbn [app] in Dall. rewrite <- app_assoc in Dall. exact Dall.
Qed.

(** A refused kernel command: the error comes back and nothing but the
    trace has changed. *)
Lemma destroy_qp_refused p s r s' :
  mlx5_destroy_qp X p s = Some (r, s') → x_cmd_destroy_qp X p ≠ 0 →
  r = x_cmd_destroy_qp X p ∧ store s' = store s.
Proof.
  intros H Hx. unfold mlx5_destroy_qp in H. cbv zeta in H.
  apply bind_inv in H as (q & s1 & Hget & H). same store Hget.
  apply bind_inv in H as (c & s2 & Hc & H). same store Hc.
  apply bind_inv in H as (mparent & s3 & Hmp & H). same store Hmp.
  apply Z.eqb_neq in Hx.
  destruct (rss_qp q).
  - apply bind_inv in H as (ret_ & s4 & Hk & H). same store Hk.
    unfold ibv_cmd_destroy_qp in Hk.
    apply bind_inv in Hk as ([] & s4' & _ & Hk).
    unfold ret in Hk. injection Hk as <- _. rewrite Hx in H. cbn in H.
    unfold ret in H. injection H as <- <-. split; [done|congruence].
  - apply bind_inv in H as ([] & s4 & Hml & H). same store Hml.
    apply bind_inv in H as (ret_ & s5 & Hk & H). same store Hk.
    unfold ibv_cmd_destroy_qp in Hk.
    apply bind_inv in Hk as ([] & s5' & _ & Hk).
    unfold ret in Hk. injection Hk as <- _. rewrite Hx in H. cbn [negb] in H.
    apply bind_inv in H as ([] & s6 & Hmu & H). same store Hmu.
    unfold ret in H. injection H as <- <-. split; [done|congruence].
Qed.

(** The kernel command is the first thing a destruction does to the
    object: nothing is released before it. *)
Lemma destroy_qp_kernel_first p s r s' :
  mlx5_destroy_qp X p s = Some (r, s') →
  ∃ pre post,
    trace s' = trace s ++ pre ++ EvKernel (cmd_destroy_qp p) :: post ∧
    List.filter releases pre = [].
Proof.
  intros H. unfold mlx5_destroy_qp in H. cbv zeta in H.
  apply bind_inv in H as (q & s1 & Hget & H). says releases Hget.
  apply bind_inv in H as (c & s2 & Hc & H). says releases Hc.
  apply bind_inv in H as (mparent & s3 & Hmp & H). says releases Hmp.
  destruct T as (t1 & E1 & F1), T0 as (t2 & E2 & F2), T1 as (t3 & E3 & F3).
  destruct (rss_qp q).
  - apply bind_inv in H as (ret_ & s4 & Hk & H).
    unfold ibv_cmd_destroy_qp in Hk.
    apply bind_inv in Hk as ([] & s4' & Hlog & Hk).
    unfold ret in Hk. injection Hk as <- <-.
    unfold log, modify in Hlog. injection Hlog as <-.
    says (λ _ : event, false) H. destruct T as (t4 & E4 & _).
    exists (t1 ++ t2 ++ t3), t4. split.
    + rewrite E4. cbn. rewrite E3, E2, E1, <- !app_assoc. done.
    + rewrite !List.filter_app, F1, F2, F3. done.
  - apply bind_inv in H as ([] & s4 & Hml & H). says releases Hml.
    destruct T as (t4 & E4 & F4).
    apply bind_inv in H as (ret_ & s5 & Hk & H).
    unfold ibv_cmd_destroy_qp in Hk.
    apply bind_inv in Hk as ([] & s5' & Hlog & Hk).
    unfold ret in Hk. injection Hk as <- <-.
    unfold log, modify in Hlog. injection Hlog as <-.
    says (λ _ : event, false) H. destruct T as (t5 & E5 & _).
    exists (t1 ++ t2 ++ t3 ++ t4), t5. split.
    + rewrite E5. cbn. rewrite E4, E3, E2, E1, <- !app_assoc. done.
    + rewrite !List.filter_app, F1, F2, F3, F4. done.
Qed.

Lemma db_write_run d i v s x s' :
  db_write d i v s = Some (x, s') →
  ∃ k r t,
    d = Some k ∧ dbrecs s !! k = Some (r, t) ∧
    dbrecs s' = <[k := match i with
                       | MLX5_RCV_DBR => (v, t)
                       | MLX5_SND_DBR => (r, v)
                       end]> (dbrecs s) ∧
    qps s' = qps s ∧ cqs s' = cqs s.
Proof.
  unfold db_write. intros H. destruct d as [k|]; [|done].
  msimpl_in H. destruct (dbrecs s !! k) as [[r t]|] eqn:E; [|done].
  injection H as H. subst s'. exists k, r, t. done.
Qed.

Lemma mlx5_cq_clean_run k rsn srq s x s' :
  mlx5_cq_clean k rsn srq s = Some (x, s') →
  contents s' = scavenged rsn srq (Some k) (contents s) ∧
  qps s' = qps s ∧ dbrecs s' = dbrecs s.
Proof.
  intros H. same qps H. same dbrecs H. unfold mlx5_cq_clean in H.
  apply bind_inv in H as ([] & s1 & Hl & H).
  apply bind_inv in H as ([] & s2 & Hc & Hu).
  apply spin_lock_run in Hl as (Cl & _).
  apply cq_clean_run in Hc as (Cc & _).
  apply spin_unlock_run in Hu as (Cu & _).
  split; [congruence|done].
Qed.

(** The destruction of a settled QP returns. *)
Lemma destroy_qp_returns p q s :
  qps s !! p = Some q → rss_qp q = false → x_cmd_destroy_qp X p = 0 →
  qp_settled s q →
  ∃ r s', mlx5_destroy_qp X p s = Some (r, s').
Proof.
  intros Hq Hrss Hx [Hcq Hpd]. unfold mlx5_destroy_qp. cbv zeta.
  assert (G : get_qp p s = Some (q, s))
    by (unfold get_qp; msimpl; by rewrite Hq).
  rewrite (bind_run _ _ _ _ _ G).
  assert (Gc : get_ctx s = Some (ctx s, s)) by reflexivity.
  rewrite (bind_run _ _ _ _ _ Gc).
  assert (Gp : ∃ mp, to_mparent_domain (ibqp_pd q) s = Some (mp, s) ∧
                     ∀ m, mp = Some m → is_Some (pds s !! m)).
  { unfold to_mparent_domain. destruct (ibqp_pd q) as [d|] eqn:Ed.
    - destruct (Hpd d eq_refl) as [pd Hd]. unfold get_pd. msimpl.
      rewrite Hd. cbn. eexists. split; [reflexivity|].
      intros m Hm. destruct (bool_decide _); [|done].
      injection Hm as <-. by eexists.
    - exists None. done. }
  destruct Gp as (mp & Gp & Hmp). rewrite (bind_run _ _ _ _ _ Gp).
  rewrite Hrss.
  step H1 x1 s1. same cqs H1. same pds H1.
  step H2 r2 s2. same cqs H2. same pds H2.
  assert (r2 = 0) as ->.
  { unfold ibv_cmd_destroy_qp in H2.
    apply bind_inv in H2 as ([] & ? & _ & H2). unfold ret in H2.
    by injection H2 as <- _. }
  cbn [negb Z.eqb].
  destruct (lock_cqs_returns q s2) as (s3 & L & A3).
  { intros k Hk. replace (cqs s2) with (cqs s) by congruence.
    by apply Hcq. }
  rewrite (bind_run _ _ _ _ _ L). same pds L.
  assert (A : ∀ k, ibqp_send_cq q = Some k ∨ ibqp_recv_cq q = Some k →
                   is_Some (cqs s3 !! k)).
  { intros k Hk. apply A3. replace (cqs s2) with (cqs s) by congruence.
    destruct (Hcq k Hk) as (c & -> & _). by eexists. }
  destruct (cq_clean_returns (ibqp_recv_cq q) (rsn q) (ibqp_srq q) s3)
    as (s4 & C1 & A4).
  { intros k Hk. apply A. by right. }
  rewrite (bind_run _ _ _ _ _ C1). same pds C1.
  assert (C2 : ∃ s5,
            when (bool_decide (ibqp_send_cq q ≠ ibqp_recv_cq q))
              (__mlx5_cq_clean (ibqp_send_cq q) (rsn q) None) s4
            = Some (tt, s5) ∧
            ∀ k, is_Some (cqs s4 !! k) → is_Some (cqs s5 !! k)).
  { destruct (bool_decide _); cbn; [|by exists s4].
    apply cq_clean_returns. intros k Hk. apply A4, A. by left. }
  destruct C2 as (s5 & C2 & A5). rewrite (bind_run _ _ _ _ _ C2).
  same pds C2.
  step H6 x6 s6. same cqs H6. same pds H6.
  destruct (unlock_cqs_returns q s6) as (s7 & U).
  { intros k Hk. replace (cqs s6) with (cqs s5) by congruence.
    by apply A5, A4, A. }
  rewrite (bind_run _ _ _ _ _ U). same pds U.
  step H8 x8 s8. same pds H8.
  step H9 x9 s9. same pds H9.
  destruct mp as [m|].
  - destruct (Hmp m eq_refl) as [pd Hm].
    assert (R : ∃ s', pd_refcount_add m (-1) s9 = Some (tt, s')).
    { unfold pd_refcount_add, get_pd. msimpl.
      replace (pds s9) with (pds s) by congruence. rewrite Hm. cbn.
      by eexists. }
    destruct R as (s10 & R). rewrite (bind_run _ _ _ _ _ R).
    step H11 x11 s11. by eexists _, _.
  - step H10 x10 s10. step H11 x11 s11. by eexists _, _.
Qed.
(** [mlx5_destroy_qp] returns what the kernel answered. *)
Lemma destroy_qp_result p s r s' :
  mlx5_destroy_qp X p s = Some (r, s') → r = x_cmd_destroy_qp X p.
Proof.
  intros H.
  destruct (Z.eq_dec (x_cmd_destroy_qp X p) 0) as [Hx|Hx];
    [|by eapply destroy_qp_refused].
  unfold mlx5_destroy_qp in H. cbv zeta in H.
  apply bind_inv in H as (q & s1 & Hget & H).
  apply bind_inv in H as (c & s2 & Hc & H).
  apply bind_inv in H as (mparent & s3 & Hmp & H).
  assert (Hfree : ∀ s0 r0 s0',
    ((match mparent with
      | Some m => pd_refcount_add m (-1)
      | None => ret tt
      end ;;; free_qp p ;;; ret 0) s0 = Some (r0, s0')) → r0 = 0).
  { intros s0 r0 s0' H0. apply bind_inv in H0 as ([] & ? & _ & H0).
    apply bind_inv in H0 as ([] & ? & _ & H0). unfold ret in H0.
    by injection H0 as <- _. }
  destruct (rss_qp q).
  - apply bind_inv in H as (ret_ & s4 & Hk & H).
    unfold ibv_cmd_destroy_qp in Hk.
    apply bind_inv in Hk as ([] & s4' & _ & Hk).
    unfold ret in Hk. injection Hk as <- _. rewrite Hx in H |- *.
    cbn [negb Z.eqb] in H. by eapply Hfree.
  - apply bind_inv in H as ([] & s4 & _ & H).
    apply bind_inv in H as (ret_ & s5 & Hk & H).
    unfold ibv_cmd_destroy_qp in Hk.
    apply bind_inv in Hk as ([] & s5' & _ & Hk).
    unfold ret in Hk. injection Hk as <- _. rewrite Hx in H |- *.
    cbn [negb Z.eqb] in H.
    do 7 (apply bind_inv in H as ([] & ? & _ & H)).
    by eapply Hfree.
Qed.

(** A destroyed QP is gone from the heap. *)
Lemma destroy_qp_gone p s s' :
  mlx5_destroy_qp X p s = Some (0, s') → qps s' !! p = None.
Proof.
  intros H.
  assert (Hx : x_cmd_destroy_qp X p = 0)
    by (symmetry; by eapply destroy_qp_result).
  unfold mlx5_destroy_qp in H. cbv zeta in H.
  apply bind_inv in H as (q & s1 & Hget & H).
  apply bind_inv in H as (c & s2 & Hc & H).
  apply bind_inv in H as (mparent & s3 & Hmp & H).
  assert (Hfree : ∀ s0 r0 s0',
    ((match mparent with
      | Some m => pd_refcount_add m (-1)
      | None => ret tt
      end ;;; free_qp p ;;; ret 0) s0 = Some (r0, s0')) →
    qps s0' !! p = None).
  { intros s0 r0 s0' H0. apply bind_inv in H0 as ([] & ? & _ & H0).
    apply bind_inv in H0 as ([] & ? & Hf & H0). unfold ret in H0.
    injection H0 as _ <-. unfold free_qp in Hf.
    apply bind_inv in Hf as ([] & ? & _ & Hf). unfold modify in Hf.
    injection Hf as <-. cbn. apply lookup_delete_eq. }
  destruct (rss_qp q).
  - apply bind_inv in H as (ret_ & s4 & Hk & H).
    unfold ibv_cmd_destroy_qp in Hk.
    apply bind_inv in Hk as ([] & s4' & _ & Hk).
    unfold ret in Hk. injection Hk as <- _. rewrite Hx in H.
    cbn [negb Z.eqb] in H. by eapply Hfree.
  - apply bind_inv in H as ([] & s4 & _ & H).
    apply bind_inv in H as (ret_ & s5 & Hk & H).
    unfold ibv_cmd_destroy_qp in Hk.
    apply bind_inv in Hk as ([] & s5' & _ & Hk).
    unfold ret in Hk. injection Hk as <- _. rewrite Hx in H.
    cbn [negb Z.eqb] in H.
    do 7 (apply bind_inv in H as ([] & ? & _ & H)).
    by eapply Hfree.
Qed.

(** The steps of [mlx5_destroy_srq]: the destruction of the command QP, if
    there is one, is a whole call of [mlx5_destroy_qp] from the state of
    entry; [cmd_qp] is cleared; the kernel command for the SRQ is the next
    event. *)
Lemma destroy_srq_run n m s r s' :
  srqs s !! n = Some m →
  mlx5_destroy_srq X n s = Some (r, s') →
  ∃ s1,
    match cmd_qp m with
    | None => s1 = s
    | Some p =>
        ∃ rq s0, mlx5_destroy_qp X p s = Some (rq, s0) ∧
                 (rq ≠ 0 → r = rq ∧ s' = s0 ∧ s1 = s0) ∧
                 (rq = 0 →
                  s1 = set_srqs (<[n := set_cmd_qp None m]> (srqs s0)) s0)
    end ∧
    ((∀ p, cmd_qp m = Some p → x_cmd_destroy_qp X p = 0) →
     (∃ post, trace s' = trace s1 ++ EvKernel (cmd_destroy_srq n) :: post) ∧
     r = x_cmd_destroy_srq X n ∧
     (x_cmd_destroy_srq X n ≠ 0 → store s' = store s1)).
Proof.
  intros Hn H. unfold mlx5_destroy_srq in H.
  apply bind_inv in H as (m' & s1 & Hget & H).
  unfold get_srq in Hget. msimpl_in Hget. rewrite Hn in Hget.
  injection Hget as <- <-.
  apply bind_inv in H as (c & s1 & Hc & H).
  unfold get_ctx in Hc. msimpl_in Hc. injection Hc as <- <-.
  apply bind_inv in H as (r0 & s1 & Hr0 & H).
  assert (Hrest : r0 = 0 →
    (∃ post, trace s' = trace s1 ++ EvKernel (cmd_destroy_srq n) :: post) ∧
    r = x_cmd_destroy_srq X n ∧
    (x_cmd_destroy_srq X n ≠ 0 → store s' = store s1)).
  { intros ->. cbn [negb Z.eqb] in H.
    apply bind_inv in H as (ret_ & s2 & Hk & H).
    unfold ibv_cmd_destroy_srq in Hk.
    apply bind_inv in Hk as ([] & s2' & Hlog & Hk).
    unfold ret in Hk. injection Hk as <- <-.
    unfold log, modify in Hlog. injection Hlog as <-.
    destruct (Z.eqb_spec (x_cmd_destroy_srq X n) 0) as [Hz|Hnz];
      cbn [negb] in H.
    - says (λ _ : event, false) H. destruct T as (t & E & _).
      split; [exists t; rewrite E; cbn; by rewrite <- app_assoc|].
      split; [|done].
      do 4 (apply bind_inv in H as ([] & ? & _ & H)). unfold ret in H.
      injection H as <- _. done.
    - unfold ret in H. injection H as <- <-.
      split; [by exists []|]. done. }
  exists s1. destruct (cmd_qp m) as [p|] eqn:Hcmd.
  - apply bind_inv in Hr0 as (rq & s0 & Hd & Hr0).
    split.
    + exists rq, s0. split; [exact Hd|].
      destruct (Z.eqb_spec rq 0) as [->|Hnz]; cbn [negb] in Hr0.
      * apply bind_inv in Hr0 as ([] & s0' & Hput & Hr0).
        unfold ret in Hr0. injection Hr0 as <- <-.
        unfold put_srq, modify in Hput. injection Hput as <-.
        split; [done|]. done.
      * unfold ret in Hr0. injection Hr0 as <- <-.
        apply Z.eqb_neq in Hnz. rewrite Hnz in H. cbn [negb] in H.
        unfold ret in H. injection H as <- <-. split; [done|].
        intros Hz. apply Z.eqb_neq in Hnz. done.
    + intros Hx. apply Hrest.
      pose proof (destroy_qp_result _ _ _ _ Hd) as ->.
      rewrite (Hx p eq_refl) in Hr0. cbn [negb Z.eqb] in Hr0.
      apply bind_inv in Hr0 as ([] & ? & _ & Hr0). unfold ret in Hr0.
      by injection Hr0 as <- _.
  - unfold ret in Hr0. injection Hr0 as <- <-. split; [done|].
    intros _. by apply Hrest.
Qed.

End QpLifeFacts.

(** * The claims *)

(** C4.  On a consistent context, every call of
    [mlx5_attach_dedicated_bf] returns, and does one of three things: it
    raises the lowest-indexed zero counter to one and returns that slot's
    BF; or no counter is zero and it fails with [errno = ENOENT]; or the
    page mapping of the chosen slot fails and it returns [NULL] with the
    counter back at zero.  Consequently a run of acquisitions without a
    release succeeds at most [num_dyn_bfregs] times, and acquire, release,
    acquire returns the same slot with the same registers. *)
Theorem bf_allocator_acquire_release B X s :
  bfregs_wf B (ctx s) → bf_index_inv (ctx s) →
  (∃ r s',
     mlx5_attach_dedicated_bf B X s = Some (r, s') ∧
     let counts := count_dyn_bfregs (ctx s) in
     let counts' := count_dyn_bfregs (ctx s') in
     (∃ i, lowest_free counts i ∧
           r = Some (start_dyn_bfregs_index (ctx s) + i) ∧
           counts' = <[Z.to_nat i := 1]> counts)
     ∨ ((∀ k, counts !! k ≠ Some 0) ∧ r = None ∧ errno s' = C.ENOENT ∧
        counts' = counts)
     ∨ (∃ i, lowest_free counts i ∧ r = None ∧ counts' = counts ∧
             x_mmap X (i `quot` (num_uars_per_page (ctx s) *
                                 MLX5_NUM_NON_FP_BFREGS_PER_UAR B)) = None))
  ∧ (∀ Xs, ∃ n s',
       attach_many B Xs s = Some (n, s') ∧
       Z.of_nat n ≤ num_dyn_bfregs (ctx s))
  ∧ (∀ X' bf s1,
       mlx5_attach_dedicated_bf B X s = Some (Some bf, s1) →
       ∃ s2 s3,
         mlx5_detach_dedicated_bf bf s1 = Some (tt, s2) ∧
         count_dyn_bfregs (ctx s2) = count_dyn_bfregs (ctx s) ∧
         mlx5_attach_dedicated_bf B X' s2 = Some (Some bf, s3) ∧
         bfs (ctx s3) = bfs (ctx s1)).
Proof.
  intros Hwf Hinv. split; [|split].
  - destruct (attach_dedicated_bf_run B X s Hwf) as (r & s' & Hr & _ & Hcase).
    exists r, s'. split; [exact Hr|]. cbv zeta.
    destruct (first_free (count_dyn_bfregs (ctx s))) as [i|] eqn:Hff.
    + pose proof (first_free_lowest _ _ Hff) as Hlow.
      destruct Hcase as [(-> & -> & _)|(-> & -> & Hmap & _)].
      * left. eauto.
      * right. right. eauto 10.
    + destruct Hcase as (-> & He & -> & _). right. left.
      split; [|done]. eapply first_free_from_none, Hff.
  - intros Xs.
    destruct (attach_many_run B Xs s Hwf) as (n & s' & Hn & _ & Hlen & Huse).
    exists n, s'. split; [exact Hn|].
    pose proof (in_use_le (count_dyn_bfregs (ctx s'))) as Hle.
    destruct Hwf as (Hl & _). lia.
  - intros X' bf s1 Hatt. by eapply attach_detach_attach.
Qed.

Lemma sample_ctx_bfregs_wf : bfregs_wf mlx5_bf_layout sample_ctx.
Proof. unfold bfregs_wf. cbn. lia. Qed.

Lemma sample_ctx_bf_index_inv : bf_index_inv sample_ctx.
Proof.
  intros j b _ Hb Hreg. apply list_elem_of_lookup_2 in Hb. cbn in Hb.
  repeat (apply elem_of_cons in Hb as [->|Hb]; [done|]).
  by apply elem_of_nil in Hb.
Qed.

(** On the sample adapter, with every slot free, the first acquisition takes
    slot 0, which is BF number 2. *)
Lemma bf_allocator_acquire_release_witness :
  bfregs_wf mlx5_bf_layout (ctx sample_state) ∧
  bf_index_inv (ctx sample_state) ∧
  ∃ s', mlx5_attach_dedicated_bf mlx5_bf_layout sample_extern sample_state
        = Some (Some 2, s').
Proof.
  split; [exact sample_ctx_bfregs_wf|]. split; [exact sample_ctx_bf_index_inv|].
  destruct (bf_allocator_acquire_release mlx5_bf_layout sample_extern
              sample_state sample_ctx_bfregs_wf sample_ctx_bf_index_inv)
    as ((r & s' & Hrun & _) & _).
  vm_compute in Hrun. injection Hrun as <- <-. eexists. vm_compute. reflexivity.
Defined.

(** C9.  [mlx5_dealloc_td] and [mlx5_dealloc_parent_domain] on an object
    whose reference count is above one return [EBUSY] and change nothing:
    the object, the BF slot counters and every reference count stay as they
    were.  They return 0 only when the count is at most one. *)
Theorem dealloc_domain_busy s :
  (∀ td t, tds s !! td = Some t → 1 < td_refcount t →
     mlx5_dealloc_td td s = Some (C.EBUSY, s))
  ∧ (∀ p d, pds s !! p = Some d → 1 < pd_refcount d →
       mlx5_dealloc_parent_domain p s = Some (C.EBUSY, s))
  ∧ (∀ td s', mlx5_dealloc_td td s = Some (0, s') →
       ∃ t, tds s !! td = Some t ∧ td_refcount t ≤ 1 ∧ tds s' !! td = None)
  ∧ (∀ p s', mlx5_dealloc_parent_domain p s = Some (0, s') →
       ∃ d, pds s !! p = Some d ∧ pd_refcount d ≤ 1 ∧ pds s' !! p = None).
Proof.
  repeat split.
  - intros td t Ht Hr. unfold mlx5_dealloc_td, get_td. msimpl. rewrite Ht.
    destruct (Z.gtb_spec (td_refcount t) 1); [done|lia].
  - intros p d Hp Hr. unfold mlx5_dealloc_parent_domain, get_pd. msimpl.
    rewrite Hp. destruct (Z.gtb_spec (pd_refcount d) 1); [done|lia].
  - intros td s' H. unfold mlx5_dealloc_td in H.
    apply bind_inv in H as (t & s1 & Ht & H).
    unfold get_td in Ht. msimpl_in Ht.
    destruct (tds s !! td) as [t'|] eqn:E; [|done]. simplify_eq.
    destruct (Z.gtb_spec (td_refcount t) 1) as [?|Hle]; [done|].
    apply bind_inv in H as ([] & s2 & Hd & H).
    apply bind_inv in H as ([] & s3 & Hm & H).
    unfold modify in Hm. unfold ret in H. simplify_eq.
    exists t. cbn. rewrite lookup_delete_eq. done.
  - intros p s' H. unfold mlx5_dealloc_parent_domain in H.
    apply bind_inv in H as (d & s1 & Hd & H).
    unfold get_pd in Hd. msimpl_in Hd.
    destruct (pds s !! p) as [d'|] eqn:E; [|done]. simplify_eq.
    destruct (Z.gtb_spec (pd_refcount d) 1) as [?|Hle]; [done|].
    apply bind_inv in H as (base & s2 & _ & H).
    apply bind_inv in H as ([] & s3 & _ & H).
    apply bind_inv in H as ([] & s4 & _ & H).
    apply bind_inv in H as ([] & s5 & Hm & H).
    unfold modify in Hm. unfold ret in H. simplify_eq.
    exists d. cbn. rewrite lookup_delete_eq. done.
Qed.

(** A thread domain shared by two users cannot be deallocated. *)
Lemma dealloc_domain_busy_witness :
  let s := set_tds {[ 1%nat := {| td_bf := 2; td_refcount := 2 |} ]}
             sample_state in
  mlx5_dealloc_td 1 s = Some (C.EBUSY, s).
Proof.
  intros s.
  apply (proj1 (dealloc_domain_busy s) 1%nat {| td_bf := 2; td_refcount := 2 |}).
  - reflexivity.
  - cbn. lia.
Defined.

(** C10.  A request for [2^30] entries is not rejected: the rounded depth
    overflows, [align_queue_size] returns [-ENOMEM = -12], neither depth
    check fires on that value, and [create_cq] goes on to allocate a buffer
    of [-12] entries and to send the kernel command with depth [-13];
    [errno] is never set. *)
Theorem create_cq_depth_overflow :
  align_queue_size (C.to_uint (1073741824 + 1)) = - C.ENOMEM ∧
  ∃ s', mlx5_create_cq sample_flag_bits sample_extern 1073741824 sample_state
        = Some (Some 7%nat, s') ∧
        errno s' = 0 ∧
        trace s' = [EvAllocCqBuf (-12) 64; EvAllocDbrec;
                    EvKernel (cmd_create_cq (-13))].
Proof.
  split; [vm_compute; reflexivity|].
  eexists. split; [vm_compute; reflexivity|]. split; reflexivity.
Qed.

(** C1.  The descriptor-size tests of [mlx5_calc_send_wqe] (lines 1083 to
    1092) are lost to integer wrap-around.  On the adapter with 512-byte
    descriptors, a raw packet request with a TSO header of 1000 bytes and
    268435416 gather entries needs 48 + 1008 + 16 * 268435416 bytes a
    descriptor; the space left for gather entries is negative and compares
    as a large unsigned number, the sum wraps to 416, the descriptor size
    returned is 448, and [create_qp] returns a QP whose [sq.max_gs] is
    268435416.  With 2^27 gather entries the size returned is 0 and
    [mlx5_calc_sq_size] divides by it.  And 3355444 sends of 320 bytes,
    2^25 slots where 32768 are allowed, are refused with [-ENOMEM], the
    error of the rounding, where the slot test would say [-EINVAL]. *)
Theorem sq_sizing_desc_overflow :
  max_sq_desc_sz sample_ctx
    < sq_overhead mlx5_wqe_layout sample_flag_bits qp_zero IBV_QPT_RAW_PACKET
      + align (max_tso_header (tso_attr 268435416)) 16
      + sizeof_data_seg mlx5_wqe_layout
        * max_send_sge (cap (tso_attr 268435416))
  ∧ mlx5_calc_send_wqe mlx5_wqe_layout sample_flag_bits sample_ctx
      (tso_attr 268435416) qp_zero
    = Some (448, set_max_tso_header_qp 1000 qp_zero)
  ∧ (∃ attr' s' q,
       create_qp mlx5_wqe_layout sample_flag_bits sample_ilog2 sample_extern
         (tso_attr 268435416) None sample_state
       = Some ((Some 7%nat, attr'), s') ∧
       qps s' !! 7%nat = Some q ∧
       max_gs (sq q) = 268435416 ∧ wqe_cnt (sq q) = 128 ∧
       max_send_sge (cap attr') = 268435416 ∧ errno s' = 0)
  ∧ mlx5_calc_send_wqe mlx5_wqe_layout sample_flag_bits sample_ctx
      (tso_attr (2 ^ 27)) qp_zero
    = Some (0, set_max_tso_header_qp 1000 qp_zero)
  ∧ mlx5_calc_sq_size mlx5_wqe_layout sample_flag_bits sample_ilog2
      sample_ctx (tso_attr (2 ^ 27)) qp_zero = None
  ∧ (∃ attr' qp',
       mlx5_calc_sq_size mlx5_wqe_layout sample_flag_bits sample_ilog2
         sample_ctx (deep_attr 3355444) qp_zero
       = Some (- C.ENOMEM, attr', qp') ∧
       wqe_cnt (sq qp') = 0).
Proof.
  split; [vm_compute; reflexivity|].
  split; [vm_compute; reflexivity|].
  split.
  { eexists _, _, _. split; [vm_compute; reflexivity|].
    split; [vm_compute; reflexivity|]. repeat split; reflexivity. }
  split; [vm_compute; reflexivity|].
  split; [vm_compute; reflexivity|].
  eexists _, _. split; [vm_compute; reflexivity|reflexivity].
Qed.

Section CreationClaims.

Context (L : wqe_layout) (F : flag_bits) (mlx5_ilog2 : Z → Z) (X : extern).

(** C5.  A QP created from a request without receive depth
    ([cap.max_recv_wr = 0]) or with an SRQ has no receive queue:
    [rq.wqe_cnt], [rq.wqe_shift], [rq.max_post] and [rq.max_gs] are 0.  The
    receive sizing returned 0 bytes, the send queue starts at offset 0, and
    the QP's buffer bytes are the send queue's alone.  (An RSS QP or a DCT
    has no queue and no buffer at all.) *)
Theorem no_receive_queue attr dv s p attr' s' :
  max_recv_wr (cap attr) = 0 ∨ attr_srq attr ≠ None →
  create_qp L F mlx5_ilog2 X attr dv s = Some ((Some p, attr'), s') →
  ∃ q, qps s' !! p = Some q ∧ rq_absent q ∧ offset (sq q) = 0 ∧
    (qp_bare q ∨
     ∃ qp0 sq_bytes attr1 qpa qpb,
       qp_bare qp0 ∧
       mlx5_calc_sq_size L F mlx5_ilog2 (ctx s) attr
         (set_wq_sig (x_qp_signature X) qp0) = Some (sq_bytes, attr1, qpa) ∧
       mlx5_calc_rq_size L mlx5_ilog2 (ctx s) attr1 qpa = Some (0, qpb) ∧
       buf_size q + sq_buf_size q = sq_bytes).
Proof.
  intros Hreq H.
  destruct (create_qp_created _ _ _ _ _ _ _ _ _ _ H)
    as [(qp0 & fl & Hrun & Hbare & _)|(_ & q & Hq & Hbare & _)].
  - apply create_qp_wq_sized in Hrun
      as (sqb & attr1 & qpa & rqb & qpb & q & Hsq & Hrq & Hsq0 & Hrq0 & _ & Hq
          & _ & _ & Hrqf & _ & _ & Hlay & _).
    pose proof (calc_sq_size_frame _ _ _ _ _ _ _ _ _ Hsq)
      as (_ & Hattr & Hrqa & _).
    change (rq qpa = rq qp0) in Hrqa.
    destruct Hbare as (Hsq00 & Hrq00 & Hbare).
    assert (Hreq1 : max_recv_wr (cap attr1) = 0 ∨ attr_srq attr1 ≠ None).
    { unfold attr_but_inline in Hattr.
      assert (max_recv_wr (cap attr1) = max_recv_wr (cap attr)) as ->
        by congruence.
      assert (attr_srq attr1 = attr_srq attr) as -> by congruence.
      exact Hreq. }
    destruct (calc_rq_size_absent _ _ _ _ _ _ _ Hreq1 Hrq Hrq0)
      as (-> & Hsame & Habs).
    assert (Hb : rq_absent qpb).
    { destruct (Z.eq_dec (max_recv_wr (cap attr1)) 0) as [E|E].
      - rewrite (Hsame E). unfold rq_absent. rewrite Hrqa, Hrq00. done.
      - exact (Habs E). }
    destruct Hb as (Hb1 & Hb2 & Hb3 & Hb4).
    destruct Hrqf as (Hr1 & Hr2 & Hr3 & Hr4 & _).
    exists q. split; [exact Hq|].
    split; [unfold rq_absent; repeat split; congruence|].
    cbv zeta in Hlay.
    assert (Hoff : offset (sq q) = 0 ∧ buf_size q + sq_buf_size q = sqb)
      by (destruct (separate_sq F attr qp0); lia).
    split; [apply Hoff|]. right.
    exists qp0, sqb, attr1, qpa, qpb.
    split; [done|]. split; [exact Hsq|]. split; [exact Hrq|]. apply Hoff.
  - exists q. split; [exact Hq|].
    destruct Hbare as (Hsq00 & Hrq00 & Hrest).
    split; [unfold rq_absent; rewrite Hrq00; done|].
    split; [rewrite Hsq00; done|]. left. done.
Qed.

(** C6.  A QP built with work queues has its receive queue at offset 0.
    Unless it is a raw packet QP or in underlay mode, one buffer holds both
    queues: its size is the receive queue's bytes plus the send queue's, and
    the send queue starts where the receive queue ends.  A raw packet or
    underlay QP keeps the receive queue in the first buffer and has the
    send queue at offset 0 of a second buffer, allocated on its own with
    page size and page alignment. *)
Theorem qp_buffer_layout attr dv s p attr' s' q :
  create_qp L F mlx5_ilog2 X attr dv s = Some ((Some p, attr'), s') →
  qps s' !! p = Some q → rss_qp q = false →
  dc_type q ≠ MLX5DV_DCTYPE_DCT →
  ∃ qp0 sq_bytes attr1 qpa rq_bytes qpb,
    qp_bare qp0 ∧
    mlx5_calc_sq_size L F mlx5_ilog2 (ctx s) attr
      (set_wq_sig (x_qp_signature X) qp0) = Some (sq_bytes, attr1, qpa) ∧
    mlx5_calc_rq_size L mlx5_ilog2 (ctx s) attr1 qpa
      = Some (rq_bytes, qpb) ∧
    0 ≤ sq_bytes ∧ 0 ≤ rq_bytes ∧ offset (rq q) = 0 ∧ is_Some (buf q) ∧
    let pg := C.to_ulong (page_size (ctx s)) in
    if separate_sq F attr q then
      buf_size q = rq_bytes ∧ sq_buf_size q = sq_bytes ∧ offset (sq q) = 0 ∧
      ∃ b, sq_buf q = Some b ∧
           bufs s' !! b = Some (align (C.to_ulong sq_bytes) pg, pg)
    else
      buf_size q = rq_bytes + sq_bytes ∧ sq_buf_size q = 0 ∧
      offset (sq q) = rq_bytes ∧ sq_buf q = None ∧
      ∃ b, buf q = Some b ∧
           bufs s' !! b =
             Some (align (C.to_ulong (rq_bytes + sq_bytes)) pg, pg).
Proof.
  intros H Hq Hrss Hdc.
  destruct (create_qp_created _ _ _ _ _ _ _ _ _ _ H)
    as [(qp0 & fl & Hrun & Hbare & _)|(_ & q' & Hq' & _ & Hno)].
  - apply create_qp_wq_sized in Hrun
      as (sqb & attr1 & qpa & rqb & qpb & q' & Hsq & Hrq & Hsq0 & Hrq0 & _
          & Hq' & Hsep & _ & Hrqf & _ & Hbuf & Hlay & _).
    assert (q' = q) as -> by congruence.
    exists qp0, sqb, attr1, qpa, rqb, qpb.
    split; [exact Hbare|]. split; [exact Hsq|]. split; [exact Hrq|].
    split; [exact Hsq0|]. split; [exact Hrq0|].
    split; [apply Hrqf|]. split; [exact Hbuf|].
    cbv zeta in *. rewrite Hsep.
    destruct (separate_sq F attr qp0); [exact Hlay|].
    destruct Hlay as (? & ? & ? & Hsb & ?).
    destruct Hbare as (_ & _ & _ & Hsb0 & _).
    repeat split; try assumption. congruence.
  - assert (q' = q) as -> by congruence.
    destruct Hno; congruence.
Qed.


End CreationClaims.

(** The sample request has no receive depth; the QP made from it has no
    receive queue. *)
Lemma no_receive_queue_witness :
  (max_recv_wr (cap sample_attr) = 0 ∨ attr_srq sample_attr ≠ None) ∧
  ∃ attr' s' q,
    create_qp mlx5_wqe_layout sample_flag_bits sample_ilog2 sample_extern
      sample_attr None sample_state = Some ((Some 7%nat, attr'), s') ∧
    qps s' !! 7%nat = Some q ∧ rq_absent q.
Proof.
  split; [left; reflexivity|].
  assert (Hrun : ∃ attr' s',
    create_qp mlx5_wqe_layout sample_flag_bits sample_ilog2 sample_extern
      sample_attr None sample_state = Some ((Some 7%nat, attr'), s'))
    by (eexists _, _; vm_compute; reflexivity).
  destruct Hrun as (attr' & s' & Hrun).
  destruct (no_receive_queue mlx5_wqe_layout sample_flag_bits sample_ilog2
              sample_extern sample_attr None sample_state 7%nat attr' s'
              (or_introl eq_refl) Hrun) as (q & Hq & Habs & _).
  exists attr', s', q. split; [exact Hrun|]. split; [exact Hq|exact Habs].
Defined.

(** The sample QP is a reliable-connected one: one buffer, the receive
    queue at its start. *)
Lemma qp_buffer_layout_witness :
  ∃ attr' s' q,
    create_qp mlx5_wqe_layout sample_flag_bits sample_ilog2 sample_extern
      sample_attr None sample_state = Some ((Some 7%nat, attr'), s') ∧
    qps s' !! 7%nat = Some q ∧ rss_qp q = false ∧
    dc_type q ≠ MLX5DV_DCTYPE_DCT ∧
    offset (rq q) = 0 ∧ is_Some (buf q).
Proof.
  assert (Hrun : ∃ attr' s' q,
    create_qp mlx5_wqe_layout sample_flag_bits sample_ilog2 sample_extern
      sample_attr None sample_state = Some ((Some 7%nat, attr'), s') ∧
    qps s' !! 7%nat = Some q ∧ rss_qp q = false ∧ dc_type q = DC_NONE).
  { eexists _, _, _. split; [vm_compute; reflexivity|].
    split; [vm_compute; reflexivity|]. split; reflexivity. }
  destruct Hrun as (attr' & s' & q & Hrun & Hq & Hrss & Hdc).
  assert (Hdct : dc_type q ≠ MLX5DV_DCTYPE_DCT)
    by (rewrite Hdc; discriminate).
  destruct (qp_buffer_layout mlx5_wqe_layout sample_flag_bits sample_ilog2
              sample_extern sample_attr None sample_state 7%nat attr' s' q
              Hrun Hq Hrss Hdct)
    as (? & ? & ? & ? & ? & ? & _ & _ & _ & _ & _ & Hoff & Hbuf & _).
  exists attr', s', q. repeat split; assumption.
Defined.



Section LifeClaims.

Context (F : flag_bits) (X : extern) (htobe32 : Z → Z).

(** C2.  The destruction of a QP that is not an RSS QP, the kernel having
    agreed, on a heap where the QP's CQs are there and unlocked, returns 0.
    If its send and receive CQs are two CQs, both locks are taken, the one
    with the smaller CQ number first whichever role it has, then the
    receive CQ is scavenged and then the send CQ; if they are one CQ, its
    lock is taken once and one pass is made.  A pass leaves no completion
    of the QP but, on the receive side, those that came from its SRQ: these
    all stay. *)
Theorem destroy_qp_cq_protocol p q s :
  qps s !! p = Some q → rss_qp q = false → x_cmd_destroy_qp X p = 0 →
  qp_settled s q →
  ∃ s' W,
    mlx5_destroy_qp X p s = Some (0, s') ∧ delta s s' W ∧
    (∀ sc rc,
       ibqp_send_cq q = Some sc → ibqp_recv_cq q = Some rc → sc ≠ rc →
       (∃ a b ca cb,
          W = [EvSpinLock a; EvSpinLock b;
               EvCqClean (Some rc) (rsn q) (ibqp_srq q);
               EvCqClean (Some sc) (rsn q) None] ∧
          (a = sc ∧ b = rc ∨ a = rc ∧ b = sc) ∧
          cqs s !! a = Some ca ∧ cqs s !! b = Some cb ∧ cqn ca ≤ cqn cb) ∧
       contents s' =
         alter (List.filter (cq_clean_keeps (rsn q) None)) sc
           (alter (List.filter (cq_clean_keeps (rsn q) (ibqp_srq q))) rc
              (contents s)))
    ∧ (∀ k,
         ibqp_send_cq q = Some k → ibqp_recv_cq q = Some k →
         W = [EvSpinLock k; EvCqClean (Some k) (rsn q) (ibqp_srq q)] ∧
         contents s' =
           alter (List.filter (cq_clean_keeps (rsn q) (ibqp_srq q))) k
             (contents s))
    ∧ (∀ srq l e,
         In e (List.filter (cq_clean_keeps (rsn q) srq) l) →
         cqe_rsn e = rsn q → srq ≠ None ∧ cqe_from_srq e = true)
    ∧ (∀ l e,
         ibqp_srq q ≠ None → In e l → cqe_from_srq e = true →
         In e (List.filter (cq_clean_keeps (rsn q) (ibqp_srq q)) l)).
Proof.
  intros Hq Hrss Hx Hset.
  destruct (destroy_qp_returns _ _ _ _ Hq Hrss Hx Hset) as (r & s' & H).
  destruct (destroy_qp_run _ _ _ _ _ _ Hq Hrss Hx H)
    as (-> & _ & Hcont & ks & Hord & Hdelta).
  eexists s', _. split; [exact H|]. split; [exact Hdelta|].
  unfold lock_order in Hord.
  split; [|split; [|split]].
  - intros sc rc Hs Hr Hne. rewrite Hs, Hr in *.
    rewrite bool_decide_eq_false_2 in Hord by done.
    rewrite bool_decide_eq_true_2 in * by congruence.
    destruct Hord as (a & b & ca & cb & -> & Hab & Ha & Hb & Hle).
    split; [|exact Hcont]. exists a, b, ca, cb. done.
  - intros k Hs Hr. rewrite Hs, Hr in *.
    rewrite bool_decide_eq_true_2 in Hord by done. subst ks.
    rewrite bool_decide_eq_false_2 in * by (intros ?; done).
    split; [done|exact Hcont].
  - intros srq l e Hin Hrsn. apply List.filter_In in Hin as [_ Hk].
    unfold cq_clean_keeps in Hk. rewrite Hrsn, Z.eqb_refl in Hk.
    cbn in Hk. apply andb_true_iff in Hk as [Hs He].
    split; [by apply bool_decide_eq_true in Hs|exact He].
  - intros l e Hsrq Hin He. apply List.filter_In. split; [exact Hin|].
    unfold cq_clean_keeps. rewrite He, bool_decide_eq_true_2 by done.
    apply orb_true_r.
Qed.

(** C3, as amended.  [mlx5_destroy_qp] sends the kernel command before it
    releases anything, and when the kernel refuses it returns the kernel's
    error and leaves the provider's memory as it was: tables, CQs, doorbell
    records, buffers and the QP itself.  So does [mlx5_destroy_srq] on an
    SRQ without a command QP: the kernel command is its first event.  On an
    SRQ with a command QP, it first makes a whole call of [mlx5_destroy_qp]
    on the command QP; when the kernel refuses that, the call ends there
    with that error and the memory as it was; otherwise the command QP is
    gone, and the next event is the kernel command for the SRQ; when the
    kernel refuses this one, its error is returned and the memory is as the
    destruction of the command QP left it, with [cmd_qp] cleared. *)
Theorem destroy_kernel_first :
  (∀ p s r s',
     mlx5_destroy_qp X p s = Some (r, s') →
     (∃ pre post,
        trace s' = trace s ++ pre ++ EvKernel (cmd_destroy_qp p) :: post ∧
        List.filter releases pre = []) ∧
     (x_cmd_destroy_qp X p ≠ 0 →
      r = x_cmd_destroy_qp X p ∧ store s' = store s))
  ∧ (∀ n m s r s',
       srqs s !! n = Some m → cmd_qp m = None →
       mlx5_destroy_srq X n s = Some (r, s') →
       (∃ post, trace s' = trace s ++ EvKernel (cmd_destroy_srq n) :: post) ∧
       (x_cmd_destroy_srq X n ≠ 0 →
        r = x_cmd_destroy_srq X n ∧ store s' = store s))
  ∧ (∀ n m p s r s',
       srqs s !! n = Some m → cmd_qp m = Some p →
       mlx5_destroy_srq X n s = Some (r, s') →
       ∃ s0,
         mlx5_destroy_qp X p s = Some (x_cmd_destroy_qp X p, s0) ∧
         (x_cmd_destroy_qp X p ≠ 0 →
          r = x_cmd_destroy_qp X p ∧ s' = s0 ∧ store s' = store s) ∧
         (x_cmd_destroy_qp X p = 0 →
          qps s0 !! p = None ∧
          (∃ post,
             trace s' = trace s0 ++ EvKernel (cmd_destroy_srq n) :: post) ∧
          r = x_cmd_destroy_srq X n ∧
          (x_cmd_destroy_srq X n ≠ 0 →
           store s' =
             store (set_srqs (<[n := set_cmd_qp None m]> (srqs s0)) s0)))).
Proof.
  split; [|split].
  - intros p s r s' H. split.
    + by eapply destroy_qp_kernel_first.
    + intros Hx. by eapply destroy_qp_refused.
  - intros n m s r s' Hn Hcmd H.
    destruct (destroy_srq_run _ _ _ _ _ _ Hn H) as (s1 & Hs1 & Hrest).
    rewrite Hcmd in Hs1. subst s1.
    destruct Hrest as (Hpost & Hr & Hst); [by rewrite Hcmd|].
    split; [exact Hpost|]. intros Hx. split; [exact Hr|by apply Hst].
  - intros n m p s r s' Hn Hcmd H.
    destruct (destroy_srq_run _ _ _ _ _ _ Hn H) as (s1 & Hs1 & Hrest).
    rewrite Hcmd in Hs1, Hrest.
    destruct Hs1 as (rq & s0 & Hd & Hbad & Hgood).
    pose proof (destroy_qp_result _ _ _ _ _ Hd) as ->.
    exists s0. split; [exact Hd|]. split.
    + intros Hx. destruct (Hbad Hx) as (-> & -> & _).
      split; [done|]. split; [done|].
      by eapply destroy_qp_refused.
    + intros Hx. rewrite Hx in Hd, Hgood.
      split; [by eapply destroy_qp_gone|].
      rewrite (Hgood eq_refl) in Hrest.
      destruct Hrest as (Hpost & Hr & Hst).
      { intros p' [= <-]. exact Hx. }
      split; [exact Hpost|]. split; [exact Hr|exact Hst].
Qed.

(** C8.  A successful [mlx5_modify_qp] to [IBV_QPS_RESET] on a QP that is
    not a DCT leaves both words of the doorbell record at zero and the
    heads and tails of both queues at zero, and has scavenged the receive
    CQ and, when it is another CQ, the send CQ. *)
Theorem modify_qp_to_reset p q0 attr mask s s' :
  qps s !! p = Some q0 → dc_type q0 ≠ MLX5DV_DCTYPE_DCT →
  C.bits mask (IBV_QP_STATE F) = true → qp_state attr = IBV_QPS_RESET →
  mlx5_modify_qp F X htobe32 p attr mask s = Some (0, s') →
  ∃ q' d,
    qps s' !! p = Some q' ∧
    head (sq q') = 0 ∧ tail (sq q') = 0 ∧ head (rq q') = 0 ∧
    tail (rq q') = 0 ∧
    db q0 = Some d ∧ dbrecs s' !! d = Some (0, 0) ∧
    contents s' =
      (if bool_decide (ibqp_send_cq q0 ≠ ibqp_recv_cq q0)
       then scavenged (rsn q0) None (ibqp_send_cq q0) else id)
        (scavenged (rsn q0) (ibqp_srq q0) (ibqp_recv_cq q0) (contents s)).
Proof.
  intros Hq Hdc Hmask Hreset H. unfold mlx5_modify_qp in H. cbv zeta in H.
  apply bind_inv in H as (q' & s1 & Hget & H).
  unfold get_qp in Hget. msimpl_in Hget. rewrite Hq in Hget.
  injection Hget as <- <-.
  apply bind_inv in H as (c & s1 & Hc & H).
  unfold get_ctx in Hc. msimpl_in Hc. injection Hc as <- <-.
  rewrite bool_decide_eq_false_2 in H by exact Hdc.
  destruct (rss_qp q0); [unfold ret, C.ENOSYS in H; simplify_eq|].
  destruct (_ && C.bits mask _); [unfold ret, C.EINVAL in H; simplify_eq|].
  apply bind_inv in H as (mqp & s1 & Hm & H).
  assert (Hl : qp_links mqp = qp_links q0).
  { clear H.
    repeat match type of Hm with
    | (if ?b then _ else _) _ = _ => destruct b
    | bind _ _ _ = _ => apply bind_inv in Hm as (? & ? & _ & Hm)
    end; unfold ret in Hm; injection Hm as <- _;
    repeat match goal with
    | |- context [if ?b then _ else _] => destruct b
    end; reflexivity. }
  same cqs Hm. same qps Hm. same dbrecs Hm. clear Hm.
  unfold qp_links in Hl. injection Hl as Hsc Hrc Hsrq Hrsn Hdb.
  apply bind_inv in H as ([] & s2 & Hput & H).
  apply bind_inv in H as ([] & s3 & Hlog & H).
  apply bind_inv in H as ([] & s4 & Hblock & H).
  apply bind_inv in H as ([] & s5 & Hrtr & H).
  unfold ret in H. injection H as Hret <-.
  rewrite Hret, Hmask, Hreset in Hblock, Hrtr.
  rewrite bool_decide_eq_true_2 in Hblock by done.
  rewrite (bool_decide_eq_false_2 (IBV_QPS_RESET = IBV_QPS_RTR)) in Hrtr
    by done.
  cbn in Hrtr. unfold ret in Hrtr. injection Hrtr as <-.
  cbn [Z.eqb andb when] in Hblock.
  apply bind_inv in Hblock as ([] & s5 & Hcr & Hblock).
  apply bind_inv in Hblock as ([] & s6 & Hcs & Hblock).
  apply bind_inv in Hblock as ([] & s7 & Hput2 & Hblock).
  apply bind_inv in Hblock as ([] & s8 & Hw1 & Hw2).
  rewrite Hsc, Hrc, Hsrq, Hrsn, Hdb in *.
  same cqs Hput. same cqs Hlog. same cqs Hput2.
  assert (Cr : contents s5 =
                 scavenged (rsn q0) (ibqp_srq q0) (ibqp_recv_cq q0)
                   (contents s3)).
  { destruct (ibqp_recv_cq q0) as [rc|].
    - by apply mlx5_cq_clean_run in Hcr as (? & _).
    - unfold ret in Hcr. by injection Hcr as <-. }
  assert (Cs : contents s6 =
                 (if bool_decide (ibqp_send_cq q0 ≠ ibqp_recv_cq q0)
                  then scavenged (rsn q0) None (ibqp_send_cq q0) else id)
                   (contents s5)).
  { destruct (ibqp_send_cq q0) as [sc|].
    - destruct (bool_decide _); cbn in Hcs.
      + by apply mlx5_cq_clean_run in Hcs as (? & _).
      + unfold ret in Hcs. by injection Hcs as <-.
    - unfold ret in Hcs. injection Hcs as <-.
      by destruct (bool_decide _). }
  apply db_write_run in Hw1 as (d & r1 & t1 & Hd & Hd1 & Hdb1 & Hq1 & Hc1).
  apply db_write_run in Hw2 as (d' & r2 & t2 & Hd' & Hd2 & Hdb2 & Hq2 & Hc2).
  assert (d' = d) as -> by congruence.
  rewrite Hdb1, lookup_insert_eq in Hd2. injection Hd2 as <- <-.
  exists (mlx5_init_qp_indices mqp), d.
  split.
  { rewrite Hq2, Hq1. unfold put_qp, modify in Hput2.
    injection Hput2 as <-. cbn. apply lookup_insert_eq. }
  do 4 (split; [reflexivity|]). split; [exact Hd|].
  split; [rewrite Hdb2, lookup_insert_eq; reflexivity|].
  rewrite (contents_same s8 s4) by exact Hc2.
  rewrite (contents_same s7 s8) by exact Hc1.
  rewrite (contents_same s6 s7) by exact K4.
  rewrite Cs, Cr. rewrite (contents_same s s3) by congruence. done.
Qed.

End LifeClaims.

Lemma live_state_settled : qp_settled live_state sample_qp.
Proof.
  split.
  - intros k [Hk|Hk]; injection Hk as <-; eexists; split; reflexivity.
  - intros d Hd. discriminate.
Qed.

Lemma one_cq_state_settled :
  qp_settled one_cq_state
    (set_ibqp_send_cq (Some 1%nat) (set_ibqp_recv_cq (Some 1%nat) sample_qp)).
Proof.
  split.
  - intros k [Hk|Hk]; injection Hk as <-; eexists; split; reflexivity.
  - intros d Hd. discriminate.
Qed.

(** The sample QP: the receive CQ has the smaller number and is locked
    first; its SRQ completion stays.  And the QP on one CQ: one lock, one
    pass. *)
Lemma destroy_qp_cq_protocol_witness :
  (∃ s',
     mlx5_destroy_qp sample_extern 7 live_state = Some (0, s') ∧
     delta live_state s'
       [EvSpinLock 2; EvSpinLock 1; EvCqClean (Some 2%nat) 5 (Some 3%nat);
        EvCqClean (Some 1%nat) 5 None] ∧
     contents s' !! 2%nat = Some [srq_cqe; other_cqe])
  ∧ (∃ s',
       mlx5_destroy_qp sample_extern 7 one_cq_state = Some (0, s') ∧
       delta one_cq_state s'
         [EvSpinLock 1; EvCqClean (Some 1%nat) 5 (Some 3%nat)] ∧
       contents s' !! 1%nat = Some [srq_cqe; other_cqe]).
Proof.
  split.
  - destruct (destroy_qp_cq_protocol sample_extern 7%nat sample_qp
                live_state eq_refl eq_refl eq_refl live_state_settled)
      as (s' & W & Hrun & Hd & Hdistinct & _).
    destruct (Hdistinct 1%nat 2%nat eq_refl eq_refl ltac:(discriminate))
      as ((a & b & ca & cb & HW & Hab & Ha & Hb & Hle) & Hc).
    exists s'. split; [exact Hrun|]. split.
    + assert (a = 2%nat ∧ b = 1%nat) as [-> ->].
      { destruct Hab as [[-> ->]|[-> ->]]; [|done].
        vm_compute in Ha, Hb. injection Ha as <-. injection Hb as <-.
        vm_compute in Hle. exfalso. apply Hle. reflexivity. }
      rewrite HW in Hd. exact Hd.
    + rewrite Hc. vm_compute. reflexivity.
  - destruct (destroy_qp_cq_protocol sample_extern 7%nat _ one_cq_state
                eq_refl eq_refl eq_refl one_cq_state_settled)
      as (s' & W & Hrun & Hd & _ & Hsame & _).
    destruct (Hsame 1%nat eq_refl eq_refl) as (HW & Hc).
    exists s'. split; [exact Hrun|]. split.
    + rewrite HW in Hd. exact Hd.
    + rewrite Hc. vm_compute. reflexivity.
Defined.

(** The kernel keeps the sample QP: error 16, and nothing has changed.
    And an SRQ with a command QP, whose own destruction the kernel refuses:
    the command QP is destroyed by a whole call, then comes the command for
    the SRQ. *)
Lemma destroy_kernel_first_witness :
  (∃ s',
     mlx5_destroy_qp qp_busy_extern 7 live_state = Some (C.EBUSY, s') ∧
     store s' = store live_state)
  ∧ (∃ s0 s' post,
       mlx5_destroy_qp srq_busy_extern 7 tm_srq_state = Some (0, s0) ∧
       mlx5_destroy_srq srq_busy_extern 3 tm_srq_state
         = Some (C.EBUSY, s') ∧
       qps s0 !! 7%nat = None ∧
       trace s' = trace s0 ++ EvKernel (cmd_destroy_srq 3) :: post).
Proof.
  split.
  - assert (Hrun : ∃ r s',
      mlx5_destroy_qp qp_busy_extern 7 live_state = Some (r, s'))
      by (eexists _, _; vm_compute; reflexivity).
    destruct Hrun as (r & s' & Hrun).
    destruct (proj1 (destroy_kernel_first qp_busy_extern) 7%nat live_state
                r s' Hrun) as (_ & Hfail).
    destruct (Hfail ltac:(discriminate)) as [-> Hst].
    exists s'. split; [exact Hrun|exact Hst].
  - assert (Hrun : ∃ r s',
      mlx5_destroy_srq srq_busy_extern 3 tm_srq_state = Some (r, s'))
      by (eexists _, _; vm_compute; reflexivity).
    destruct Hrun as (r & s' & Hrun).
    destruct (proj2 (proj2 (destroy_kernel_first srq_busy_extern)) 3%nat
                (sample_srq (Some 7%nat)) 7%nat tm_srq_state r s' eq_refl
                eq_refl Hrun) as (s0 & Hd & _ & Hgood).
    destruct (Hgood eq_refl) as (Hgone & (post & Hpost) & -> & _).
    exists s0, s', post. split; [exact Hd|]. split; [exact Hrun|].
    split; [exact Hgone|exact Hpost].
Defined.

(** C3 as stated fails for an SRQ with a command QP: the command QP is
    destroyed first, and when the kernel then refuses the SRQ, the call
    returns the error with the command QP gone. *)
Lemma destroy_kernel_first_counterexample :
  ¬ (∀ X n s r s',
       mlx5_destroy_srq X n s = Some (r, s') →
       x_cmd_destroy_srq X n ≠ 0 →
       r = x_cmd_destroy_srq X n ∧ store s' = store s).
Proof.
  intros Hclaim.
  assert (Hrun : ∃ s',
    mlx5_destroy_srq srq_busy_extern 3 tm_srq_state = Some (C.EBUSY, s') ∧
    qps s' !! 7%nat = None)
    by (eexists; split; vm_compute; reflexivity).
  destruct Hrun as (s' & Hrun & Hgone).
  destruct (Hclaim _ _ _ _ _ Hrun ltac:(discriminate)) as [_ Hst].
  unfold store in Hst. injection Hst as _ Hqps _ _ _ _ _ _ _.
  rewrite Hqps in Hgone. vm_compute in Hgone. discriminate.
Qed.

(** The sample QP, reset: doorbell record 30 is cleared and both CQs are
    scavenged. *)
Lemma modify_qp_to_reset_witness :
  ∃ s',
    mlx5_modify_qp sample_flag_bits sample_extern (λ x, x) 7 reset_attr 1
      live_state = Some (0, s') ∧
    dbrecs s' !! 30%nat = Some (0, 0) ∧
    contents s' !! 1%nat = Some [other_cqe].
Proof.
  assert (Hrun : ∃ s',
    mlx5_modify_qp sample_flag_bits sample_extern (λ x, x) 7 reset_attr 1
      live_state = Some (0, s') ∧
    contents s' !! 1%nat = Some [other_cqe]).
  { eexists. split; [vm_compute; reflexivity|]. vm_compute. reflexivity. }
  destruct Hrun as (s' & Hrun & Hc).
  destruct (modify_qp_to_reset sample_flag_bits sample_extern (λ x, x)
              7%nat sample_qp reset_attr 1 live_state s' eq_refl
              ltac:(discriminate) eq_refl eq_refl Hrun)
    as (q' & d & _ & _ & _ & _ & _ & Hd & Hdb & _).
  injection Hd as <-.
  exists s'. split; [exact Hrun|]. split; [exact Hdb|exact Hc].
Defined.

(** * Further properties of the code *)

(** [mlx5_round_up_power_of_two]: up to [2^30] the result is the least power
    of two that is not below the argument (1 for an argument below 1);
    above [2^30] the rounding leaves [int] and the result is [-ENOMEM]. *)
Theorem round_up_power_of_two_spec sz :
  sz ≤ 2 ^ 62 →
  (sz ≤ 2 ^ 30 →
     ∃ j, 0 ≤ j ≤ 30 ∧ mlx5_round_up_power_of_two sz = 2 ^ j ∧
          sz ≤ 2 ^ j ∧ (j = 0 ∨ 2 ^ (j - 1) < sz))
  ∧ (2 ^ 30 < sz → mlx5_round_up_power_of_two sz = - C.ENOMEM).
Proof.
  intros Hsz. unfold mlx5_round_up_power_of_two.
  destruct (round_up_loop_pow2 62 0 sz) as (j & Hj & Heq & Hle & Hmin);
    [lia|simpl; lia|].
  change (2 ^ 0) with 1 in Heq. rewrite Heq. cbv zeta. unfold C.INT_MAX.
  split.
  - intros Hsmall.
    assert (j ≤ 30).
    { destruct Hmin as [->|Hmin]; [lia|].
      destruct (Z.le_gt_cases j 30); [done|].
      assert (2 ^ 30 ≤ 2 ^ (j - 1)) by (apply Z.pow_le_mono_r; lia). lia. }
    assert (0 < 2 ^ j ≤ 2 ^ 30)
      by (split; [apply Z.pow_pos_nonneg; lia|apply Z.pow_le_mono_r; lia]).
    destruct (Z.gtb_spec (2 ^ j) (2 ^ 31 - 1)); [lia|].
    exists j. rewrite to_int_id by lia. repeat split; auto; lia.
  - intros Hbig.
    assert (31 ≤ j).
    { destruct (Z.le_gt_cases 31 j); [done|].
      assert (2 ^ j ≤ 2 ^ 30) by (apply Z.pow_le_mono_r; lia). lia. }
    assert (2 ^ 31 ≤ 2 ^ j) by (apply Z.pow_le_mono_r; lia).
    destruct (Z.gtb_spec (2 ^ j) (2 ^ 31 - 1)); [reflexivity|lia].
Qed.

Lemma round_up_power_of_two_spec_witness :
  mlx5_round_up_power_of_two 200 = 2 ^ 8.
Proof.
  destruct (proj1 (round_up_power_of_two_spec 200 ltac:(lia)) ltac:(lia))
    as (j & Hj & Heq & Hle & Hmin).
  vm_compute. reflexivity.
Defined.

Section CqMore.

Context (F : flag_bits) (X : extern).

(** A CQ of no entries is refused at once: [mlx5_create_cq] with
    [cqe <= 0], and [create_cq] with a request of 0 entries, return [NULL]
    with [errno = EINVAL] and have done nothing else. *)
Theorem create_cq_rejects_empty s :
  (∀ cqe, cqe ≤ 0 →
     mlx5_create_cq F X cqe s = Some (None, set_errno C.EINVAL s))
  ∧ (∀ a fl dv, cqe_req a = 0 →
       create_cq F X a fl dv s = Some (None, set_errno C.EINVAL s)).
Proof.
  split.
  - intros cqe Hle. unfold mlx5_create_cq.
    destruct (Z.leb_spec cqe 0); [reflexivity|lia].
  - intros a fl dv Hz. unfold create_cq. rewrite Hz. reflexivity.
Qed.

(** The depth check of [create_cq] (line 610): a request for [cqe] entries
    with [2^24 <= cqe < 2^30] that passes the three argument checks, and
    for which the CQ struct is set up ([calloc], the poll functions of an
    extended CQ, the lock), is refused with [errno = EINVAL]: no buffer or
    doorbell record is allocated and no command is sent.  This holds for
    every caller: [mlx5_create_cq], [mlx5_create_cq_ex] and
    [mlx5dv_create_cq], with or without creation flags. *)
Theorem create_cq_rejects_deep a fl dv s p :
  2 ^ 24 ≤ cqe_req a < 2 ^ 30 →
  C.bits (cq_comp_mask a) (Z.lnot (IBV_CQ_INIT_ATTR_MASK_FLAGS F)) = false →
  C.bits (cq_comp_mask a) (IBV_CQ_INIT_ATTR_MASK_FLAGS F) &&
    C.bits (cq_attr_flags a)
      (Z.lnot (IBV_CREATE_CQ_ATTR_SINGLE_THREADED F)) = false →
  C.bits (wc_flags a) (Z.lnot (CREATE_CQ_SUPPORTED_WC_FLAGS F)) = false →
  x_calloc X = Some p →
  (C.bits fl (MLX5_CQ_FLAGS_EXTENDED F) = true → x_cq_fill_pfns X = 0) →
  x_spinlock_init_cq X = 0 →
  create_cq F X a fl dv s = Some (None, set_errno C.EINVAL s).
Proof.
  intros Hcqe Hm1 Hm2 Hwc Hcalloc Hext Hspin. unfold create_cq.
  destruct (Z.eqb_spec (cqe_req a) 0) as [?|_]; [lia|].
  rewrite Hm1, Hm2, Hwc, Hcalloc, Hspin.
  assert (Hrc : (if C.bits fl (MLX5_CQ_FLAGS_EXTENDED F)
                 then x_cq_fill_pfns X else 0) = 0)
    by (destruct (C.bits fl _); [by apply Hext|done]).
  cbv zeta. rewrite Hrc. cbn [andb negb Z.eqb].
  rewrite (to_uint_id (cqe_req a + 1)) by lia.
  unfold align_queue_size.
  destruct (round_up_power_of_two_bounds (cqe_req a + 1))
    as (j & Hj & -> & Hle & _); [lia|].
  assert (2 ^ 24 < 2 ^ j) by lia.
  destruct (Z.gtb_spec (2 ^ j) (Z.shiftl 1 24)) as [_|Hno];
    [reflexivity|].
  change (Z.shiftl 1 24) with (2 ^ 24) in Hno. lia.
Qed.

End CqMore.

(** A request for [2^24] entries of an extended, single-threaded CQ rounds
    to [2^25] and is refused. *)
Lemma create_cq_rejects_deep_witness :
  create_cq sample_flag_bits sample_extern
    {| cqe_req := 2 ^ 24; wc_flags := 127; cq_comp_mask := 1;
       cq_attr_flags := 1 |} 8 None sample_state
  = Some (None, set_errno C.EINVAL sample_state).
Proof.
  apply (create_cq_rejects_deep sample_flag_bits sample_extern _ 8 None
           sample_state 7%nat); try reflexivity.
  cbn. lia.
Defined.

(** ** CQ locks *)

Lemma spin_lock_exact k s x s' :
  mlx5_spin_lock k s = Some (x, s') →
  ∃ c, cqs s !! k = Some c ∧ cq_lock c = false ∧
       cqs s' = <[k := set_cq_lock true c]> (cqs s) ∧
       trace s' = trace s ++ [EvSpinLock k].
Proof.
  unfold mlx5_spin_lock, get_cq. intros H. msimpl_in H.
  destruct (cqs s !! k) as [c|] eqn:Hk; [|done]. cbn in H.
  destruct (cq_lock c) eqn:Hl; [done|]. simplify_eq. eauto.
Qed.

Lemma spin_unlock_exact k c s :
  cqs s !! k = Some c →
  ∃ s', mlx5_spin_unlock k s = Some (tt, s') ∧
        cqs s' = <[k := set_cq_lock false c]> (cqs s) ∧
        trace s' = trace s ++ [EvSpinUnlock k].
Proof.
  intros Hk. unfold mlx5_spin_unlock, get_cq. msimpl. rewrite Hk. cbn.
  eauto.
Qed.

Lemma relock_id (c : mlx5_cq) :
  cq_lock c = false → set_cq_lock false (set_cq_lock true c) = c.
Proof. destruct c. cbn. by intros ->. Qed.

(** [mlx5_unlock_cqs] undoes [mlx5_lock_cqs]: after a QP's CQ locks have
    been taken, they can be released, in the reverse order, and every CQ is
    then as it was before. *)
Theorem lock_unlock_cqs q s s1 :
  mlx5_lock_cqs q s = Some (tt, s1) →
  ∃ s2 ks,
    mlx5_unlock_cqs q s1 = Some (tt, s2) ∧ cqs s2 = cqs s ∧
    trace s2 = trace s ++ map EvSpinLock ks ++ map EvSpinUnlock (rev ks).
Proof.
  assert (Hone : ∀ k s s1, mlx5_spin_lock k s = Some (tt, s1) →
    ∃ s2, mlx5_spin_unlock k s1 = Some (tt, s2) ∧ cqs s2 = cqs s ∧
          trace s2 = trace s ++ [EvSpinLock k] ++ [EvSpinUnlock k]).
  { intros k s0 s0' H.
    apply spin_lock_exact in H as (c & Hk & Hl & Hc & Ht).
    destruct (spin_unlock_exact k (set_cq_lock true c) s0')
      as (s2 & Hu & Hc2 & Ht2); [rewrite Hc; apply lookup_insert_eq|].
    exists s2. split; [exact Hu|]. split.
    - rewrite Hc2, Hc, insert_insert_eq, relock_id by done.
      by apply insert_id.
    - rewrite Ht2, Ht, <- app_assoc. done. }
  assert (Htwo : ∀ a b s s1, a ≠ b →
    (mlx5_spin_lock a ;;; mlx5_spin_lock b) s = Some (tt, s1) →
    ∃ s2, (mlx5_spin_unlock b ;;; mlx5_spin_unlock a) s1 = Some (tt, s2) ∧
          cqs s2 = cqs s ∧
          (∀ j c, cqs s !! j = Some c →
             ∃ c', cqs s1 !! j = Some c' ∧ cqn c' = cqn c) ∧
          trace s2 = trace s ++ map EvSpinLock [a; b]
                       ++ map EvSpinUnlock [b; a]).
  { intros a b s0 s0' Hab H.
    apply bind_inv in H as ([] & sa & Ha & Hb).
    apply spin_lock_exact in Ha as (ca & Hka & Hla & Hca & Hta).
    apply spin_lock_exact in Hb as (cb & Hkb & Hlb & Hcb & Htb).
    rewrite Hca, lookup_insert_ne in Hkb by done.
    destruct (spin_unlock_exact b (set_cq_lock true cb) s0')
      as (s2 & Hu & Hc2 & Ht2); [rewrite Hcb; apply lookup_insert_eq|].
    destruct (spin_unlock_exact a (set_cq_lock true ca) s2)
      as (s3 & Hu3 & Hc3 & Ht3).
    { rewrite Hc2, Hcb, Hca, lookup_insert_ne, lookup_insert_ne,
        lookup_insert_eq by done. done. }
    exists s3. split; [by erewrite bind_run by exact Hu|].
    split; [|split].
    - rewrite Hc3, Hc2, Hcb, Hca, !relock_id by done.
      apply map_eq. intros j.
      destruct (decide (j = a)) as [->|Hja];
        [by rewrite lookup_insert_eq|].
      rewrite lookup_insert_ne by done.
      destruct (decide (j = b)) as [->|Hjb];
        [by rewrite lookup_insert_eq|].
      by rewrite !lookup_insert_ne by done.
    - intros j c Hj. rewrite Hcb, Hca.
      destruct (decide (j = b)) as [->|Hjb].
      { rewrite lookup_insert_eq. simplify_eq. eauto. }
      rewrite lookup_insert_ne by done.
      destruct (decide (j = a)) as [->|Hja].
      { rewrite lookup_insert_eq. simplify_eq. eauto. }
      rewrite lookup_insert_ne by done. eauto.
    - rewrite Ht3, Ht2, Htb, Hta, <- !app_assoc. done. }
  unfold mlx5_lock_cqs, mlx5_unlock_cqs. intros H.
  destruct (ibqp_send_cq q) as [sc|], (ibqp_recv_cq q) as [rc|].
  - destruct (bool_decide (sc = rc)) eqn:Heq.
    { destruct (Hone _ _ _ H) as (s2 & ? & ? & ?). by exists s2, [sc]. }
    apply bool_decide_eq_false in Heq.
    apply bind_inv in H as (cs & sa & Hs & H).
    apply bind_inv in H as (cr & sb & Hr & H).
    unfold get_cq in Hs, Hr. msimpl_in Hs. msimpl_in Hr.
    destruct (cqs s !! sc) as [cs'|] eqn:Esc; [|done]. cbn in Hs.
    simplify_eq.
    destruct (cqs sa !! rc) as [cr'|] eqn:Erc; [|done]. cbn in Hr.
    simplify_eq.
    destruct (Z.ltb_spec (cqn cs) (cqn cr)) as [Hlt|Hge].
    + destruct (Htwo sc rc _ _ Heq H) as (s2 & Hu & Hc & Hn & Ht).
      destruct (Hn _ _ Esc) as (cs1 & Es1 & Hn1).
      destruct (Hn _ _ Erc) as (cr1 & Er1 & Hn2).
      exists s2, [sc; rc]. split; [|done].
      unfold get_cq. msimpl. rewrite Es1. cbn. rewrite Er1. cbn.
      rewrite Hn1, Hn2. destruct (Z.ltb_spec (cqn cs) (cqn cr)); [|lia].
      exact Hu.
    + assert (Hne : rc ≠ sc) by congruence.
      destruct (Htwo rc sc _ _ Hne H) as (s2 & Hu & Hc & Hn & Ht).
      destruct (Hn _ _ Esc) as (cs1 & Es1 & Hn1).
      destruct (Hn _ _ Erc) as (cr1 & Er1 & Hn2).
      exists s2, [rc; sc]. split; [|done].
      unfold get_cq. msimpl. rewrite Es1. cbn. rewrite Er1. cbn.
      rewrite Hn1, Hn2. destruct (Z.ltb_spec (cqn cs) (cqn cr)); [lia|].
      exact Hu.
  - destruct (Hone _ _ _ H) as (s2 & ? & ? & ?). by exists s2, [sc].
  - destruct (Hone _ _ _ H) as (s2 & ? & ? & ?). by exists s2, [rc].
  - unfold ret in H. simplify_eq. exists s1, []. cbn.
    by rewrite app_nil_r.
Qed.

(** The sample QP: CQ 2, then CQ 1; released as CQ 1, then CQ 2. *)
Lemma lock_unlock_cqs_witness :
  ∃ s1 s2,
    mlx5_lock_cqs sample_qp live_state = Some (tt, s1) ∧
    mlx5_unlock_cqs sample_qp s1 = Some (tt, s2) ∧
    cqs s2 = cqs live_state.
Proof.
  assert (Hrun : ∃ s1, mlx5_lock_cqs sample_qp live_state = Some (tt, s1))
    by (eexists; vm_compute; reflexivity).
  destruct Hrun as (s1 & Hrun).
  destruct (lock_unlock_cqs sample_qp live_state s1 Hrun)
    as (s2 & ks & Hu & Hc & _).
  exists s1, s2. done.
Defined.

Section LifeMore.

Context (F : flag_bits) (X : extern) (htobe32 : Z → Z).

(** An RSS QP is destroyed without any of the CQ work: the kernel
    command's result is returned, and no CQ, table, doorbell record or
    buffer changes.  On a refusal the QP stays; on success it is freed. *)
Theorem destroy_rss_qp p q s r s' :
  qps s !! p = Some q → rss_qp q = true →
  mlx5_destroy_qp X p s = Some (r, s') →
  r = x_cmd_destroy_qp X p ∧
  cqs s' = cqs s ∧ ctx s' = ctx s ∧ dbrecs s' = dbrecs s ∧
  bufs s' = bufs s ∧
  (r ≠ 0 → qps s' = qps s) ∧ (r = 0 → qps s' = delete p (qps s)) ∧
  delta s s' [].
Proof.
  intros Hq Hrss H. unfold mlx5_destroy_qp in H. cbv zeta in H.
  apply bind_inv in H as (q' & s1 & Hget & H).
  unfold get_qp in Hget. msimpl_in Hget. rewrite Hq in Hget.
  injection Hget as <- <-.
  apply bind_inv in H as (c & s1 & Hc & H).
  unfold get_ctx in Hc. msimpl_in Hc. injection Hc as <- <-.
  apply bind_inv in H as (mparent & s1 & Hmp & H).
  rewrite Hrss in H.
  apply bind_inv in H as (ret_ & s2 & Hk & H).
  assert (Hret : ret_ = x_cmd_destroy_qp X p).
  { unfold ibv_cmd_destroy_qp in Hk.
    apply bind_inv in Hk as ([] & s2' & _ & Hk).
    unfold ret in Hk. by injection Hk as <- _. }
  same store Hmp. same store Hk. says watched Hmp. says watched Hk.
  pose proof (delta_quiet _ _ _ _ (says_delta _ _ T) (says_delta _ _ T0))
    as D.
  assert (Hst : store s2 = store s) by congruence.
  unfold store in Hst. injection Hst as Ec Eq Es Ecq Et Ep Ed Eb Ee.
  destruct (Z.eqb_spec ret_ 0) as [Hz|Hnz]; cbn [negb] in H.
  - same cqs H. same ctx H. same dbrecs H. same bufs H. says watched H.
    apply bind_inv in H as ([] & s3 & Hrc & H). same qps Hrc.
    apply bind_inv in H as ([] & s4 & Hfq & H).
    unfold ret in H. injection H as <- <-.
    unfold free_qp in Hfq. apply bind_inv in Hfq as ([] & s5 & Hl & Hfq).
    same qps Hl. unfold modify in Hfq. injection Hfq as <-.
    split; [congruence|]. repeat split; try congruence.
    + intros _. cbn. congruence.
    + eapply delta_quiet; [exact D|by apply says_delta].
  - unfold ret in H. injection H as <- <-.
    split; [done|]. repeat split; congruence.
Qed.

(** A QP that is not an RSS QP nor a DCT, destroyed: the struct is gone,
    and so are its doorbell record and its buffers. *)
Theorem destroy_qp_releases p q s s' :
  qps s !! p = Some q → rss_qp q = false →
  dc_type q ≠ MLX5DV_DCTYPE_DCT →
  mlx5_destroy_qp X p s = Some (0, s') →
  qps s' !! p = None ∧
  (∀ d, db q = Some d → dbrecs s' !! d = None) ∧
  (∀ b, buf q = Some b → bufs s' !! b = None) ∧
  (∀ b, sq_buf q = Some b → bufs s' !! b = None).
Proof.
  intros Hq Hrss Hdc H. unfold mlx5_destroy_qp in H. cbv zeta in H.
  apply bind_inv in H as (q' & s1 & Hget & H).
  unfold get_qp in Hget. msimpl_in Hget. rewrite Hq in Hget.
  injection Hget as <- <-.
  apply bind_inv in H as (c & s1 & Hc & H).
  unfold get_ctx in Hc. msimpl_in Hc. injection Hc as <- <-.
  apply bind_inv in H as (mparent & s1 & Hmp & H).
  rewrite Hrss in H.
  apply bind_inv in H as ([] & s2 & Hml & H).
  apply bind_inv in H as (ret_ & s3 & Hk & H).
  destruct (negb (ret_ =? 0)) eqn:Hret.
  { apply bind_inv in H as ([] & s4 & _ & H). unfold ret in H.
    injection H as -> _. done. }
  apply bind_inv in H as ([] & s4 & Hlock & H).
  apply bind_inv in H as ([] & s5 & Hc1 & H).
  apply bind_inv in H as ([] & s6 & Hc2 & H).
  apply bind_inv in H as ([] & s7 & Hclr & H).
  apply bind_inv in H as ([] & s8 & Hul & H).
  apply bind_inv in H as ([] & s9 & Huidx & H).
  apply bind_inv in H as ([] & s10 & Hfree & H).
  apply bind_inv in H as ([] & s11 & Hrc & H).
  apply bind_inv in H as ([] & s12 & Hfq & H).
  unfold ret in H. injection H as <-.
  rewrite bool_decide_eq_true_2 in Hfree by exact Hdc. cbn [when] in Hfree.
  apply bind_inv in Hfree as ([] & s9' & Hfdb & Hfbuf).
  same dbrecs Hfbuf. same dbrecs Hrc. same dbrecs Hfq.
  same bufs Hrc. same bufs Hfq.
  split.
  { unfold free_qp in Hfq. apply bind_inv in Hfq as ([] & sx & _ & Hfq).
    unfold modify in Hfq. injection Hfq as <-. cbn. apply lookup_delete_eq. }
  split.
  { intros d Hd. rewrite Hd in Hfdb. unfold mlx5_free_db in Hfdb.
    apply bind_inv in Hfdb as ([] & sx & _ & Hfdb).
    unfold modify in Hfdb. injection Hfdb as <-.
    rewrite K1, K0, K. cbn. apply lookup_delete_eq. }
  unfold mlx5_free_qp_buf in Hfbuf.
  apply bind_inv in Hfbuf as ([] & sa & Hb1 & Hb2).
  assert (Hdel : ∀ b sx x sy,
            mlx5_free_actual_buf b sx = Some (x, sy) →
            bufs sy = match b with
                      | Some k => delete k (bufs sx)
                      | None => bufs sx
                      end).
  { intros b sx x sy Hf. unfold mlx5_free_actual_buf in Hf.
    apply bind_inv in Hf as ([] & sz & Hl & Hf). same bufs Hl.
    destruct b; unfold modify, ret in Hf; injection Hf as Hf; subst sy;
      cbn; congruence. }
  apply Hdel in Hb1.
  assert (Hb2' : bufs s10 = match sq_buf q with
                            | Some k => delete k (bufs sa)
                            | None => bufs sa
                            end).
  { destruct (sq_buf q) as [k|].
    - rewrite bool_decide_eq_true_2 in Hb2 by done. cbn [when] in Hb2.
      by apply Hdel in Hb2.
    - rewrite bool_decide_eq_false_2 in Hb2 by (intros ?; done).
      cbn [when] in Hb2. unfold ret in Hb2. by injection Hb2 as <-. }
  rewrite K3, K2, Hb2', Hb1.
  split.
  - intros b Hb. rewrite Hb. destruct (sq_buf q) as [k|].
    + destruct (decide (b = k)) as [->|Hne];
        [apply lookup_delete_eq|].
      rewrite lookup_delete_ne by done. apply lookup_delete_eq.
    + apply lookup_delete_eq.
  - intros b Hb. rewrite Hb. apply lookup_delete_eq.
Qed.

(** [mlx5_query_qp] on an RSS QP answers [ENOSYS] and touches nothing; on
    another QP an error of the kernel is returned with the caller's
    capabilities as they were. *)
Theorem query_qp_guards p q s cap0 :
  qps s !! p = Some q →
  (rss_qp q = true →
     mlx5_query_qp X p cap0 s = Some ((C.ENOSYS, cap0), s))
  ∧ (rss_qp q = false → x_cmd_query_qp X ≠ 0 →
     ∃ s', mlx5_query_qp X p cap0 s = Some ((x_cmd_query_qp X, cap0), s') ∧
           store s' = store s).
Proof.
  intros Hq. unfold mlx5_query_qp, get_qp. split.
  - intros Hrss. msimpl. rewrite Hq. cbn. by rewrite Hrss.
  - intros Hrss Hx. apply Z.eqb_neq in Hx. msimpl. rewrite Hq. cbn.
    rewrite Hrss, Hx. cbn. eauto.
Qed.

(** The guards of [mlx5_modify_qp]: an RSS QP gets [ENOSYS], and an
    underlay QP asked to change more than its state gets [EINVAL]; in both
    cases nothing is sent to the kernel and nothing changes. *)
Theorem modify_qp_guards p q attr mask s :
  qps s !! p = Some q → dc_type q ≠ MLX5DV_DCTYPE_DCT →
  (rss_qp q = true →
     mlx5_modify_qp F X htobe32 p attr mask s = Some (C.ENOSYS, s))
  ∧ (rss_qp q = false →
     C.bits (flags q) (MLX5_QP_FLAGS_USE_UNDERLAY F) = true →
     C.bits mask (Z.lnot (Z.lor (IBV_QP_STATE F) (IBV_QP_CUR_STATE F)))
       = true →
     mlx5_modify_qp F X htobe32 p attr mask s = Some (C.EINVAL, s)).
Proof.
  intros Hq Hdc. unfold mlx5_modify_qp, get_qp, get_ctx. split.
  - intros Hrss. msimpl. rewrite Hq. cbn.
    rewrite bool_decide_eq_false_2 by exact Hdc. by rewrite Hrss.
  - intros Hrss Hu Hm. msimpl. rewrite Hq. cbn.
    rewrite bool_decide_eq_false_2 by exact Hdc.
    by rewrite Hrss, Hu, Hm.
Qed.

End LifeMore.

Lemma destroy_rss_qp_witness :
  ∃ s',
    mlx5_destroy_qp sample_extern 7
      rss_state = Some (0, s') ∧
    cqs s' = cqs live_state.
Proof.
  assert (Hrun : ∃ s',
    mlx5_destroy_qp sample_extern 7
      rss_state = Some (0, s')) by (eexists; vm_compute; reflexivity).
  destruct Hrun as (s' & Hrun).
  destruct (destroy_rss_qp sample_extern 7%nat (set_rss_qp true sample_qp)
              rss_state 0 s' eq_refl eq_refl Hrun) as (_ & Hc & _).
  exists s'. split; [exact Hrun|exact Hc].
Defined.

Lemma destroy_qp_releases_witness :
  ∃ s',
    mlx5_destroy_qp sample_extern 7 live_state = Some (0, s') ∧
    qps s' !! 7%nat = None ∧ dbrecs s' !! 30%nat = None.
Proof.
  assert (Hrun : ∃ s',
    mlx5_destroy_qp sample_extern 7 live_state = Some (0, s'))
    by (eexists; vm_compute; reflexivity).
  destruct Hrun as (s' & Hrun).
  destruct (destroy_qp_releases sample_extern 7%nat sample_qp live_state s'
              eq_refl eq_refl ltac:(discriminate) Hrun)
    as (Hgone & Hdb & _).
  exists s'. split; [exact Hrun|]. split; [exact Hgone|].
  apply Hdb. reflexivity.
Defined.

Lemma query_qp_guards_witness :
  mlx5_query_qp sample_extern 7 sample_cap rss_state
  = Some ((C.ENOSYS, sample_cap), rss_state).
Proof.
  apply (proj1 (query_qp_guards sample_extern 7%nat
                  (set_rss_qp true sample_qp) rss_state sample_cap
                  eq_refl)).
  reflexivity.
Defined.

Lemma modify_qp_guards_witness :
  mlx5_modify_qp sample_flag_bits sample_extern (λ x, x) 7 reset_attr 1
    rss_state = Some (C.ENOSYS, rss_state).
Proof.
  apply (proj1 (modify_qp_guards sample_flag_bits sample_extern (λ x, x)
                  7%nat (set_rss_qp true sample_qp) reset_attr 1 rss_state
                  eq_refl ltac:(discriminate))).
  reflexivity.
Defined.

Section CreateMore.

Context (L : wqe_layout) (F : flag_bits) (mlx5_ilog2 : Z → Z) (X : extern).

(** The first guards of [create_qp]: a capability bit outside the supported
    mask, and a TSO header on a QP that is not a raw packet QP, give [NULL]
    before anything is allocated, [errno] untouched; the source-QPN flag on
    a QP that is not UD gives [NULL] with [errno = EINVAL]. *)
Theorem create_qp_guards attr dv s :
  (C.bits (comp_mask attr) (Z.lnot (MLX5_CREATE_QP_SUP_COMP_MASK F)) = true →
     create_qp L F mlx5_ilog2 X attr dv s = Some ((None, attr), s))
  ∧ (C.bits (comp_mask attr) (IBV_QP_INIT_ATTR_MAX_TSO_HEADER F) = true →
     qp_type attr ≠ IBV_QPT_RAW_PACKET →
     create_qp L F mlx5_ilog2 X attr dv s = Some ((None, attr), s))
  ∧ (C.bits (comp_mask attr) (Z.lnot (MLX5_CREATE_QP_SUP_COMP_MASK F)) = false →
     C.bits (comp_mask attr) (IBV_QP_INIT_ATTR_MAX_TSO_HEADER F) = false →
     C.bits (comp_mask attr) (IBV_QP_INIT_ATTR_CREATE_FLAGS F) = true →
     C.bits (create_flags attr) (IBV_QP_CREATE_SOURCE_QPN F) = true →
     qp_type attr ≠ IBV_QPT_UD → x_calloc X ≠ None →
     create_qp L F mlx5_ilog2 X attr dv s
       = Some ((None, attr), set_errno C.EINVAL s)).
Proof.
  unfold create_qp. cbv zeta. split; [|split].
  - intros ->. reflexivity.
  - intros Htso Hty. rewrite Htso, bool_decide_eq_true_2 by exact Hty.
    by destruct (C.bits (comp_mask attr) (Z.lnot _)).
  - intros -> -> -> -> Hty Hc. cbn [andb].
    destruct (x_calloc X) as [p|]; [|done].
    rewrite bool_decide_eq_true_2 by exact Hty. reflexivity.
Qed.

(** [mlx5_alloc_qp_buf] does not leak the first buffer: when the QP needs a
    send buffer of its own and that allocation fails, the call returns
    [-ENOMEM] and the buffers are the ones there were before. *)
Theorem alloc_qp_buf_no_leak attr q s b :
  x_malloc_sq_wrid X = true → x_malloc_sq_wr_data X = true →
  x_malloc_sq_wqe_head X = true → x_malloc_rq_wrid X = true →
  separate_sq F attr q = true →
  x_alloc_buf X = Some b → x_alloc_sq_buf X = None → bufs s !! b = None →
  ∃ q' s',
    mlx5_alloc_qp_buf F X attr q s = Some ((- C.ENOMEM, q'), s') ∧
    bufs s' = bufs s ∧ qps s' = qps s.
Proof.
  intros H1 H2 H3 H4 Hsep Hb Hsb Hfresh. unfold mlx5_alloc_qp_buf.
  cbv zeta. rewrite H1, H2, H3, H4, !andb_false_r. cbn [negb].
  unfold get_ctx, mlx5_alloc_prefered_buf, mlx5_free_actual_buf.
  rewrite Hb, Hsb. unfold separate_sq in *.
  cbn [flags set_buf set_rq set_sq qp_type]. rewrite Hsep. msimpl.
  eexists _, _. split; [reflexivity|]. cbn.
  split; [|reflexivity]. rewrite delete_insert_eq.
  by apply delete_id.
Qed.

(** A QP comes out of [create_qp] only if [calloc] gave its struct and the
    kernel created it; the struct is then in place. *)
Theorem create_qp_needs_kernel attr dv s p attr' s' :
  create_qp L F mlx5_ilog2 X attr dv s = Some ((Some p, attr'), s') →
  x_calloc X = Some p ∧ x_cmd_create_qp X = 0 ∧ is_Some (qps s' !! p).
Proof.
  intros H. unfold create_qp in H. cbv zeta in H.
  destruct (C.bits (comp_mask attr) (Z.lnot _)); [dead H|].
  destruct (_ && _); [dead H|].
  destruct (x_calloc X) as [p0|]; [|dead H].
  destruct (_ && bool_decide (qp_type attr ≠ IBV_QPT_UD)); [dead H|].
  assert (Hk : ∀ c a q0 s0 q1 s1,
            ibv_cmd_create_qp X c a q0 s0 = Some ((0, q1), s1) →
            x_cmd_create_qp X = 0).
  { intros c a q0 s0 q1 s1 Hr. unfold ibv_cmd_create_qp in Hr.
    apply bind_inv in Hr as ([] & sx & _ & Hr).
    destruct (Z.eqb_spec (x_cmd_create_qp X) 0) as [E|E]; [exact E|].
    cbn [negb] in Hr. unfold ret in Hr. by injection Hr as -> _. }
  assert (Hput : ∀ (r : Z * mlx5_qp) s0,
            (let '(ret_, qp) := r in
             if negb (ret_ =? 0) then ret (None, attr)
             else put_qp p0 qp ;;; ret (Some p0, attr)) s0
              = Some ((Some p, attr'), s') →
            r.1 = 0 ∧ p0 = p ∧ is_Some (qps s' !! p)).
  { intros [r q1] s0 Hr. destruct (Z.eqb_spec r 0) as [->|?];
      cbn [negb] in Hr; [|dead Hr].
    apply bind_inv in Hr as ([] & sx & Hp & Hr).
    unfold ret in Hr. injection Hr as <- _ <-.
    unfold put_qp, modify in Hp. injection Hp as <-. cbn.
    rewrite lookup_insert_eq. eauto. }
  assert (Hcase : ∀ q fl,
    (if C.bits (comp_mask attr) (IBV_QP_INIT_ATTR_RX_HASH F)
     then bind (mlx5_cmd_create_rss_qp X attr q fl)
            (λ '(ret_, qp), if negb (ret_ =? 0) then ret (None, attr)
                            else bind (put_qp p0 qp)
                                   (λ _, ret (Some p0, attr)))
     else create_qp_wq L F mlx5_ilog2 X attr p0 q fl) s
      = Some ((Some p, attr'), s') →
    Some p0 = Some p ∧ x_cmd_create_qp X = 0 ∧ is_Some (qps s' !! p)).
  { intros q fl Hrun.
    destruct (C.bits (comp_mask attr) (IBV_QP_INIT_ATTR_RX_HASH F)).
    - apply bind_inv in Hrun as ([r q1] & s1 & Hrss & Hrun).
      destruct (Hput (r, q1) _ Hrun) as (Hr & -> & Hin). cbn in Hr.
      subst r. split; [done|]. split; [|exact Hin].
      unfold mlx5_cmd_create_rss_qp in Hrss.
      destruct (negb (x_rx_hash_key_fits X)).
      { apply bind_inv in Hrss as ([] & sx & _ & Hrss).
        unfold ret, C.EINVAL in Hrss. simplify_eq. }
      apply bind_inv in Hrss as ([r q2] & s2 & Hc & Hrss).
      destruct (Z.eqb_spec r 0) as [->|?]; cbn [negb] in Hrss;
        unfold ret in Hrss; [|simplify_eq]. by eapply Hk.
    - unfold create_qp_wq in Hrun. cbv zeta in Hrun.
      apply bind_inv in Hrun as (c & s1 & _ & Hrun).
      apply bind_inv in Hrun as ([[ret_ attr1] qp1] & s2 & _ & Hrun).
      destruct (ret_ <? 0); [dead Hrun|].
      apply bind_inv in Hrun as ([err qp3] & s3 & _ & Hrun).
      destruct (negb (err =? 0)); [dead Hrun|].
      destruct (_ || _); [dead Hrun|].
      apply bind_inv in Hrun as (d & s4 & _ & Hrun).
      destruct d as [d|]; [|dead Hrun].
      apply bind_inv in Hrun as ([] & s5 & _ & Hrun).
      apply bind_inv in Hrun as ([] & s6 & _ & Hrun).
      apply bind_inv in Hrun as (usr_idx & s7 & _ & Hrun).
      destruct (usr_idx <? 0); [dead Hrun|].
      apply bind_inv in Hrun as (mparent & s8 & _ & Hrun).
      apply bind_inv in Hrun as (dyn_bf & s9 & _ & Hrun).
      apply bind_inv in Hrun as (bfreg_index & s10 & _ & Hrun).
      apply bind_inv in Hrun as ([ret2 qp6] & s11 & Hc & Hrun).
      destruct (Z.eqb_spec ret2 0) as [->|?]; [|dead Hrun].
      cbn [negb] in Hrun.
      apply bind_inv in Hrun as (stored & s12 & _ & Hrun).
      destruct (negb (stored =? 0)); [dead Hrun|].
      apply bind_inv in Hrun as ([] & s13 & _ & Hrun).
      apply bind_inv in Hrun as ([] & s14 & _ & Hrun).
      apply bind_inv in Hrun as ([] & s15 & Hp & Hrun).
      unfold ret in Hrun. injection Hrun as <- _ <-.
      unfold put_qp, modify in Hp. injection Hp as <-. cbn.
      rewrite lookup_insert_eq. split; [done|]. split; [by eapply Hk|eauto]. }
  destruct dv as [a|].
  - destruct (negb (check_comp_mask _ _)); [dead H|].
    destruct (_ && bool_decide (qp_type attr ≠ IBV_QPT_DRIVER)); [dead H|].
    destruct (_ && negb _); [dead H|].
    destruct (bool_decide (qp_type attr = IBV_QPT_DRIVER)).
    + destruct (C.bits (dv_comp_mask a) (MLX5DV_QP_INIT_ATTR_MASK_DC F));
        [|dead H].
      destruct (dv_dc_type a) as [| | |v];
        [dead H| |exact (Hcase _ _ H)|dead H].
      apply bind_inv in H as ([r q1] & s1 & Hdct & H).
      destruct (Hput (r, q1) _ H) as (Hr & -> & Hin). cbn in Hr.
      subst r. split; [done|]. split; [|exact Hin].
      unfold create_dct in Hdct.
      destruct (negb (check_comp_mask (comp_mask attr) _)).
      { apply bind_inv in Hdct as ([] & sx & _ & Hdct).
        unfold ret, C.EINVAL in Hdct. simplify_eq. }
      destruct (negb (check_comp_mask (dv_comp_mask a) _)).
      { apply bind_inv in Hdct as ([] & sx & _ & Hdct).
        unfold ret, C.EINVAL in Hdct. simplify_eq. }
      apply bind_inv in Hdct as (c & sa & _ & Hdct).
      apply bind_inv in Hdct as (usr_idx & sb & _ & Hdct).
      destruct (usr_idx <? 0).
      { apply bind_inv in Hdct as ([] & sx & _ & Hdct).
        unfold ret, C.ENOMEM in Hdct. simplify_eq. }
      apply bind_inv in Hdct as ([r q2] & sc & Hc & Hdct).
      destruct (Z.eqb_spec r 0) as [->|?]; [by eapply Hk|].
      cbn [negb] in Hdct.
      apply bind_inv in Hdct as ([] & sx & _ & Hdct).
      unfold ret in Hdct. simplify_eq.
    + exact (Hcase _ _ H).
  - destruct (bool_decide (qp_type attr = IBV_QPT_DRIVER)); [dead H|].
    exact (Hcase _ _ H).
Qed.

(** The descriptor size of a send queue that [mlx5_calc_send_wqe] returns
    is a whole number of basic blocks of 64 bytes, within [int]. *)
Theorem send_wqe_whole_blocks c attr qp w qp' :
  mlx5_calc_send_wqe L F c attr qp = Some (w, qp') → 0 ≤ w →
  (MLX5_SEND_WQE_BB | w) ∧ w < 2 ^ 31 ∧ sq qp' = sq qp ∧ rq qp' = rq qp.
Proof.
  intros H Hw. destruct (calc_send_wqe_divide _ _ _ _ _ _ _ H Hw) as [Hd Hlt].
  destruct (calc_send_wqe_sq _ _ _ _ _ _ _ H) as (Hsq & Hrq & _).
  done.
Qed.

End CreateMore.

Lemma alloc_qp_buf_no_leak_witness :
  ∃ q' s',
    mlx5_alloc_qp_buf sample_flag_bits raw_no_sq_buf_extern raw_attr qp_zero
      sample_state = Some ((- C.ENOMEM, q'), s') ∧
    bufs s' = bufs sample_state.
Proof.
  destruct (alloc_qp_buf_no_leak sample_flag_bits raw_no_sq_buf_extern
              raw_attr qp_zero sample_state 20%nat eq_refl eq_refl eq_refl
              eq_refl eq_refl eq_refl eq_refl eq_refl)
    as (q' & s' & Hrun & Hb & _).
  by exists q', s'.
Defined.

Lemma create_qp_needs_kernel_witness :
  ∃ attr' s',
    create_qp mlx5_wqe_layout sample_flag_bits sample_ilog2 sample_extern
      sample_attr None sample_state = Some ((Some 7%nat, attr'), s') ∧
    is_Some (qps s' !! 7%nat).
Proof.
  assert (Hrun : ∃ attr' s',
    create_qp mlx5_wqe_layout sample_flag_bits sample_ilog2 sample_extern
      sample_attr None sample_state = Some ((Some 7%nat, attr'), s'))
    by (eexists _, _; vm_compute; reflexivity).
  destruct Hrun as (attr' & s' & Hrun).
  destruct (create_qp_needs_kernel mlx5_wqe_layout sample_flag_bits
              sample_ilog2 sample_extern sample_attr None sample_state
              7%nat attr' s' Hrun) as (_ & _ & Hin).
  by exists attr', s'.
Defined.

Lemma send_wqe_whole_blocks_witness :
  ∃ qp',
    mlx5_calc_send_wqe mlx5_wqe_layout sample_flag_bits sample_ctx
      sample_attr qp_zero = Some (320, qp') ∧
    (MLX5_SEND_WQE_BB | 320).
Proof.
  assert (Hrun : ∃ qp',
    mlx5_calc_send_wqe mlx5_wqe_layout sample_flag_bits sample_ctx
      sample_attr qp_zero = Some (320, qp'))
    by (eexists; vm_compute; reflexivity).
  destruct Hrun as (qp' & Hrun).
  destruct (send_wqe_whole_blocks mlx5_wqe_layout sample_flag_bits
              sample_ctx sample_attr qp_zero 320 qp' Hrun ltac:(lia))
    as (Hd & _).
  by exists qp'.
Defined.

Section BfMore.

Context (B : bf_layout).

(** A slot that has been mapped once is handed out again without a new
    mapping: whatever [mmap] would answer, the acquisition succeeds with
    the lowest free slot and leaves every BF as it is. *)
Theorem attach_reuses_mapping X s i b0 :
  bfregs_wf B (ctx s) →
  first_free (count_dyn_bfregs (ctx s)) = Some i →
  bfs (ctx s) !! Z.to_nat (start_dyn_bfregs_index (ctx s) + i) = Some b0 →
  bf_reg b0 ≠ None →
  ∃ s',
    mlx5_attach_dedicated_bf B X s
      = Some (Some (start_dyn_bfregs_index (ctx s) + i), s') ∧
    bfs (ctx s') = bfs (ctx s) ∧
    count_dyn_bfregs (ctx s') = <[Z.to_nat i := 1]> (count_dyn_bfregs (ctx s)).
Proof.
  intros Hwf Hff Hb0 Hreg.
  destruct (attach_dedicated_bf_run B X s Hwf) as (r & s' & Hr & _ & Hcase).
  rewrite Hff in Hcase.
  destruct Hcase as [(-> & Hcnt & b & b0' & _ & _ & Hb0' & Hsame & _)
                    |(_ & _ & _ & b0' & Hb0' & Hnone)].
  - exists s'. split; [exact Hr|]. split; [|exact Hcnt].
    apply Hsame. congruence.
  - congruence.
Qed.

Lemma preserves_with_ctx_other {A T} (g : state → T)
    (f : mlx5_context → option (A * mlx5_context)) :
  (∀ c s, g (set_ctx c s) = g s) → preserves g (with_ctx f).
Proof.
  intros Hg s x s' H. unfold with_ctx in H.
  destruct (f (ctx s)) as [[y c]|]; [|done]. simplify_eq. apply Hg.
Qed.

Lemma detach_keeps_tds bf :
  preserves tds (mlx5_detach_dedicated_bf bf).
Proof.
  unfold mlx5_detach_dedicated_bf, get_bf, mlx5_put_bfreg_index.
  repeat (first [ frame_step
                | apply preserves_with_ctx_other; reflexivity
                | progress unfold get_ctx, log, mutex_lock, mutex_unlock ]).
Qed.

(** Thread domains: [mlx5_alloc_td] followed by [mlx5_dealloc_td] returns 0,
    frees the struct, and leaves the slot counters as they were before the
    allocation. *)
Theorem alloc_dealloc_td X s td s1 :
  bfregs_wf B (ctx s) → bf_index_inv (ctx s) → tds s !! td = None →
  mlx5_alloc_td B X 0 s = Some (Some td, s1) →
  ∃ s2,
    mlx5_dealloc_td td s1 = Some (0, s2) ∧ tds s2 = tds s ∧
    count_dyn_bfregs (ctx s2) = count_dyn_bfregs (ctx s).
Proof.
  intros Hwf Hinv Hfresh H. unfold mlx5_alloc_td in H. cbn [Z.eqb negb] in H.
  destruct (x_calloc X) as [td0|]; [|dead H].
  apply bind_inv in H as (bf & sa & Hatt & H).
  destruct bf as [bf|]; [|dead H].
  apply bind_inv in H as ([] & sb & Hmod & H).
  unfold ret in H. injection H as <- <-.
  unfold modify in Hmod. injection Hmod as <-.
  assert (Htds : tds sa = tds s).
  { refine ((_ : preserves tds (mlx5_attach_dedicated_bf B X)) _ _ _ Hatt).
    unfold mlx5_attach_dedicated_bf, mlx5_get_bfreg_index, get_bf, put_bf,
      mlx5_put_bfreg_index.
    repeat (first [ frame_step
                  | apply preserves_with_ctx_other; reflexivity
                  | progress unfold get_ctx, log, set_err, mutex_lock,
                      mutex_unlock ]). }
  destruct (attach_detach_attach B X X s bf sa Hwf Hinv Hatt)
    as (s2 & _ & Hdet & Hcnt & _).
  set (s1 := set_tds (<[td0 := {| td_bf := bf; td_refcount := 1 |}]> (tds sa))
               sa).
  assert (Hdet1 : ∃ s2', mlx5_detach_dedicated_bf bf s1 = Some (tt, s2') ∧
                         ctx s2' = ctx s2 ∧ tds s2' = tds s1).
  { unfold mlx5_detach_dedicated_bf, get_bf, mlx5_put_bfreg_index,
      get_ctx, mutex_lock, mutex_unlock, with_ctx in *.
    msimpl. msimpl_in Hdet. cbn [ctx set_trace] in *.
    change (ctx s1) with (ctx sa).
    destruct (nth_z (bfs (ctx sa)) bf) as [b|]; [|done]. cbn in *.
    destruct (nth_z (count_dyn_bfregs (ctx sa)) (bf_bfreg_dyn_index b))
      as [n|]; [|done]. cbn in *.
    destruct (upd_z _ _ _) as [l|]; [|done]. cbn in *.
    injection Hdet as <-. eexists. split; [reflexivity|]. done. }
  destruct Hdet1 as (s2' & Hdet1 & Hctx & Htds1).
  exists (set_tds (delete td0 (tds s2')) s2').
  split.
  - assert (Hget : get_td td0 s1
                    = Some ({| td_bf := bf; td_refcount := 1 |}, s1)).
    { unfold get_td. msimpl. unfold s1. cbn [tds set_tds].
      rewrite lookup_insert_eq. done. }
    unfold mlx5_dealloc_td. erewrite bind_run by exact Hget.
    cbn [td_refcount td_bf]. change (1 >? 1) with false. cbv iota.
    erewrite bind_run by exact Hdet1. reflexivity.
  - cbn. rewrite Htds1. unfold s1. cbn. rewrite delete_insert_eq.
    split; [|congruence]. rewrite Htds. by apply delete_id.
Qed.

End BfMore.

Lemma attach_reuses_mapping_witness :
  ∃ s',
    mlx5_attach_dedicated_bf mlx5_bf_layout
      raw_no_sq_buf_extern released_state = Some (Some 2, s') ∧
    bfs (ctx s') = bfs (ctx released_state).
Proof.
  assert (Hwf : bfregs_wf mlx5_bf_layout (ctx released_state)).
  { unfold bfregs_wf. vm_compute.
    repeat split; try reflexivity; intros; discriminate. }
  assert (Hb : ∃ b0,
    bfs (ctx released_state)
      !! Z.to_nat (start_dyn_bfregs_index (ctx released_state) + 0)
      = Some b0 ∧ bf_reg b0 ≠ None).
  { eexists. split; [vm_compute; reflexivity|]. vm_compute. discriminate. }
  destruct Hb as (b0 & Hb0 & Hreg).
  destruct (attach_reuses_mapping mlx5_bf_layout raw_no_sq_buf_extern
              released_state 0 b0 Hwf eq_refl Hb0 Hreg)
    as (s' & Hrun & Hbfs & _).
  exists s'. split; [exact Hrun|exact Hbfs].
Defined.

Lemma alloc_dealloc_td_witness :
  ∃ s1 s2,
    mlx5_alloc_td mlx5_bf_layout sample_extern 0 sample_state
      = Some (Some 7%nat, s1) ∧
    mlx5_dealloc_td 7 s1 = Some (0, s2) ∧
    count_dyn_bfregs (ctx s2) = count_dyn_bfregs (ctx sample_state).
Proof.
  assert (Hrun : ∃ s1,
    mlx5_alloc_td mlx5_bf_layout sample_extern 0 sample_state
      = Some (Some 7%nat, s1)) by (eexists; vm_compute; reflexivity).
  destruct Hrun as (s1 & Hrun).
  destruct (alloc_dealloc_td mlx5_bf_layout sample_extern sample_state 7%nat
              s1 sample_ctx_bfregs_wf sample_ctx_bf_index_inv eq_refl Hrun)
    as (s2 & Hd & _ & Hc).
  by exists s1, s2.
Defined.

Section ModifyMore.

Context (L : wqe_layout) (F : flag_bits) (X : extern) (htobe32 : Z → Z).

(** A modify command that the kernel refuses resets nothing: the error is
    returned, the CQs and the doorbell records are as before, and the QP
    keeps its queues and their cursors. *)
Theorem modify_qp_refused p q attr mask s r s' :
  qps s !! p = Some q → dc_type q ≠ MLX5DV_DCTYPE_DCT →
  x_cmd_modify_qp X p ≠ 0 →
  mlx5_modify_qp F X htobe32 p attr mask s = Some (r, s') →
  r ≠ 0 ∧ cqs s' = cqs s ∧ dbrecs s' = dbrecs s ∧
  ∃ q', qps s' !! p = Some q' ∧ sq q' = sq q ∧ rq q' = rq q ∧
        qp_links q' = qp_links q.
Proof.
  intros Hq Hdc Hx H. unfold mlx5_modify_qp in H. cbv zeta in H.
  apply bind_inv in H as (q' & s1 & Hget & H).
  unfold get_qp in Hget. msimpl_in Hget. rewrite Hq in Hget.
  injection Hget as <- <-.
  apply bind_inv in H as (c & s1 & Hc & H).
  unfold get_ctx in Hc. msimpl_in Hc. injection Hc as <- <-.
  rewrite bool_decide_eq_false_2 in H by exact Hdc.
  destruct (rss_qp q).
  { unfold ret, C.ENOSYS in H. injection H as <- <-. eauto 10. }
  destruct (_ && C.bits mask _).
  { unfold ret, C.EINVAL in H. injection H as <- <-. eauto 10. }
  apply bind_inv in H as (mqp & s1 & Hm & H).
  assert (Hl : sq mqp = sq q ∧ rq mqp = rq q ∧ qp_links mqp = qp_links q).
  { clear H.
    repeat match type of Hm with
    | (if ?b then _ else _) _ = _ => destruct b
    | bind _ _ _ = _ => apply bind_inv in Hm as (? & ? & _ & Hm)
    end; unfold ret in Hm; injection Hm as <- _;
    repeat match goal with
    | |- context [if ?b then _ else _] => destruct b
    end; done. }
  same cqs Hm. same qps Hm. same dbrecs Hm. clear Hm.
  apply bind_inv in H as ([] & s2 & Hput & H).
  apply bind_inv in H as ([] & s3 & Hlog & H).
  apply bind_inv in H as ([] & s4 & Hblock & H).
  apply bind_inv in H as ([] & s5 & Hrtr & H).
  unfold ret in H. injection H as <- <-.
  apply Z.eqb_neq in Hx. rewrite Hx in Hblock, Hrtr.
  cbn [andb when] in Hblock, Hrtr. unfold ret in Hblock, Hrtr.
  injection Hblock as <-. injection Hrtr as <-.
  same cqs Hput. same dbrecs Hput. same cqs Hlog. same dbrecs Hlog.
  same qps Hlog.
  split; [by apply Z.eqb_neq|]. split; [congruence|]. split; [congruence|].
  exists mqp. split; [|exact Hl].
  rewrite K6. unfold put_qp, modify in Hput. injection Hput as <-.
  cbn. apply lookup_insert_eq.
Qed.

(** The descriptor size of a receive queue.  With an SRQ it is 0.
    Otherwise the scatter list takes [max(max_recv_sge, 1)] data segments,
    and a signature when the QP signs its work queue; if that is more than
    [max_rq_desc_sz] the result is [-EINVAL]; if not, it is the least
    power of two that holds it, or [-ENOMEM] when that is above [2^30]. *)
Theorem rcv_wqe_size c attr qp :
  let size :=
    sizeof_data_seg L * Z.max (max_recv_sge (cap attr)) 1
    + (if wq_sig qp then sizeof_rwqe_sig L else 0) in
  (attr_srq attr ≠ None → mlx5_calc_rcv_wqe L c attr qp = 0)
  ∧ (attr_srq attr = None →
     0 < sizeof_data_seg L → 0 ≤ sizeof_rwqe_sig L → size < 2 ^ 31 →
     (C.to_uint (max_rq_desc_sz c) < size →
      mlx5_calc_rcv_wqe L c attr qp = - C.EINVAL)
     ∧ (size ≤ C.to_uint (max_rq_desc_sz c) → size ≤ 2 ^ 30 →
        ∃ j, 0 ≤ j ≤ 30 ∧ mlx5_calc_rcv_wqe L c attr qp = 2 ^ j ∧
             size ≤ 2 ^ j ∧ (0 < j → 2 ^ (j - 1) < size))
     ∧ (size ≤ C.to_uint (max_rq_desc_sz c) → 2 ^ 30 < size →
        mlx5_calc_rcv_wqe L c attr qp = - C.ENOMEM)).
Proof.
  intros size. unfold mlx5_calc_rcv_wqe. split.
  - intros Hsrq. by rewrite bool_decide_eq_true_2.
  - intros Hsrq Hd Hsig Hsz.
    rewrite bool_decide_eq_false_2 by (intros ?; done). cbv zeta.
    set (n := Z.max (max_recv_sge (cap attr)) 1) in *.
    assert (Hn : 1 ≤ n) by lia.
    assert (Hdn : n ≤ sizeof_data_seg L * n) by nia.
    assert (Hsig' : 0 ≤ (if wq_sig qp then sizeof_rwqe_sig L else 0))
      by (destruct (wq_sig qp); lia).
    assert (Hsize : 1 ≤ size < 2 ^ 31) by (unfold size in *; lia).
    rewrite (to_int_id n) by lia.
    assert (Hul : C.to_ulong n = n)
      by (unfold C.to_ulong; apply Z.mod_small; lia).
    rewrite Hul.
    assert (Heq : (if wq_sig qp
                   then C.to_uint (C.to_uint (sizeof_data_seg L * n)
                                   + sizeof_rwqe_sig L)
                   else C.to_uint (sizeof_data_seg L * n)) = size).
    { unfold size in *. destruct (wq_sig qp).
      - rewrite (to_uint_id (sizeof_data_seg L * n)) by lia.
        apply to_uint_id. lia.
      - rewrite Z.add_0_r. apply to_uint_id. lia. }
    rewrite Heq. clearbody size. clear Heq.
    split; [|split].
    + intros Hbig.
      destruct (Z.gtb_spec size (C.to_uint (max_rq_desc_sz c)));
        [reflexivity|lia].
    + intros Hfit Hsmall.
      destruct (Z.gtb_spec size (C.to_uint (max_rq_desc_sz c))); [lia|].
      destruct (round_up_power_of_two_bounds size ltac:(lia))
        as (j & Hj & -> & Hle & Hmin).
      assert (0 < 2 ^ j ≤ 2 ^ 30)
        by (split; [apply Z.pow_pos_nonneg; lia
                   |apply Z.pow_le_mono_r; lia]).
      exists j. split; [done|].
      rewrite to_uint_id, to_int_id by lia.
      split; [done|]. split; [done|]. intros Hj0.
      destruct Hmin as [->|Hmin]; [lia|done].
    + intros Hfit Hbig.
      destruct (Z.gtb_spec size (C.to_uint (max_rq_desc_sz c))); [lia|].
      rewrite round_up_power_of_two_big by lia. vm_compute. reflexivity.
Qed.

End ModifyMore.

Lemma modify_qp_refused_witness :
  ∃ s',
    mlx5_modify_qp sample_flag_bits modify_busy_extern (λ x, x) 7
      reset_attr 1 live_state = Some (C.EBUSY, s') ∧
    cqs s' = cqs live_state.
Proof.
  assert (Hrun : ∃ r s',
    mlx5_modify_qp sample_flag_bits modify_busy_extern (λ x, x) 7
      reset_attr 1 live_state = Some (r, s') ∧ r = C.EBUSY)
    by (eexists _, _; split; [vm_compute; reflexivity|reflexivity]).
  destruct Hrun as (r & s' & Hrun & ->).
  destruct (modify_qp_refused sample_flag_bits modify_busy_extern (λ x, x)
              7%nat sample_qp reset_attr 1 live_state C.EBUSY s' eq_refl
              ltac:(discriminate) ltac:(discriminate) Hrun)
    as (_ & Hc & _).
  exists s'. split; [exact Hrun|exact Hc].
Defined.

(** One scatter entry takes 16 bytes; 33 take 528, more than the adapter's
    512. *)
Lemma rcv_wqe_size_witness :
  mlx5_calc_rcv_wqe mlx5_wqe_layout sample_ctx recv_only_attr qp_zero = 16
  ∧ mlx5_calc_rcv_wqe mlx5_wqe_layout sample_ctx
      (set_cap_depths recv_only_attr 0 16 33) qp_zero = - C.EINVAL.
Proof.
  split.
  - reflexivity.
  - refine (proj1 (proj2 (rcv_wqe_size mlx5_wqe_layout sample_ctx
                            (set_cap_depths recv_only_attr 0 16 33) qp_zero)
                     eq_refl _ _ _) _);
      vm_compute; done.
Defined.

(** ** Send-queue sizing within [int] *)

Section SizingMore.

Context (L : wqe_layout) (F : flag_bits) (mlx5_ilog2 : Z → Z) (X : extern).

(** The descriptor-size test (lines 1083 to 1092).  For a request whose
    fields are within their C types and whose descriptor needs fewer than
    [2^31] bytes, [mlx5_calc_send_wqe] returns [-EINVAL] when the bytes
    needed exceed [max_sq_desc_sz], and otherwise those bytes rounded up to
    whole blocks of 64.  When it refuses, so does [mlx5_calc_sq_size], and
    the work-queue path of [create_qp] returns [NULL] with
    [errno = EINVAL] and nothing else changed. *)
Theorem send_wqe_size_checked c attr qp :
  0 ≤ sq_overhead L F qp (qp_type attr) →
  0 < sizeof_data_seg L < 2 ^ 32 → 0 ≤ sizeof_inl_data_seg L < 2 ^ 32 →
  0 ≤ max_send_sge (cap attr) < 2 ^ 32 →
  0 ≤ max_inline_data (cap attr) < 2 ^ 32 →
  0 ≤ max_tso_header attr < 2 ^ 16 →
  0 ≤ max_sq_desc_sz c < 2 ^ 30 →
  send_wqe_bytes L F attr qp < 2 ^ 31 →
  fst <$> mlx5_calc_send_wqe L F c attr qp =
    Some (if send_wqe_bytes L F attr qp >? max_sq_desc_sz c then - C.EINVAL
          else align (send_wqe_bytes L F attr qp) MLX5_SEND_WQE_BB)
  ∧ (max_sq_desc_sz c < send_wqe_bytes L F attr qp →
     0 < max_send_wr (cap attr) →
     (∃ qp1, mlx5_calc_sq_size L F mlx5_ilog2 c attr qp
             = Some (- C.EINVAL, attr, qp1)) ∧
     ∀ p qp0 fl s,
       ctx s = c → qp = set_wq_sig (x_qp_signature X) qp0 →
       create_qp_wq L F mlx5_ilog2 X attr p qp0 fl s
         = Some ((None, attr), set_errno C.EINVAL s)).
Proof.
  intros Hov Hd Hil Hg Hi Hh Hmax HD.
  pose proof (calc_send_wqe_exact L F c attr qp Hov Hd Hil Hg Hi Hh Hmax HD)
    as Hexact.
  split; [exact Hexact|]. intros Hbig Hwr.
  destruct (Z.gtb_spec (send_wqe_bytes L F attr qp) (max_sq_desc_sz c))
    as [_|?]; [|lia].
  destruct (mlx5_calc_send_wqe L F c attr qp) as [[w qp1]|] eqn:Hw;
    [|discriminate]. cbn in Hexact. injection Hexact as ->.
  assert (Hsq : mlx5_calc_sq_size L F mlx5_ilog2 c attr qp
                = Some (- C.EINVAL, attr, qp1)).
  { unfold mlx5_calc_sq_size.
    destruct (Z.eqb_spec (max_send_wr (cap attr)) 0) as [?|_]; [lia|].
    rewrite Hw. reflexivity. }
  split; [by exists qp1|].
  intros p qp0 fl s Hc ->. subst c.
  assert (Hneg : - C.EINVAL < 0) by done.
  exact (create_qp_wq_rejects L F mlx5_ilog2 X attr p qp0 fl s _ _ _
           (calc_wq_size_rejects L F mlx5_ilog2 _ _ _ _ _ _ Hsq Hneg) Hneg).
Qed.

(** A send-queue sizing that is accepted: the bytes are [2^k], the slot
    count [2^(k-6)] is at least [max_send_wr] and at most
    [max_send_wqebb], and the descriptor size is a whole number of blocks
    between 64 and [max_sq_desc_sz].  A sizing that is refused makes the
    work-queue path of [create_qp] return [NULL] with [errno] the negated
    result, and nothing else changed. *)
Theorem sq_sizing_accepts c attr qp r attr' qp' :
  0 < max_send_wr (cap attr) →
  mlx5_calc_sq_size L F mlx5_ilog2 c attr qp = Some (r, attr', qp') →
  (0 ≤ r →
   ∃ w qp1 k,
     mlx5_calc_send_wqe L F c attr qp = Some (w, qp1) ∧
     MLX5_SEND_WQE_BB ≤ w ≤ max_sq_desc_sz c ∧ (MLX5_SEND_WQE_BB | w) ∧
     6 ≤ k ≤ 30 ∧ r = 2 ^ k ∧ max_send_wr (cap attr) * w ≤ r ∧
     wqe_cnt (sq qp') = 2 ^ (k - 6) ∧
     max_send_wr (cap attr) ≤ wqe_cnt (sq qp') ≤ C.to_uint (max_send_wqebb c))
  ∧ (r < 0 →
     ∀ p qp0 fl s,
       ctx s = c → qp = set_wq_sig (x_qp_signature X) qp0 →
       create_qp_wq L F mlx5_ilog2 X attr p qp0 fl s
         = Some ((None, attr'), set_errno (- r) s)).
Proof.
  intros Hwr Hsq. split.
  - intros Hr.
    destruct (calc_sq_size_accept _ _ _ _ _ _ _ _ _ Hwr Hsq Hr)
      as (w & qp1 & k & Hw & Hwb & Hdiv & Hk & -> & Hprod & Hcnt & Hmaxbb
          & _).
    exists w, qp1, k. repeat (split; [done|]).
    split; [|exact Hmaxbb]. unfold MLX5_SEND_WQE_BB in *.
    assert (Hpow : 2 ^ k = 2 ^ (k - 6) * 64).
    { change 64 with (2 ^ 6). rewrite <- Z.pow_add_r by lia. f_equal. lia. }
    rewrite Hcnt. nia.
  - intros Hr p qp0 fl s Hc ->. subst c.
    eapply create_qp_wq_rejects; [|exact Hr].
    by apply calc_wq_size_rejects.
Qed.

End SizingMore.

(** A TSO header of 1000 bytes does not fit a descriptor of 512: 1072 bytes
    are needed with one gather entry, and the request is refused. *)
Lemma send_wqe_size_checked_witness :
  send_wqe_bytes mlx5_wqe_layout sample_flag_bits (tso_attr 1) qp_zero = 1072
  ∧ fst <$> mlx5_calc_send_wqe mlx5_wqe_layout sample_flag_bits sample_ctx
              (tso_attr 1) qp_zero = Some (- C.EINVAL)
  ∧ create_qp_wq mlx5_wqe_layout sample_flag_bits sample_ilog2 sample_extern
      (tso_attr 1) 7 qp_zero 0 sample_state
    = Some ((None, tso_attr 1), set_errno C.EINVAL sample_state).
Proof.
  split; [vm_compute; reflexivity|].
  destruct (send_wqe_size_checked mlx5_wqe_layout sample_flag_bits
              sample_ilog2 sample_extern sample_ctx (tso_attr 1) qp_zero
              ltac:(by vm_compute) ltac:(by vm_compute)
              ltac:(by vm_compute) ltac:(by vm_compute)
              ltac:(by vm_compute) ltac:(by vm_compute)
              ltac:(by vm_compute) ltac:(by vm_compute))
    as (Hw & Hrej).
  split; [exact Hw|].
  destruct (Hrej ltac:(by vm_compute) ltac:(by vm_compute))
    as (_ & Hcreate).
  apply Hcreate; reflexivity.
Defined.

(** The sample request: 200 sends of 320 bytes take 65536 bytes, 1024
    slots. *)
Lemma sq_sizing_accepts_witness :
  ∃ attr' qp',
    mlx5_calc_sq_size mlx5_wqe_layout sample_flag_bits sample_ilog2
      sample_ctx sample_attr qp_zero = Some (65536, attr', qp') ∧
    wqe_cnt (sq qp') = 1024 ∧
    max_send_wr (cap sample_attr) ≤ wqe_cnt (sq qp').
Proof.
  assert (Hrun : ∃ attr' qp',
    mlx5_calc_sq_size mlx5_wqe_layout sample_flag_bits sample_ilog2
      sample_ctx sample_attr qp_zero = Some (65536, attr', qp') ∧
    wqe_cnt (sq qp') = 1024).
  { eexists _, _. split; [vm_compute; reflexivity|reflexivity]. }
  destruct Hrun as (attr' & qp' & Hrun & Hcnt).
  destruct (sq_sizing_accepts mlx5_wqe_layout sample_flag_bits sample_ilog2
              sample_extern sample_ctx sample_attr qp_zero 65536 attr' qp'
              ltac:(cbn; lia) Hrun) as (Hacc & _).
  destruct (Hacc ltac:(lia)) as (w & qp1 & k & _ & _ & _ & _ & _ & _ & _
                                & Hle & _).
  exists attr', qp'. split; [exact Hrun|]. split; [exact Hcnt|exact Hle].
Defined.
